(** * pydpf-core: the hand-written convenience layer

    A shallow embedding of [ansys/dpf/core/mesh_scoping_factory.py],
    [fields_factory.py], [model.py] and [results.py], and the properties
    of the client-side contract that are stated about them.

    Python objects that are mutated in place and shared (operators) live
    in a store and are referred to by location; exceptions are explicit
    outcomes; the remote server is a record of reply functions. *)

From stdpp Require Import base gmap strings list.
From Stdlib Require Import ZArith Lia.

Local Open Scope Z_scope.
Local Open Scope string_scope.

(** ** Python values, exceptions and the client session *)

Module Py.

(** Store locations of client-side operator objects. *)
Abbreviation loc := positive.

(** [ansys.dpf.core.Scoping]: entity ids and a location tag. *)
Record Scoping := mkScoping { ids : list Z; location : string }.

(** [ansys.dpf.core.DataSources]: built from a result path or empty. *)
Record DataSources := mkDataSources { result_path : option string }.

(** The values that flow through the modelled functions.  Lists and
    tuples hold integer ids, as in the docstrings ([List of int]). *)
Inductive pyval :=
| PNone
| PInt (z : Z)
| PStr (s : string)
| PList (l : list Z)
| PTuple (l : list Z)
| PScoping (s : Scoping)
| PDataSources (d : DataSources)
| POperator (l : loc)
| POutputs (l : loc).

(** Python truth-value testing: [None], zero, the empty string and
    empty sequences are false; an object is true unless its class
    defines [__len__] (as [Scoping] does, see [len(fc[0].scoping)] in
    the docstrings of results.py) and the length is zero. *)
Definition truthy (v : pyval) : bool :=
  match v with
  | PNone => false
  | PInt z => negb (Z.eqb z 0)
  | PStr s => negb (String.eqb s "")
  | PList l | PTuple l => negb (Nat.eqb (length l) 0)
  | PScoping s => negb (Nat.eqb (length (ids s)) 0)
  | PDataSources _ | POperator _ | POutputs _ => true
  end.

(** [isinstance(v, list)]. *)
Definition is_list (v : pyval) : bool :=
  match v with PList _ => true | _ => false end.

(** What a connect-time type check sees of a value: its class, and for
    an operator (or its outputs) the operator's remote name. *)
Inductive pytype :=
| TNone | TInt | TStr | TList | TTuple | TScoping | TDataSources
| TOperator (nm : string)
| TOutputs (nm : string).

(** Exceptions raised or propagated by the modelled code. *)
Inductive pyexn :=
| TypeError (msg : string)
| ValueError (msg : string)
| AttributeError (attr : string)
| RuntimeError (msg : string)
| InvalidTypeError (expected param : string)
| InactiveRpcError (details : string)
| DPFServerException (msg : string).

(** A client-side [Operator]: its remote name, the inputs connected
    through a named pin ([op.inputs.<pin>(v)], last write wins) and the
    inputs connected by type ([op.inputs.connect(v)]), latest first. *)
Record Operator := mkOperator {
  op_name : string;
  op_inputs : gmap string pyval;
  op_typed : list pyval
}.

Definition type_of (st : gmap loc Operator) (v : pyval) : pytype :=
  match v with
  | PNone => TNone
  | PInt _ => TInt
  | PStr _ => TStr
  | PList _ => TList
  | PTuple _ => TTuple
  | PScoping _ => TScoping
  | PDataSources _ => TDataSources
  | POperator l => TOperator (from_option op_name "" (st !! l))
  | POutputs l => TOutputs (from_option op_name "" (st !! l))
  end.

End Py.
Export Py.

(** ** [ansys.dpf.core.common]: the constants used below

    common.py is not part of the sources at hand; the location tags are
    the strings quoted in the docstrings of fields_factory.py and
    results.py, the nature names are the ones [_create_field] compares
    with. *)

Module locations.
Definition nodal : string := "Nodal".
Definition elemental : string := "Elemental".
End locations.

Inductive natures := scalar | vector | matrix | symmatrix.

Definition nature_name (n : natures) : string :=
  match n with
  | scalar => "scalar"
  | vector => "vector"
  | matrix => "matrix"
  | symmatrix => "symmatrix"
  end.

(** ** mesh_scoping_factory.py *)

Module mesh_scoping_factory.

(** Modelled from the spec: [Scoping(server=server, ids=...,
    location=...)] (scoping.py is missing): a scoping with these ids, in
    order, and this location tag. *)
Definition Scoping_new (l : list Z) (where_ : string) : Scoping :=
  {| ids := l; location := where_ |}.

Definition nodal_scoping (node_ids : pyval) : pyexn + Scoping :=
  match node_ids with
  | PList l => inr (Scoping_new l locations.nodal)
  | _ => inl (InvalidTypeError "list" "node_ids")
  end.

Definition elemental_scoping (element_ids : pyval) : pyexn + Scoping :=
  match element_ids with
  | PList l => inr (Scoping_new l locations.elemental)
  | _ => inl (InvalidTypeError "list" "element_ids")
  end.

End mesh_scoping_factory.

(** ** Remote payloads and the state of a client session *)

(** One entry of [ResultInfo]: a physical quantity the file offers. *)
Record AvailableResult := mkAvailableResult {
  name : string;
  operator_name : string;
  native_scoping_location : string
}.

Record ResultInfo := mkResultInfo {
  unit_system : string;
  available_results : list AvailableResult
}.

(** [TimeFreqSupport.time_frequencies] is a field or [None]; the client
    only takes its length, the samples are kept as opaque codes. *)
Record TimeFreqSupport := mkTimeFreqSupport {
  time_frequencies : option (list Z)
}.

(** The [nature] argument of [_create_field]: a member of [natures]
    (it has a [name]) or a bare string. *)
Inductive nature_arg :=
| NatureEnum (n : natures)
| NatureStr (s : string).

(** [Dimensionality(dim_vec, nature)]. *)
Record Dimensionality := mkDimensionality {
  dim : list Z;
  dim_nature : nature_arg
}.

(** [field_pb2.FieldRequest] as [_create_field] fills it. *)
Record FieldRequest := mkFieldRequest {
  req_nature : string;
  req_location : string;
  scoping_size : Z;
  dimensionality : option Dimensionality;
  data_size : Z
}.

(** The attributes of [Metadata].  [_data_sources] is [None] until
    [_set_data_sources] has assigned it. *)
Record Metadata := mkMetadata {
  _data_sources : option DataSources;
  _meshed_region : option nat;
  result_info : option ResultInfo;
  _stream_provider : option loc;
  _time_freq_support : option TimeFreqSupport
}.

(** A session: the operator store, the transport counters and the
    [Metadata] of the model the results are bound to. *)
Record Session := mkSession {
  store : gmap loc Operator;
  fresh : loc;
  evaluations : nat;
  fields_allocated : nat;
  create_requests : list FieldRequest;
  model : Metadata
}.

Definition with_store (st : gmap loc Operator) (s : Session) : Session :=
  {| store := st; fresh := fresh s; evaluations := evaluations s;
     fields_allocated := fields_allocated s;
     create_requests := create_requests s; model := model s |}.

Definition with_model (m : Metadata) (s : Session) : Session :=
  {| store := store s; fresh := fresh s; evaluations := evaluations s;
     fields_allocated := fields_allocated s;
     create_requests := create_requests s; model := m |}.

(** What the code takes from outside the sources at hand. *)
Record Env := mkEnv {
  (** Modelled from the spec: the connect-time type check of
      [Input.connect] (inputs.py is missing), by operator name, pin
      ([None] for [op.inputs.connect(v)]) and type of the value. *)
  accepts : string -> option string -> pytype -> bool;
  (** The remote name of a generated wrapper class
      [operators.category.attr]. *)
  wrapper_name : string -> string -> string;
  (** [hasattr(operators, category) and hasattr(operators.category, attr)]
      on the generated operator package. *)
  has_wrapper : string -> string -> bool;
  (** The server's replies to an output read of the operator at a
      location, given the whole operator graph. *)
  reply_result_info : gmap loc Operator -> loc -> pyexn + ResultInfo;
  reply_time_freq_support : gmap loc Operator -> loc -> pyexn + TimeFreqSupport;
  reply_fields_container : gmap loc Operator -> loc -> pyexn + nat;
  reply_run : gmap loc Operator -> loc -> option pyexn;
  (** The server's reply to [FieldServiceStub.Create]. *)
  reply_create : FieldRequest -> pyexn + nat
}.

(** ** The state and exception monad of the client code *)

Inductive outcome (A : Type) :=
| Ret (a : A) (s : Session)
| Raise (e : pyexn) (s : Session).
Arguments Ret {A} a s.
Arguments Raise {A} e s.

Definition M (A : Type) : Type := Session -> outcome A.

Definition ret {A} (a : A) : M A := fun s => Ret a s.

Definition raise {A} (e : pyexn) : M A := fun s => Raise e s.

Definition bind {A B} (c : M A) (k : A -> M B) : M B :=
  fun s => match c s with
           | Ret a s' => k a s'
           | Raise e s' => Raise e s'
           end.

(** [try: c  except: h(e)]: the handler runs in the state the body left. *)
Definition try_except {A} (c : M A) (h : pyexn -> M A) : M A :=
  fun s => match c s with
           | Ret a s' => Ret a s'
           | Raise e s' => h e s'
           end.

#[global] Instance M_ret : MRet M := @ret.
#[global] Instance M_bind : MBind M := fun A B k c => bind c k.

Definition final {A} (o : outcome A) : Session :=
  match o with Ret _ s => s | Raise _ s => s end.

Definition get_model : M Metadata := fun s => Ret (model s) s.

Definition put_model (m : Metadata) : M unit := fun s => Ret tt (with_model m s).

Section Client.

Variable env : Env.

(** Modelled from the spec: [Operator(name, server=...)]
    (dpf_operator.py is missing): a new operator object, nothing
    connected.  The model covers sessions whose server is reachable and
    knows the operator names the code uses. *)
Definition Operator_new (nm : string) : M loc :=
  fun s =>
    let l := fresh s in
    Ret l {| store := <[l := mkOperator nm ∅ []]> (store s);
             fresh := Pos.succ l; evaluations := evaluations s;
             fields_allocated := fields_allocated s;
             create_requests := create_requests s; model := model s |}.

Definition plug (pin : option string) (v : pyval) (op : Operator) : Operator :=
  match pin with
  | Some p => mkOperator (op_name op) (<[p := v]> (op_inputs op)) (op_typed op)
  | None => mkOperator (op_name op) (op_inputs op) (v :: op_typed op)
  end.

(** Modelled from the spec: [Input.connect] / [_Inputs.connect] (§4.2):
    a value the pin does not accept fails with a type error, otherwise
    the previous connection of the pin is replaced.  No evaluation. *)
Definition connect (l : loc) (pin : option string) (v : pyval) : M unit :=
  fun s =>
    match store s !! l with
    | None => Raise (AttributeError "inputs") s
    | Some op =>
        if accepts env (op_name op) pin (type_of (store s) v)
        then Ret tt (with_store (<[l := plug pin v op]> (store s)) s)
        else Raise (TypeError (default "inputs" pin)) s
    end.

(** Modelled from the spec: an output read ([get_output], [run],
    [outputs.<pin>()]; §4.3): one remote evaluation, whatever the
    reply. *)
Definition evaluate {A} (reply : gmap loc Operator -> loc -> pyexn + A)
    (l : loc) : M A :=
  fun s =>
    let s' := {| store := store s; fresh := fresh s;
                 evaluations := S (evaluations s);
                 fields_allocated := fields_allocated s;
                 create_requests := create_requests s; model := model s |} in
    match reply (store s) l with
    | inl e => Raise e s'
    | inr a => Ret a s'
    end.

End Client.

(** ** fields_factory.py *)

Module fields_factory.

(** *** numpy arrays, as far as [field_from_array] looks at them *)

(** Element types: the usual ones by name, any other by whether numpy
    places it under [np.number]. *)
Inductive dtype :=
| float64 | int64 | complex128 | bool_ | str_ | object_
| other_dtype (number : bool).

(** [np.issubdtype(d, np.number)]. *)
Definition issubdtype_number (d : dtype) : bool :=
  match d with
  | float64 | int64 | complex128 => true
  | bool_ | str_ | object_ => false
  | other_dtype number => number
  end.

(** An array after [np.asarray]: element type, shape and the elements in
    row-major order (as opaque codes). *)
Record ndarray := mkArray {
  arr_dtype : dtype;
  shape : list nat;
  flat : list Z
}.

Definition ndim (a : ndarray) : nat := length (shape a).

Definition size (a : ndarray) : nat := foldr Nat.mul 1%nat (shape a).

(** [a.shape[i]]. *)
Definition shape_at (a : ndarray) (i : nat) : nat := nth i (shape a) 0%nat.

(** [a.ravel()]: the same elements, one dimension. *)
Definition ravel (a : ndarray) : ndarray :=
  {| arr_dtype := arr_dtype a; shape := [size a]; flat := flat a |}.

(** [np.arange(start, stop)]. *)
Definition arange (start stop : Z) : list Z :=
  map (fun i => start + Z.of_nat i) (seq 0 (Z.to_nat (stop - start))).

(** Modelled from the spec: [Field] (field.py is missing), as far as
    [field_from_array] uses it: nature, entity count, the data assigned
    to [field.data] and the ids assigned to [field.scoping.ids]. *)
Record Field := mkField {
  field_nature : natures;
  nentities : nat;
  data : option ndarray;
  scoping_ids : list Z
}.

(** Modelled from the spec: [Field(nentities=n, nature=nature)]
    allocates the field, empty. *)
Definition Field_new (n : nat) (nature : natures) : M Field :=
  fun s =>
    Ret (mkField nature n None [])
        {| store := store s; fresh := fresh s; evaluations := evaluations s;
           fields_allocated := S (fields_allocated s);
           create_requests := create_requests s; model := model s |}.

Definition shp_err : pyexn :=
  ValueError "Array must be either contain 1 dimension or 2 dimensions with three components.".

Definition field_from_array (arr : ndarray) : M Field :=
  if negb (issubdtype_number (arr_dtype arr))
  then raise (TypeError "Array must be a numeric type")
  else
    '(arr, nature) ←
      (if Nat.eqb (ndim arr) 1 then mret (arr, scalar)
       else if Nat.eqb (ndim arr) 2 then
         if Nat.eqb (shape_at arr 1) 1 then mret (ravel arr, scalar)
         else if Nat.eqb (shape_at arr 1) 3 then mret (arr, vector)
         else if Nat.eqb (shape_at arr 1) 6 then mret (arr, symmatrix)
         else raise shp_err
       else raise shp_err);
    let n_entities := shape_at arr 0 in
    field ← Field_new n_entities nature;
    mret {| field_nature := field_nature field;
            nentities := nentities field;
            data := Some arr;
            scoping_ids := arange 1 (Z.of_nat n_entities + 1) |}.

(** *** Remote field creation *)

Definition upper_ascii (c : Ascii.ascii) : Ascii.ascii :=
  let n := Ascii.nat_of_ascii c in
  if (Nat.leb 97 n && Nat.leb n 122)%bool
  then Ascii.ascii_of_nat (n - 32) else c.

(** [str.upper()] on ASCII text. *)
Fixpoint upper (s : string) : string :=
  match s with
  | EmptyString => EmptyString
  | String c r => String (upper_ascii c) (upper r)
  end.

(** Modelled from the spec: [base_pb2.Nature.Value(NAME)] (the protobuf
    enumeration is missing): the four natures named in §6 are its
    members, any other name is a value error. *)
Definition Nature_Value (nm : string) : pyexn + string :=
  if (String.eqb nm "SCALAR" || String.eqb nm "VECTOR"
      || String.eqb nm "MATRIX" || String.eqb nm "SYMMATRIX")%bool
  then inr nm
  else inl (ValueError nm).

Section Create.

Variable env : Env.

(** Modelled from the spec: [stub.Create(request)] (§6): the request
    goes out, the server replies. *)
Definition stub_Create (request : FieldRequest) : M nat :=
  fun s =>
    let s' := {| store := store s; fresh := fresh s;
                 evaluations := evaluations s;
                 fields_allocated := fields_allocated s;
                 create_requests := create_requests s ++ [request];
                 model := model s |} in
    match reply_create env request with
    | inl e => Raise e s'
    | inr message => Ret message s'
    end.

Definition _create_field (nature : nature_arg) (nentities : Z)
    (location : string) (ncomp_n ncomp_m : Z) : M nat :=
  let snature :=
    match nature with NatureEnum n => nature_name n | NatureStr s => s end in
  let elem_data_size :=
    if String.eqb snature (nature_name vector) then 3
    else if String.eqb snature (nature_name symmatrix) then 6
    else if String.eqb snature (nature_name scalar) then 1
    else if String.eqb snature (nature_name matrix) then ncomp_n * ncomp_m
    else ncomp_n in
  let dimensionality :=
    if (negb (ncomp_n =? 0)%Z && negb (ncomp_m =? 0)%Z)%bool
    then Some (mkDimensionality [ncomp_n; ncomp_m] nature)
    else if (negb (ncomp_n =? 0)%Z && (ncomp_m =? 0)%Z)%bool
    then Some (mkDimensionality [ncomp_n] nature)
    else None in
  match Nature_Value (upper snature) with
  | inl e => raise e
  | inr nature_value =>
      let request :=
        {| req_nature := nature_value;
           req_location := location;
           scoping_size := nentities;
           dimensionality := dimensionality;
           data_size := nentities * elem_data_size |} in
      stub_Create request
  end.

Definition create_matrix_field (num_entities num_lines num_col : Z)
    (location : string) : M nat :=
  _create_field (NatureEnum matrix) num_entities location num_col num_lines.

Definition create_3d_vector_field (num_entities : Z) (location : string) : M nat :=
  _create_field (NatureEnum vector) num_entities location 0 0.

Definition create_tensor_field (num_entities : Z) (location : string) : M nat :=
  _create_field (NatureEnum symmatrix) num_entities location 0 0.

Definition create_scalar_field (num_entities : Z) (location : string) : M nat :=
  _create_field (NatureEnum scalar) num_entities location 0 0.

Definition create_vector_field (num_entities num_comp : Z)
    (location : string) : M nat :=
  _create_field (NatureEnum vector) num_entities location num_comp 0.

End Create.

End fields_factory.

(** ** model.py: [Metadata] *)

Module Metadata.

(** [needle in hay] on strings. *)
Fixpoint contains (needle hay : string) : bool :=
  (String.prefix needle hay
   || match hay with
      | EmptyString => false
      | String _ rest => contains needle rest
      end)%bool.

Definition blank : Metadata :=
  {| _data_sources := None; _meshed_region := None; result_info := None;
     _stream_provider := None; _time_freq_support := None |}.

Definition set_data_sources (d : DataSources) (m : Metadata) : Metadata :=
  {| _data_sources := Some d; _meshed_region := _meshed_region m;
     result_info := result_info m; _stream_provider := _stream_provider m;
     _time_freq_support := _time_freq_support m |}.

Definition set_stream_provider (o : option loc) (m : Metadata) : Metadata :=
  {| _data_sources := _data_sources m; _meshed_region := _meshed_region m;
     result_info := result_info m; _stream_provider := o;
     _time_freq_support := _time_freq_support m |}.

Definition set_result_info (o : option ResultInfo) (m : Metadata) : Metadata :=
  {| _data_sources := _data_sources m; _meshed_region := _meshed_region m;
     result_info := o; _stream_provider := _stream_provider m;
     _time_freq_support := _time_freq_support m |}.

Definition set_meshed_region (o : option nat) (m : Metadata) : Metadata :=
  {| _data_sources := _data_sources m; _meshed_region := o;
     result_info := result_info m; _stream_provider := _stream_provider m;
     _time_freq_support := _time_freq_support m |}.

Definition set_time_freq_support (o : option TimeFreqSupport) (m : Metadata) : Metadata :=
  {| _data_sources := _data_sources m; _meshed_region := _meshed_region m;
     result_info := result_info m; _stream_provider := _stream_provider m;
     _time_freq_support := o |}.

(** [self.<attr> = v] on the session's [Metadata]. *)
Definition assign (f : Metadata -> Metadata) : M unit :=
  self ← get_model; put_model (f self).

Section Methods.

Variable env : Env.

(** [self._data_sources]; the attribute must have been assigned. *)
Definition read_data_sources : M DataSources :=
  self ← get_model;
  match _data_sources self with
  | Some d => mret d
  | None => raise (AttributeError "_data_sources")
  end.

(** [self._stream_provider.outputs]; [None] has no [outputs]. *)
Definition stream_provider_outputs : M pyval :=
  self ← get_model;
  match _stream_provider self with
  | Some sp => mret (POutputs sp)
  | None => raise (AttributeError "outputs")
  end.

(** Modelled from the spec: the generated wrapper
    [operators.metadata.streams_provider(data_sources=..., server=...)]
    (missing), built like every generated constructor (§9): it
    constructs the operator, then connects the argument to its
    [data_sources] pin ([if data_sources != None]). *)
Definition streams_provider_wrapper (data_sources : DataSources) : M loc :=
  op ← Operator_new (wrapper_name env "metadata" "streams_provider");
  connect env op (Some "data_sources") (PDataSources data_sources);;
  mret op.

Definition _cache_streams_provider : M unit :=
  if has_wrapper env "metadata" "stream_provider" then
    ds ← read_data_sources;
    op ← streams_provider_wrapper ds;
    assign (set_stream_provider (Some op))
  else
    op ← Operator_new "stream_provider";
    assign (set_stream_provider (Some op));;
    ds ← read_data_sources;
    connect env op None (PDataSources ds).

Definition _set_data_sources (var_inp : pyval) : M unit :=
  (match var_inp with
   | PDataSources d => assign (set_data_sources d)
   | PStr path => assign (set_data_sources (mkDataSources (Some path)))
   | _ => assign (set_data_sources (mkDataSources None))
   end);;
  _cache_streams_provider.

Definition _load_result_info : M ResultInfo :=
  op ← Operator_new "ResultInfoProvider";
  outs ← stream_provider_outputs;
  connect env op None outs;;
  try_except (evaluate (reply_result_info env) op)
    (fun e =>
       match e with
       | InactiveRpcError details =>
           if contains "results file is not defined in the Data sources" details
           then raise (RuntimeError "Unable to open result file")
           else raise e
       | _ => raise e
       end).

Definition _cache_result_info : M unit :=
  ri ← _load_result_info;
  assign (set_result_info (Some ri)).

(** [Metadata(data_sources, server)] on a new object. *)
Definition __init__ (data_sources : pyval) : M unit :=
  put_model blank;;
  _set_data_sources data_sources;;
  assign (set_meshed_region None);;
  assign (set_result_info None);;
  assign (set_stream_provider None);;
  assign (set_time_freq_support None);;
  _cache_streams_provider;;
  _cache_result_info.

(** The [time_freq_support] property: computed on first access, cached. *)
Definition time_freq_support : M TimeFreqSupport :=
  self ← get_model;
  match _time_freq_support self with
  | Some tfs => mret tfs
  | None =>
      timeProvider ← Operator_new "TimeFreqSupportProvider";
      outs ← stream_provider_outputs;
      connect env timeProvider None outs;;
      tfs ← evaluate (reply_time_freq_support env) timeProvider;
      assign (set_time_freq_support (Some tfs));;
      mret tfs
  end.

(** [tmp.run()]: an evaluation whose outputs are dropped. *)
Definition run (l : loc) : M unit :=
  evaluate (fun st l => match reply_run env st l with
                        | Some e => inl e
                        | None => inr tt
                        end) l.

(** The [mesh_provider] property; the first block is wrapped in a bare
    [try/except: pass]. *)
Definition mesh_provider : M loc :=
  try_except
    (tmp ← Operator_new "MeshSelectionManagerProvider";
     outs ← stream_provider_outputs;
     connect env tmp None outs;;
     run tmp)
    (fun _ => mret tt);;
  mesh_provider ← Operator_new "MeshProvider";
  outs ← stream_provider_outputs;
  connect env mesh_provider None outs;;
  mret mesh_provider.

End Methods.

End Metadata.

(** ** results.py: [Result] *)

(** The attributes of a [Result] whose constructor attached
    [_operator]; [_model] is the session's model. *)
Record Result := mkResult {
  _time_scoping : pyval;
  _mesh_scoping : pyval;
  _location : pyval;
  _result_info : AvailableResult;
  _specific_fc_type : option string;
  _operator : loc
}.

(** The container classes [eval] may return. *)
Inductive container :=
| FieldsContainer (fc : nat)
| ElShapeFieldsContainer (fc : nat)
| BodyFieldsContainer (fc : nat).

Module Result.

Definition set_time_scoping (v : pyval) (r : Result) : Result :=
  {| _time_scoping := v; _mesh_scoping := _mesh_scoping r;
     _location := _location r; _result_info := _result_info r;
     _specific_fc_type := _specific_fc_type r; _operator := _operator r |}.

Definition set_mesh_scoping (v : pyval) (r : Result) : Result :=
  {| _time_scoping := _time_scoping r; _mesh_scoping := v;
     _location := _location r; _result_info := _result_info r;
     _specific_fc_type := _specific_fc_type r; _operator := _operator r |}.

Definition set_location (v : pyval) (r : Result) : Result :=
  {| _time_scoping := _time_scoping r; _mesh_scoping := _mesh_scoping r;
     _location := v; _result_info := _result_info r;
     _specific_fc_type := _specific_fc_type r; _operator := _operator r |}.

Definition set_specific_fc_type (t : option string) (r : Result) : Result :=
  {| _time_scoping := _time_scoping r; _mesh_scoping := _mesh_scoping r;
     _location := _location r; _result_info := _result_info r;
     _specific_fc_type := t; _operator := _operator r |}.

(** [len(tfs.time_frequencies)]; [None] has no length. *)
Definition len_time_frequencies (tfs : TimeFreqSupport) : M nat :=
  match time_frequencies tfs with
  | Some samples => mret (length samples)
  | None => raise (TypeError "len")
  end.

Section Methods.

Variable env : Env.

Definition __call__ (self : Result) (time_scoping mesh_scoping : pyval) : M loc :=
  let op := _operator self in
  (if truthy time_scoping
   then connect env op (Some "time_scoping") time_scoping
   else if truthy (_time_scoping self)
   then connect env op (Some "time_scoping") (_time_scoping self)
   else mret tt);;
  (if truthy mesh_scoping
   then connect env op (Some "mesh_scoping") mesh_scoping
   else if truthy (_mesh_scoping self)
   then connect env op (Some "mesh_scoping") (_mesh_scoping self)
   else mret tt);;
  (if truthy (_location self)
   then connect env op (Some "requested_location") (_location self)
   else mret tt);;
  mret op.

Definition eval (self : Result) : M container :=
  op ← __call__ self PNone PNone;
  fc ← evaluate (reply_fields_container env) op;
  if bool_decide (_specific_fc_type self = Some "shape")
  then mret (ElShapeFieldsContainer fc)
  else if bool_decide (_specific_fc_type self = Some "body")
  then mret (BodyFieldsContainer fc)
  else mret (FieldsContainer fc).

(** The selectors assign an attribute of [self] and return [self]: the
    returned record is the object after the assignment. *)
Definition on_all_time_freqs (self : Result) : M Result :=
  tfs ← Metadata.time_freq_support env;
  n ← len_time_frequencies tfs;
  mret (set_time_scoping
          (PList (fields_factory.arange 1 (Z.of_nat n + 1))) self).

Definition on_first_time_freq (self : Result) : M Result :=
  mret (set_time_scoping (PInt 1) self).

Definition on_last_time_freq (self : Result) : M Result :=
  tfs ← Metadata.time_freq_support env;
  n ← len_time_frequencies tfs;
  mret (set_time_scoping (PInt (Z.of_nat n)) self).

Definition on_time_scoping (self : Result) (time_scoping : pyval) : M Result :=
  mret (set_time_scoping time_scoping self).

Definition _add_split_on_property_type (self : Result) (prop : string) : M Result :=
  let previous_mesh_scoping := _mesh_scoping self in
  split ←
    (if has_wrapper env "scoping" "split_on_property_type"
     then Operator_new (wrapper_name env "scoping" "split_on_property_type")
     else Operator_new "scoping::by_property");
  let self := set_mesh_scoping (POperator split) self in
  connect env split (Some "requested_location")
    (PStr (native_scoping_location (_result_info self)));;
  mesh ← Metadata.mesh_provider env;
  connect env split (Some "mesh") (POperator mesh);;
  connect env split (Some "label1") (PStr prop);;
  (if truthy previous_mesh_scoping
   then try_except
          (connect env split (Some "mesh_scoping") previous_mesh_scoping)
          (fun _ => mret tt)
   else mret tt);;
  mret self.

Definition split_by_body (self : Result) : M Result :=
  _add_split_on_property_type (set_specific_fc_type (Some "body") self) "mat".

Definition split_by_shape (self : Result) : M Result :=
  _add_split_on_property_type (set_specific_fc_type (Some "shape") self) "elshape".

Definition on_mesh_scoping (self : Result) (mesh_scoping : pyval) : M Result :=
  let mesh_scoping :=
    match mesh_scoping with
    | PList l =>
        PScoping (mesh_scoping_factory.Scoping_new l
                    (native_scoping_location (_result_info self)))
    | _ => mesh_scoping
    end in
  mret (set_mesh_scoping mesh_scoping self).

Definition on_location (self : Result) (location : pyval) : M Result :=
  mret (set_location location self).

End Methods.

End Result.

(** * The rest of the convenience layer *)

(** What this code takes from outside, beside [Env]. *)
Record Remote := mkRemote {
  (** Modelled from the spec: [Operator(name)] with a name that comes
      from the result file or from the caller fails with a server
      exception when the server has no such operator (§7). *)
  known : string -> bool;
  (** [hasattr(op.inputs, pin)], by the operator's remote name. *)
  has_pin : string -> string -> bool;
  (** The server's reply to the read of the mesh provider's output. *)
  reply_meshed_region : gmap loc Operator -> loc -> pyexn + nat;
  (** Modelled from the spec: [MeshedRegion.named_selection(name)]
      (meshed_region.py is missing): a round trip that returns the
      scoping of the named selection of a mesh, or fails. *)
  reply_named_selection : nat -> string -> pyexn + Scoping
}.

(** Modelled from the spec: [Operator(name, server=...)] for a name the
    server may not know. *)
Definition Operator_checked (remote : Remote) (nm : string) : M loc :=
  if known remote nm then Operator_new nm else raise (DPFServerException nm).

(** The remote name of the operator object at a location. *)
Definition op_name_at (l : loc) : M string :=
  fun s => Ret (from_option op_name "" (store s !! l)) s.

(** ** model.py: the mesh and the named selections of [Metadata] *)

Module Metadata_mesh.

Section Methods.

Variable env : Env.
Variable remote : Remote.

(** The [meshed_region] property: read through a mesh provider on first
    access, cached.  The last statement of the source hands the stream
    provider to the mesh object and changes nothing here. *)
Definition meshed_region : M nat :=
  self ← get_model;
  match _meshed_region self with
  | Some mesh => mret mesh
  | None =>
      provider ← Metadata.mesh_provider env;
      mesh ← evaluate (reply_meshed_region remote) provider;
      Metadata.assign (Metadata.set_meshed_region (Some mesh));;
      mret mesh
  end.

Definition named_selection (named_selection : string) : M Scoping :=
  mesh ← meshed_region;
  match reply_named_selection remote mesh named_selection with
  | inl e => raise e
  | inr scoping => mret scoping
  end.

End Methods.

End Metadata_mesh.

(** ** mesh_scoping_factory.py: [named_selection_scoping] *)

Definition named_selection_scoping (env : Env) (remote : Remote)
    (named_selection_name : string) : M Scoping :=
  Metadata_mesh.named_selection env remote named_selection_name.

(** ** model.py: [Model.__connect_op__] and [Model.operator] *)

Module Model.

Section Methods.

Variable env : Env.
Variable remote : Remote.

(** [_data_sources], once assigned, is a [DataSources] object: the
    test [is not None] of the second branch always holds. *)
Definition __connect_op__ (op : loc) : M unit :=
  self ← get_model;
  nm ← op_name_at op;
  if (bool_decide (is_Some (_stream_provider self))
      && has_pin remote nm "streams")%bool
  then
    outs ← Metadata.stream_provider_outputs;
    connect env op (Some "streams") outs
  else
    data_sources ← Metadata.read_data_sources;
    if has_pin remote nm "data_sources"
    then connect env op (Some "data_sources") (PDataSources data_sources)
    else mret tt.

Definition operator (nm : string) : M loc :=
  op ← Operator_checked remote nm;
  __connect_op__ op;;
  mret op.

End Methods.

End Model.

(** ** results.py: constructing a [Result], [on_named_selection] *)

(** A [Result] object: with the attributes of the record when its
    constructor attached [_operator], or left without that attribute
    (every selector attribute is [None] then). *)
Inductive result_obj :=
| WithOperator (r : Result)
| WithoutOperator (result_info : AvailableResult).

Module Result_init.

Section Methods.

Variable env : Env.
Variable remote : Remote.

(** [Result(model, result_info)].  The first operator is built to read
    its documentation.  [_add_sub_res_operators] adds accessors to the
    operator object and connects nothing. *)
Definition __init__ (result_info : AvailableResult) : M result_obj :=
  try_except
    (doc ← Operator_checked remote (operator_name result_info);
     op ← (if has_wrapper env "result" (name result_info)
           then Operator_checked remote
                  (wrapper_name env "result" (name result_info))
           else Operator_checked remote (operator_name result_info));
     Model.__connect_op__ env remote op;;
     mret (WithOperator
             {| _time_scoping := PNone; _mesh_scoping := PNone;
                _location := PNone; _result_info := result_info;
                _specific_fc_type := None; _operator := op |}))
    (fun e =>
       match e with
       | DPFServerException _ => mret (WithoutOperator result_info)
       | _ => raise e
       end).

Definition on_named_selection (self : Result) (named_selection : string) : M Result :=
  scoping ← Metadata_mesh.named_selection env remote named_selection;
  mret (Result.set_mesh_scoping (PScoping scoping) self).

End Methods.

End Result_init.

(** ** results.py: [Results] *)

Module Results.

(** A [Results] object.  [_op_map_rev] is [None] until
    [_connect_operators] has assigned it; it lists the registered names
    in insertion order, each with the result type its property of the
    per-instance class is bound to (the property and the key are always
    written together). *)
Record t := mk {
  _result_info : option ResultInfo;
  _op_map_rev : option (list (string * AvailableResult))
}.

(** [setattr(cls, name, property(...)); d[name] = name]: a name already
    there keeps its place and is rebound. *)
Fixpoint register (result_type : AvailableResult)
    (m : list (string * AvailableResult)) : list (string * AvailableResult) :=
  match m with
  | [] => [(name result_type, result_type)]
  | (k, v) :: rest =>
      if String.eqb k (name result_type) then (k, result_type) :: rest
      else (k, v) :: register result_type rest
  end.

Section Methods.

Variable env : Env.
Variable remote : Remote.

Fixpoint connect_loop (result_types : list AvailableResult)
    (m : list (string * AvailableResult)) : M (list (string * AvailableResult)) :=
  match result_types with
  | [] => mret m
  | result_type :: rest =>
      m ← try_except
            (doc ← Operator_checked remote (operator_name result_type);
             mret (register result_type m))
            (fun e =>
               match e with
               | DPFServerException _ => mret m
               | _ => raise e
               end);
      connect_loop rest m
  end.

Definition _connect_operators (self : t) : M t :=
  match _result_info self with
  | None => mret self
  | Some result_info =>
      m ← connect_loop (available_results result_info) [];
      mret {| _result_info := _result_info self; _op_map_rev := Some m |}
  end.

(** [Results(model)]. *)
Definition __init__ : M t :=
  metadata ← get_model;
  _connect_operators {| _result_info := result_info metadata;
                        _op_map_rev := None |}.

(** [self._op_map_rev]; the attribute must have been assigned. *)
Definition read_op_map_rev (self : t) : M (list (string * AvailableResult)) :=
  match _op_map_rev self with
  | Some m => mret m
  | None => raise (AttributeError "_op_map_rev")
  end.

Fixpoint iter_loop (m : list (string * AvailableResult)) : M (list result_obj) :=
  match m with
  | [] => mret []
  | (key, result_type) :: rest =>
      r ← Result_init.__init__ env remote result_type;
      rs ← iter_loop rest;
      mret (r :: rs)
  end.

(** [list(results)]: the generator of [__iter__], run to its end. *)
Definition __iter__ (self : t) : M (list result_obj) :=
  m ← read_op_map_rev self;
  iter_loop m.

Fixpoint getitem_loop (m : list (string * AvailableResult)) (n val : Z)
    : M (option result_obj) :=
  match m with
  | [] => mret None
  | (key, result_type) :: rest =>
      if (n =? val)%Z
      then r ← Result_init.__init__ env remote result_type; mret (Some r)
      else getitem_loop rest (n + 1) val
  end.

(** [results[val]]; falling off the loop returns [None]. *)
Definition __getitem__ (self : t) (val : Z) : M (option result_obj) :=
  m ← read_op_map_rev self;
  getitem_loop m 0 val.

Definition __len__ (self : t) : M nat :=
  m ← read_op_map_rev self;
  mret (length m).

End Methods.

End Results.

(** ** model.py: [Model.__init__] *)

Module Model_init.

(** [Model(data_sources, server)]: the metadata, then the results
    registry; the session stands for the resolved server. *)
Definition __init__ (env : Env) (remote : Remote) (data_sources : pyval)
    : M Results.t :=
  Metadata.__init__ env data_sources;;
  Results.__init__ remote.

End Model_init.

(** ** operators/: the generated wrappers

    The twenty wrapper modules are instances of one template; each is
    kept here as the data in which they differ, the template as one
    constructor.  The free-text [description] and [document] strings are
    left out. *)

Module operators.

Record PinSpecification := mkPin {
  pin_name : string;
  type_names : list string;
  optional : bool
}.

(** One wrapper module: the class name, the name handed to
    [Operator.__init__], the two maps of [_spec()], the constructor's
    parameters before [config] and [server] (connected in this order),
    and the attributes its [Inputs...] and [Outputs...] classes bind,
    each with the index given to [input_pin] / [output_pin] and the pin
    number given to [Input] / [Output]. *)
Record Wrapper := mkWrapper {
  scripting_name : string;
  internal_name : string;
  map_input_pin_spec : list (Z * PinSpecification);
  map_output_pin_spec : list (Z * PinSpecification);
  parameters : list string;
  inputs_bound : list (string * Z * Z);
  outputs_bound : list (string * Z * Z)
}.

(** operators/averaging/elemental_difference.py *)
Definition elemental_difference : Wrapper :=
  {| scripting_name := "elemental_difference";
     internal_name := "elemental_difference";
     map_input_pin_spec :=
       [(0, mkPin "field" ["field"; "fields_container"] false);
        (1, mkPin "mesh_scoping" ["scoping"] true);
        (7, mkPin "mesh" ["abstract_meshed_region"] true);
        (10, mkPin "through_layers" ["bool"] true)];
     map_output_pin_spec :=
       [(0, mkPin "fields_container" ["fields_container"] false)];
     parameters := ["field"; "mesh_scoping"; "mesh"; "through_layers"];
     inputs_bound := [("field", 0, 0); ("mesh_scoping", 1, 1); ("mesh", 7, 7); ("through_layers", 10, 10)];
     outputs_bound := [("fields_container", 0, 0)] |}.

(** operators/averaging/to_elemental_fc.py *)
Definition to_elemental_fc : Wrapper :=
  {| scripting_name := "to_elemental_fc";
     internal_name := "to_elemental_fc";
     map_input_pin_spec :=
       [(0, mkPin "fields_container" ["fields_container"] false);
        (1, mkPin "mesh" ["abstract_meshed_region"] true);
        (3, mkPin "mesh_scoping" ["scoping"] true);
        (7, mkPin "smoothen_values" ["bool"] true);
        (10, mkPin "collapse_shell_layers" ["bool"] true)];
     map_output_pin_spec :=
       [(0, mkPin "fields_container" ["fields_container"] false)];
     parameters := ["fields_container"; "mesh"; "mesh_scoping"; "smoothen_values"; "collapse_shell_layers"];
     inputs_bound := [("fields_container", 0, 0); ("mesh", 1, 1); ("mesh_scoping", 3, 3); ("smoothen_values", 7, 7); ("collapse_shell_layers", 10, 10)];
     outputs_bound := [("fields_container", 0, 0)] |}.

(** operators/averaging/to_nodal_fc.py *)
Definition to_nodal_fc : Wrapper :=
  {| scripting_name := "to_nodal_fc";
     internal_name := "to_nodal_fc";
     map_input_pin_spec :=
       [(0, mkPin "fields_container" ["fields_container"] false);
        (1, mkPin "mesh" ["abstract_meshed_region"] true);
        (3, mkPin "mesh_scoping" ["scoping"] true)];
     map_output_pin_spec :=
       [(0, mkPin "fields_container" ["fields_container"] false)];
     parameters := ["fields_container"; "mesh"; "mesh_scoping"];
     inputs_bound := [("fields_container", 0, 0); ("mesh", 1, 1); ("mesh_scoping", 3, 3)];
     outputs_bound := [("fields_container", 0, 0)] |}.

(** operators/geo/center_of_gravity.py *)
Definition center_of_gravity : Wrapper :=
  {| scripting_name := "center_of_gravity";
     internal_name := "topology::center_of_gravity";
     map_input_pin_spec :=
       [(0, mkPin "mesh" ["abstract_meshed_region"] true);
        (1, mkPin "mesh_scoping" ["scoping"] true);
        (2, mkPin "field" ["field"] true)];
     map_output_pin_spec :=
       [(0, mkPin "field" ["field"] false);
        (1, mkPin "mesh" ["abstract_meshed_region"] false)];
     parameters := ["mesh"; "mesh_scoping"; "field"];
     inputs_bound := [("mesh", 0, 0); ("mesh_scoping", 1, 1); ("field", 2, 2)];
     outputs_bound := [("field", 0, 0); ("mesh", 1, 1)] |}.

(** operators/invariant/invariants.py *)
Definition invariants : Wrapper :=
  {| scripting_name := "invariants";
     internal_name := "invariants_deriv";
     map_input_pin_spec :=
       [(0, mkPin "field" ["field"] false)];
     map_output_pin_spec :=
       [(0, mkPin "field_int" ["field"] false);
        (1, mkPin "field_eqv" ["field"] false);
        (2, mkPin "field_max_shear" ["field"] false)];
     parameters := ["field"];
     inputs_bound := [("field", 0, 0)];
     outputs_bound := [("field_int", 0, 0); ("field_eqv", 1, 1); ("field_max_shear", 2, 2)] |}.

(** operators/invariant/invariants_fc.py *)
Definition invariants_fc : Wrapper :=
  {| scripting_name := "invariants_fc";
     internal_name := "invariants_deriv_fc";
     map_input_pin_spec :=
       [(0, mkPin "fields_container" ["fields_container"] false)];
     map_output_pin_spec :=
       [(0, mkPin "fields_int" ["fields_container"] false);
        (1, mkPin "fields_eqv" ["fields_container"] false);
        (2, mkPin "fields_max_shear" ["fields_container"] false)];
     parameters := ["fields_container"];
     inputs_bound := [("fields_container", 0, 0)];
     outputs_bound := [("fields_int", 0, 0); ("fields_eqv", 1, 1); ("fields_max_shear", 2, 2)] |}.

(** operators/mapping/solid_to_skin.py *)
Definition solid_to_skin : Wrapper :=
  {| scripting_name := "solid_to_skin";
     internal_name := "solid_to_skin";
     map_input_pin_spec :=
       [(0, mkPin "field" ["field"; "fields_container"] false);
        (1, mkPin "mesh_scoping" ["abstract_meshed_region"] true)];
     map_output_pin_spec :=
       [(0, mkPin "field" ["field"] false)];
     parameters := ["field"; "mesh_scoping"];
     inputs_bound := [("field", 0, 0); ("mesh_scoping", 1, 1)];
     outputs_bound := [("field", 0, 0)] |}.

(** operators/math/qr_solve.py *)
Definition qr_solve : Wrapper :=
  {| scripting_name := "qr_solve";
     internal_name := "qrsolveOp";
     map_input_pin_spec :=
       [(0, mkPin "fields_container" ["fields_container"] false);
        (1, mkPin "rhs" ["fields_container"] false)];
     map_output_pin_spec :=
       [(0, mkPin "fields_container" ["fields_container"] false)];
     parameters := ["fields_container"; "rhs"];
     inputs_bound := [("fields_container", 0, 0); ("rhs", 1, 1)];
     outputs_bound := [("fields_container", 0, 0)] |}.

(** operators/math/sweeping_phase_fc.py *)
Definition sweeping_phase_fc : Wrapper :=
  {| scripting_name := "sweeping_phase_fc";
     internal_name := "sweeping_phase_fc";
     map_input_pin_spec :=
       [(0, mkPin "fields_container" ["fields_container"] false);
        (2, mkPin "angle" ["double"] false);
        (3, mkPin "unit_name" ["string"] false);
        (4, mkPin "abs_value" ["bool"] false)];
     map_output_pin_spec :=
       [(0, mkPin "fields_container" ["fields_container"] false)];
     parameters := ["fields_container"; "angle"; "unit_name"; "abs_value"];
     inputs_bound := [("fields_container", 0, 0); ("angle", 2, 2); ("unit_name", 3, 3); ("abs_value", 4, 4)];
     outputs_bound := [("fields_container", 0, 0)] |}.

(** operators/mesh/mesh_cut.py *)
Definition mesh_cut : Wrapper :=
  {| scripting_name := "mesh_cut";
     internal_name := "mesh_cut";
     map_input_pin_spec :=
       [(0, mkPin "field" ["field"] false);
        (1, mkPin "iso_value" ["double"] false);
        (3, mkPin "closed_surface" ["double"] false);
        (4, mkPin "slice_surfaces" ["bool"] false)];
     map_output_pin_spec :=
       [(2, mkPin "mesh" ["meshed_region"] false)];
     parameters := ["field"; "iso_value"; "closed_surface"; "slice_surfaces"];
     inputs_bound := [("field", 0, 0); ("iso_value", 1, 1); ("closed_surface", 3, 3); ("slice_surfaces", 4, 4)];
     outputs_bound := [("mesh", 2, 2)] |}.

(** operators/metadata/mesh_support_provider.py *)
Definition mesh_support_provider : Wrapper :=
  {| scripting_name := "mesh_support_provider";
     internal_name := "mesh_support_provider";
     map_input_pin_spec :=
       [(3, mkPin "streams_container" ["streams_container"] true);
        (4, mkPin "data_sources" ["data_sources"] false)];
     map_output_pin_spec :=
       [(0, mkPin "abstract_field_support" ["abstract_field_support"] false)];
     parameters := ["streams_container"; "data_sources"];
     inputs_bound := [("streams_container", 3, 3); ("data_sources", 4, 4)];
     outputs_bound := [("abstract_field_support", 0, 0)] |}.

(** operators/min_max/min_max_over_time_by_entity.py *)
Definition min_max_over_time_by_entity : Wrapper :=
  {| scripting_name := "min_max_over_time_by_entity";
     internal_name := "min_max_over_time_by_entity";
     map_input_pin_spec :=
       [(0, mkPin "fields_container" ["fields_container"] false);
        (4, mkPin "compute_amplitude" ["bool"] true)];
     map_output_pin_spec :=
       [(0, mkPin "min" ["fields_container"] false);
        (1, mkPin "max" ["fields_container"] false);
        (2, mkPin "time_freq_of_min" ["fields_container"] false);
        (3, mkPin "time_freq_of_max" ["fields_container"] false)];
     parameters := ["fields_container"; "compute_amplitude"];
     inputs_bound := [("fields_container", 0, 0); ("compute_amplitude", 4, 4)];
     outputs_bound := [("min", 0, 0); ("max", 1, 1); ("time_freq_of_min", 2, 2); ("time_freq_of_max", 3, 3)] |}.

(** operators/result/add_rigid_body_motion.py *)
Definition add_rigid_body_motion : Wrapper :=
  {| scripting_name := "add_rigid_body_motion";
     internal_name := "RigidBodyAddition";
     map_input_pin_spec :=
       [(0, mkPin "displacement_field" ["field"] false);
        (1, mkPin "translation_field" ["field"] false);
        (2, mkPin "rotation_field" ["field"] false);
        (3, mkPin "center_field" ["field"] false);
        (7, mkPin "mesh" ["abstract_meshed_region"] true)];
     map_output_pin_spec :=
       [(0, mkPin "field" ["field"] false)];
     parameters := ["displacement_field"; "translation_field"; "rotation_field"; "center_field"; "mesh"];
     inputs_bound := [("displacement_field", 0, 0); ("translation_field", 1, 1); ("rotation_field", 2, 2); ("center_field", 3, 3); ("mesh", 7, 7)];
     outputs_bound := [("field", 0, 0)] |}.

(** operators/result/cyclic_expanded_stress.py *)
Definition cyclic_expanded_stress : Wrapper :=
  {| scripting_name := "cyclic_expanded_stress";
     internal_name := "mapdl::rst::S_cyclic";
     map_input_pin_spec :=
       [(0, mkPin "time_scoping" ["scoping"; "vector<int32>"] true);
        (1, mkPin "mesh_scoping" ["scopings_container"; "scoping"; "vector<int32>"] true);
        (2, mkPin "fields_container" ["fields_container"] true);
        (3, mkPin "streams_container" ["streams_container"; "stream"] true);
        (4, mkPin "data_sources" ["data_sources"] false);
        (5, mkPin "bool_rotate_to_global" ["bool"] true);
        (7, mkPin "sector_mesh" ["abstract_meshed_region"; "meshes_container"] true);
        (9, mkPin "requested_location" ["string"] true);
        (14, mkPin "read_cyclic" ["int32"] true);
        (15, mkPin "expanded_meshed_region" ["abstract_meshed_region"; "meshes_container"] true);
        (16, mkPin "cyclic_support" ["cyclic_support"] true);
        (18, mkPin "sectors_to_expand" ["vector<int32>"; "scoping"; "scopings_container"] true);
        (19, mkPin "phi" ["double"] true)];
     map_output_pin_spec :=
       [(0, mkPin "fields_container" ["fields_container"] false);
        (1, mkPin "expanded_meshes" ["meshes_container"] false)];
     parameters := ["time_scoping"; "mesh_scoping"; "fields_container"; "streams_container"; "data_sources"; "bool_rotate_to_global"; "sector_mesh"; "requested_location"; "read_cyclic"; "expanded_meshed_region"; "cyclic_support"; "sectors_to_expand"; "phi"];
     inputs_bound := [("time_scoping", 0, 0); ("mesh_scoping", 1, 1); ("fields_container", 2, 2); ("streams_container", 3, 3); ("data_sources", 4, 4); ("bool_rotate_to_global", 5, 5); ("sector_mesh", 7, 7); ("requested_location", 9, 9); ("read_cyclic", 14, 14); ("expanded_meshed_region", 15, 15); ("cyclic_support", 16, 16); ("sectors_to_expand", 18, 18); ("phi", 19, 19)];
     outputs_bound := [("fields_container", 0, 0); ("expanded_meshes", 1, 1)] |}.

(** operators/result/material_property_of_element.py *)
Definition material_property_of_element : Wrapper :=
  {| scripting_name := "material_property_of_element";
     internal_name := "MaterialPropertyOfElement";
     map_input_pin_spec :=
       [(3, mkPin "streams_container" ["streams_container"] true);
        (4, mkPin "data_sources" ["data_sources"] false)];
     map_output_pin_spec :=
       [(0, mkPin "material_properties" ["field"] false)];
     parameters := ["streams_container"; "data_sources"];
     inputs_bound := [("streams_container", 3, 3); ("data_sources", 4, 4)];
     outputs_bound := [("material_properties", 0, 0)] |}.

(** operators/result/nodal_averaged_stresses.py *)
Definition nodal_averaged_stresses : Wrapper :=
  {| scripting_name := "nodal_averaged_stresses";
     internal_name := "mapdl::rst::NS";
     map_input_pin_spec :=
       [(0, mkPin "time_scoping" ["scoping"; "vector<int32>"] true);
        (1, mkPin "mesh_scoping" ["scopings_container"; "scoping"; "vector<int32>"] true);
        (2, mkPin "fields_container" ["fields_container"] true);
        (3, mkPin "streams_container" ["streams_container"; "stream"] true);
        (4, mkPin "data_sources" ["data_sources"] false);
        (7, mkPin "mesh" ["abstract_meshed_region"] true)];
     map_output_pin_spec :=
       [(0, mkPin "fields_container" ["fields_container"] false)];
     parameters := ["time_scoping"; "mesh_scoping"; "fields_container"; "streams_container"; "data_sources"; "mesh"];
     inputs_bound := [("time_scoping", 0, 0); ("mesh_scoping", 1, 1); ("fields_container", 2, 2); ("streams_container", 3, 3); ("data_sources", 4, 4); ("mesh", 7, 7)];
     outputs_bound := [("fields_container", 0, 0)] |}.

(** operators/result/nodal_rotation_by_euler_nodes.py *)
Definition nodal_rotation_by_euler_nodes : Wrapper :=
  {| scripting_name := "nodal_rotation_by_euler_nodes";
     internal_name := "mapdl::rst::RotateNodalFCByEulerNodes";
     map_input_pin_spec :=
       [(2, mkPin "fields_container" ["fields_container"] true);
        (3, mkPin "streams_container" ["streams_container"; "stream"] true);
        (4, mkPin "data_sources" ["data_sources"] false)];
     map_output_pin_spec :=
       [(0, mkPin "fields_container" ["fields_container"] false)];
     parameters := ["fields_container"; "streams_container"; "data_sources"];
     inputs_bound := [("fields_container", 2, 2); ("streams_container", 3, 3); ("data_sources", 4, 4)];
     outputs_bound := [("fields_container", 0, 0)] |}.

(** operators/result/pres_to_field.py *)
Definition pres_to_field : Wrapper :=
  {| scripting_name := "pres_to_field";
     internal_name := "PRES_Reader";
     map_input_pin_spec :=
       [(0, mkPin "filepath" ["string"] false)];
     map_output_pin_spec :=
       [(0, mkPin "field" ["field"] false)];
     parameters := ["filepath"];
     inputs_bound := [("filepath", 0, 0)];
     outputs_bound := [("field", 0, 0)] |}.

(** operators/result/rigid_transformation.py *)
Definition rigid_transformation : Wrapper :=
  {| scripting_name := "rigid_transformation";
     internal_name := "RigidTransformationProvider";
     map_input_pin_spec :=
       [(3, mkPin "streams_container" ["streams_container"] true);
        (4, mkPin "data_sources" ["data_sources"] false)];
     map_output_pin_spec :=
       [(0, mkPin "fields_container" ["fields_container"] false)];
     parameters := ["streams_container"; "data_sources"];
     inputs_bound := [("streams_container", 3, 3); ("data_sources", 4, 4)];
     outputs_bound := [("fields_container", 0, 0)] |}.

(** operators/serialization/csv_to_field.py *)
Definition csv_to_field : Wrapper :=
  {| scripting_name := "csv_to_field";
     internal_name := "csv_to_field";
     map_input_pin_spec :=
       [(0, mkPin "time_scoping" ["scoping"] true);
        (4, mkPin "data_sources" ["data_sources"] false)];
     map_output_pin_spec :=
       [(0, mkPin "fields_container" ["fields_container"] false)];
     parameters := ["time_scoping"; "data_sources"];
     inputs_bound := [("time_scoping", 0, 0); ("data_sources", 4, 4)];
     outputs_bound := [("fields_container", 0, 0)] |}.

(** The wrappers of the sources, by category. *)
Definition generated : list (string * Wrapper) :=
  [("averaging", elemental_difference);
   ("averaging", to_elemental_fc);
   ("averaging", to_nodal_fc);
   ("geo", center_of_gravity);
   ("invariant", invariants);
   ("invariant", invariants_fc);
   ("mapping", solid_to_skin);
   ("math", qr_solve);
   ("math", sweeping_phase_fc);
   ("mesh", mesh_cut);
   ("metadata", mesh_support_provider);
   ("min_max", min_max_over_time_by_entity);
   ("result", add_rigid_body_motion);
   ("result", cyclic_expanded_stress);
   ("result", material_property_of_element);
   ("result", nodal_averaged_stresses);
   ("result", nodal_rotation_by_euler_nodes);
   ("result", pres_to_field);
   ("result", rigid_transformation);
   ("serialization", csv_to_field)].


(** [map[i]] on a map written as a list of items. *)
Fixpoint item {A} (m : list (Z * A)) (i : Z) : option A :=
  match m with
  | [] => None
  | (k, v) :: rest => if (k =? i)%Z then Some v else item rest i
  end.

(** Modelled from the spec: [Specification.input_pin(i)] and
    [output_pin(i)] (specification.py is missing) look the pin up by
    index and fail when it is not declared (§4.1). *)
Definition input_pin (w : Wrapper) (i : Z) : option PinSpecification :=
  item (map_input_pin_spec w) i.

Definition output_pin (w : Wrapper) (i : Z) : option PinSpecification :=
  item (map_output_pin_spec w) i.

(** The [Input] objects an [Inputs...] constructor builds, by attribute:
    the pin specification found and the pin number; [None] when a lookup
    fails. *)
Fixpoint build_inputs (w : Wrapper) (bound : list (string * Z * Z))
    : option (list (string * (PinSpecification * Z))) :=
  match bound with
  | [] => Some []
  | (attr, i, pin) :: rest =>
      match input_pin w i, build_inputs w rest with
      | Some spec, Some inputs => Some ((attr, (spec, pin)) :: inputs)
      | _, _ => None
      end
  end.

(** [getattr(inputs, attr)]. *)
Fixpoint attribute {A} (inputs : list (string * A)) (attr : string) : option A :=
  match inputs with
  | [] => None
  | (a, v) :: rest => if String.eqb a attr then Some v else attribute rest attr
  end.

Section Template.

Variable env : Env.
Variable remote : Remote.

(** [if p != None: self.inputs.p.connect(p)] for each parameter, in
    order; a parameter that was not passed is [None]. *)
Fixpoint connect_parameters (op : loc)
    (inputs : list (string * (PinSpecification * Z)))
    (params : list string) (kwargs : gmap string pyval) : M unit :=
  match params with
  | [] => mret tt
  | p :: rest =>
      match kwargs !! p with
      | None | Some PNone => mret tt
      | Some v =>
          match attribute inputs p with
          | Some (spec, _) => connect env op (Some (pin_name spec)) v
          | None => raise (AttributeError p)
          end
      end;;
      connect_parameters op inputs rest kwargs
  end.

(** The constructor of a wrapper, called with keyword arguments.  An
    unexpected keyword is a type error of the call itself; a failing
    [input_pin] makes the [Inputs...] constructor fail. *)
Definition __init__ (w : Wrapper) (kwargs : gmap string pyval) : M loc :=
  if negb (bool_decide (map_Forall (fun k _ => k ∈ parameters w) kwargs))
  then raise (TypeError "__init__")
  else
    op ← Operator_checked remote (internal_name w);
    match build_inputs w (inputs_bound w) with
    | None => raise (RuntimeError "input_pin")
    | Some inputs =>
        connect_parameters op inputs (parameters w) kwargs;;
        mret op
    end.

End Template.

End operators.

Import mesh_scoping_factory fields_factory.

(** ** Vocabulary of the statements *)

(** The ids [1, 2, ..., n]. *)
Definition one_to (n : nat) : list Z := map Z.of_nat (seq 1 n).

(** [len(a)] of an array with at least one dimension. *)
Definition len (a : ndarray) : nat := shape_at a 0.

(** The nature the contract assigns to a rank and a column count. *)
Definition nature_of_shape (a : ndarray) : natures :=
  if Nat.eqb (ndim a) 1 then scalar
  else if Nat.eqb (shape_at a 1) 1 then scalar
  else if Nat.eqb (shape_at a 1) 3 then vector
  else symmatrix.

(** A rank-2 array with a single column. *)
Definition one_column (a : ndarray) : bool :=
  Nat.eqb (ndim a) 2 && Nat.eqb (shape_at a 1) 1.

(** Locations at or above [fresh] are not yet in use. *)
Definition wf_session (s : Session) : Prop :=
  map_Forall (fun l _ => (l < fresh s)%positive) (store s).

(** The diagnostic that [_load_result_info] recognises and the message
    of the error it raises instead. *)
Definition no_results_file : string :=
  "results file is not defined in the Data sources".

Definition unable_to_open : pyexn := RuntimeError "Unable to open result file".

(** The data sources [_set_data_sources] derives from its argument. *)
Definition data_sources_of (var_inp : pyval) : DataSources :=
  match var_inp with
  | PDataSources d => d
  | PStr path => mkDataSources (Some path)
  | _ => mkDataSources None
  end.

(** Name and pin of the stream provider [_cache_streams_provider]
    builds, by the branch it takes. *)
Definition stream_provider_name (env : Env) : string :=
  if has_wrapper env "metadata" "stream_provider"
  then wrapper_name env "metadata" "streams_provider"
  else "stream_provider".

Definition stream_provider_pin (env : Env) : option string :=
  if has_wrapper env "metadata" "stream_provider"
  then Some "data_sources" else None.

Definition stream_provider_on (env : Env) (d : DataSources) : Operator :=
  plug (stream_provider_pin env) (PDataSources d)
       (mkOperator (stream_provider_name env) ∅ []).

(** The value a call connects to a pin: the call-time argument when it
    is truthy, the stored selector state otherwise. *)
Definition pick (override stored : pyval) : pyval :=
  if truthy override then override else stored.

(** A pin is connected only to a truthy value. *)
Definition plug_if (pin : string) (v : pyval) (op : Operator) : Operator :=
  if truthy v then plug (Some pin) v op else op.

Definition connect_if (env : Env) (l : loc) (pin : string) (v : pyval) : M unit :=
  if truthy v then connect env l (Some pin) v else mret tt.

(** The pin's type check lets the value through, if it gets there. *)
Definition accepted (env : Env) (st : gmap loc Operator) (nm pin : string)
    (v : pyval) : bool :=
  negb (truthy v) || accepts env nm (Some pin) (type_of st v).

(** An action that triggers no remote evaluation, whatever its outcome. *)
Definition no_eval {A} (c : M A) : Prop :=
  ∀ s, evaluations (final (c s)) = evaluations s.

(** The remote name of the split operator, by the branch
    [_add_split_on_property_type] takes. *)
Definition split_operator_name (env : Env) : string :=
  if has_wrapper env "scoping" "split_on_property_type"
  then wrapper_name env "scoping" "split_on_property_type"
  else "scoping::by_property".

(** The connections the split selectors always make are well typed:
    the outputs of the stream provider (named [spname]) into the mesh
    provider, and a string, the mesh provider and a string into the
    [requested_location], [mesh] and [label1] pins of the split
    operator. *)
Definition split_ready (env : Env) (spname : string) : bool :=
  accepts env "MeshProvider" None (TOutputs spname)
  && accepts env (split_operator_name env) (Some "requested_location") TStr
  && accepts env (split_operator_name env) (Some "mesh") (TOperator "MeshProvider")
  && accepts env (split_operator_name env) (Some "label1") TStr.

(** [s'] is [s] after some client actions that allocated operators and
    touched only those: the model and the operators already there are
    as they were. *)
Definition extends (s s' : Session) : Prop :=
  wf_session s' ∧ model s' = model s ∧ (fresh s ≤ fresh s')%positive ∧
  ∀ k, (k < fresh s)%positive → store s' !! k = store s !! k.

(** ** Concrete environments and sessions *)

(** A permissive environment and an empty session, for the concrete
    runs: every connection is accepted, no generated wrapper is found,
    the result info read back names the result file of the data sources
    the evaluated operator is fed from, through its stream provider. *)
Definition path_behind (st : gmap loc Operator) (l : loc) : string :=
  match st !! l with
  | Some (mkOperator _ _ (POutputs sp :: _)) =>
      match st !! sp with
      | Some (mkOperator _ _ (PDataSources (mkDataSources (Some p)) :: _)) => p
      | _ => ""
      end
  | _ => ""
  end.

Definition env0 : Env :=
  {| accepts := fun _ _ _ => true;
     has_wrapper := fun _ _ => false;
     wrapper_name := fun _ _ => "";
     reply_result_info := fun st l => inr (mkResultInfo (path_behind st l) []);
     reply_time_freq_support := fun _ _ => inr (mkTimeFreqSupport (Some [0; 10; 20]));
     reply_fields_container := fun _ _ => inr 0%nat;
     reply_run := fun _ _ => None;
     reply_create := fun _ => inr 0%nat |}.

(** The same environment with a server that fails every read of the
    result info with [e]. *)
Definition env_failing (e : pyexn) : Env :=
  {| accepts := accepts env0;
     has_wrapper := has_wrapper env0;
     wrapper_name := wrapper_name env0;
     reply_result_info := fun _ _ => inl e;
     reply_time_freq_support := reply_time_freq_support env0;
     reply_fields_container := reply_fields_container env0;
     reply_run := reply_run env0;
     reply_create := reply_create env0 |}.

Definition s0 : Session := mkSession ∅ 1%positive 0 0 [] Metadata.blank.

(** A session whose model has a stream provider on "a.rst". *)
Definition s_streams : Session :=
  {| store := {[ 1%positive :=
                   mkOperator "stream_provider" ∅
                     [PDataSources (mkDataSources (Some "a.rst"))] ]};
     fresh := 2%positive; evaluations := 0; fields_allocated := 0;
     create_requests := [];
     model := Metadata.set_stream_provider (Some 1%positive)
                (Metadata.set_data_sources (mkDataSources (Some "a.rst"))
                   Metadata.blank) |}.

(** A session with a stream provider on "a.rst" and the operator of a
    displacement result, and that result with a stored time scoping. *)
Definition s_bound : Session :=
  {| store := <[ 2%positive := mkOperator "U" ∅ [] ]> (store s_streams);
     fresh := 3%positive; evaluations := 0; fields_allocated := 0;
     create_requests := []; model := model s_streams |}.

Definition r0 : Result :=
  {| _time_scoping := PInt 5; _mesh_scoping := PNone; _location := PNone;
     _result_info := mkAvailableResult "displacement" "U" "Nodal";
     _specific_fc_type := None; _operator := 2%positive |}.

(** The same result after [on_mesh_scoping([1, 2, 3])]. *)
Definition r_scoped : Result :=
  Result.set_mesh_scoping (PScoping (mkScoping [1; 2; 3] "Nodal")) r0.

(** ** Vocabulary of the further statements *)

(** [c], started in a well-formed session whose fresh location is at
    least [b], ends (returning or raising) in a well-formed session,
    moves the fresh location upwards only, leaves every operator below
    [b] as it was, and returns only values that satisfy [Q]. *)
Definition frame {A} (b : loc) (Q : A → Prop) (c : M A) : Prop :=
  ∀ s, wf_session s → (b ≤ fresh s)%positive →
    wf_session (final (c s)) ∧
    (fresh s ≤ fresh (final (c s)))%positive ∧
    (∀ k, (k < b)%positive → store (final (c s)) !! k = store s !! k) ∧
    (∀ a s', c s = Ret a s' → Q a).

(** The selectors of a [Result], as the links of a fluent chain. *)
Inductive selector :=
| OnAllTimeFreqs
| OnFirstTimeFreq
| OnLastTimeFreq
| OnTimeScoping (time_scoping : pyval)
| OnNamedSelection (named_selection : string)
| SplitByBody
| SplitByShape
| OnMeshScoping (mesh_scoping : pyval)
| OnLocation (location : pyval).

Definition select (env : Env) (remote : Remote) (sel : selector)
    (r : Result) : M Result :=
  match sel with
  | OnAllTimeFreqs => Result.on_all_time_freqs env r
  | OnFirstTimeFreq => Result.on_first_time_freq r
  | OnLastTimeFreq => Result.on_last_time_freq env r
  | OnTimeScoping v => Result.on_time_scoping r v
  | OnNamedSelection n => Result_init.on_named_selection env remote r n
  | SplitByBody => Result.split_by_body env r
  | SplitByShape => Result.split_by_shape env r
  | OnMeshScoping v => Result.on_mesh_scoping r v
  | OnLocation v => Result.on_location r v
  end.

(** [r.sel1.sel2. ... .seln]. *)
Fixpoint chain (env : Env) (remote : Remote) (sels : list selector)
    (r : Result) : M Result :=
  match sels with
  | [] => mret r
  | sel :: rest => r' ← select env remote sel r; chain env remote rest r'
  end.

(** A server that knows every operator, whose operators have a
    [data_sources] pin and no [streams] pin, and whose meshes have one
    named selection scoping for every name. *)
Definition remote0 : Remote :=
  {| known := fun _ => true;
     has_pin := fun _ pin => String.eqb pin "data_sources";
     reply_meshed_region := fun _ _ => inr 7%nat;
     reply_named_selection :=
       fun _ _ => inr (mkScoping [4; 5; 6] "Nodal") |}.

(** The container class [eval] wraps the fields container in. *)
Definition container_for (specific_fc_type : option string) (fc : nat)
    : container :=
  match specific_fc_type with
  | Some "shape" => ElShapeFieldsContainer fc
  | Some "body" => BodyFieldsContainer fc
  | _ => FieldsContainer fc
  end.

(** The operator of a result after a call without overrides. *)
Definition called (r : Result) (op : Operator) : Operator :=
  plug_if "requested_location" (_location r)
    (plug_if "mesh_scoping" (_mesh_scoping r)
       (plug_if "time_scoping" (_time_scoping r) op)).

(** The three pins accept what a call of [r] without overrides brings. *)
Definition call_accepted (env : Env) (st : gmap loc Operator) (r : Result)
    (op : Operator) : bool :=
  accepted env st (op_name op) "time_scoping" (_time_scoping r)
  && accepted env st (op_name op) "mesh_scoping" (_mesh_scoping r)
  && accepted env st (op_name op) "requested_location" (_location r).





(** [c] returns only values that satisfy [Q]. *)
Definition returns {A} (Q : A → Prop) (c : M A) : Prop :=
  ∀ s a s', c s = Ret a s' → Q a.


(** The number of components per entity of a nature that
    [field_from_array] assigns. *)
Definition components (n : natures) : nat :=
  match n with
  | scalar => 1
  | vector => 3
  | symmatrix => 6
  | matrix => 0
  end.

(** The session after a new operator object, built at the fresh
    location, has reached the state [op]. *)
Definition created (op : Operator) (s : Session) : Session :=
  {| store := <[fresh s := op]> (store s); fresh := Pos.succ (fresh s);
     evaluations := evaluations s; fields_allocated := fields_allocated s;
     create_requests := create_requests s; model := model s |}.

(** The one input a model feeds an operator named [nm] with: the outputs
    of its stream provider when it has one and the operator has a
    [streams] pin, its data sources when the operator has a
    [data_sources] pin, nothing otherwise. *)
Definition model_input (remote : Remote) (m : Metadata) (nm : string)
    : option (string * pyval) :=
  match _stream_provider m with
  | Some sp =>
      if has_pin remote nm "streams" then Some ("streams", POutputs sp)
      else if has_pin remote nm "data_sources"
      then option_map (fun d => ("data_sources", PDataSources d)) (_data_sources m)
      else None
  | None =>
      if has_pin remote nm "data_sources"
      then option_map (fun d => ("data_sources", PDataSources d)) (_data_sources m)
      else None
  end.

(** The inputs of an operator that got nothing but the model's input. *)
Definition fed (i : option (string * pyval)) : gmap string pyval :=
  match i with
  | Some (pin, v) => {[ pin := v ]}
  | None => ∅
  end.

(** A server like [remote0] whose operators have every pin. *)
Definition remote_all_pins : Remote :=
  {| known := known remote0;
     has_pin := fun _ _ => true;
     reply_meshed_region := reply_meshed_region remote0;
     reply_named_selection := reply_named_selection remote0 |}.

(** A server like [remote0] that knows no operator but ["U"]. *)
Definition remote_only_U : Remote :=
  {| known := fun nm => String.eqb nm "U";
     has_pin := has_pin remote0;
     reply_meshed_region := reply_meshed_region remote0;
     reply_named_selection := reply_named_selection remote0 |}.

(** A [Result] as its constructor leaves it, on the operator at [l]. *)
Definition new_result (result_info : AvailableResult) (l : loc) : Result :=
  {| _time_scoping := PNone; _mesh_scoping := PNone; _location := PNone;
     _result_info := result_info; _specific_fc_type := None; _operator := l |}.

(** The remote name of the operator a [Result] is built on. *)
Definition result_operator_name (env : Env) (result_info : AvailableResult)
    : string :=
  if has_wrapper env "result" (name result_info)
  then wrapper_name env "result" (name result_info)
  else operator_name result_info.

(** The result type a [Result] object was built for. *)
Definition info_of (r : result_obj) : AvailableResult :=
  match r with
  | WithOperator r => _result_info r
  | WithoutOperator result_info => result_info
  end.

(** The registry [_connect_operators] builds from the result types of
    the file: the types whose operator the server knows, registered in
    order. *)
Definition registry (remote : Remote) (result_types : list AvailableResult)
    : list (string * AvailableResult) :=
  fold_left (fun m result_type =>
               if known remote (operator_name result_type)
               then Results.register result_type m else m)
    result_types [].

(** A result info with two result types of the same name and one whose
    operator [remote_only_U] does not know. *)
Definition ri_three : ResultInfo :=
  mkResultInfo "MKS"
    [mkAvailableResult "displacement" "U" "Nodal";
     mkAvailableResult "stress" "S" "ElementalNodal";
     mkAvailableResult "displacement" "U" "Elemental"].

(** The error the caller sees when the read of the result info fails
    with [e]. *)
Definition reported (e : pyexn) : pyexn :=
  match e with
  | InactiveRpcError details =>
      if Metadata.contains no_results_file details then unable_to_open else e
  | _ => e
  end.

(** * Properties *)

(** ** mesh_scoping_factory *)

Lemma nodal_scoping_raises_iff (x : pyval) :
  is_list x = false ↔ ∃ e, nodal_scoping x = inl e.
Proof.
  destruct x; simpl; split; intros H; try done; try (by eexists).
  by destruct H.
Qed.

Lemma elemental_scoping_raises_iff (x : pyval) :
  is_list x = false ↔ ∃ e, elemental_scoping x = inl e.
Proof.
  destruct x; simpl; split; intros H; try done; try (by eexists).
  by destruct H.
Qed.

(** C9: [nodal_scoping] and [elemental_scoping] raise exactly on the
    arguments that are not lists, and what they raise is the invalid-type
    error naming the parameter; on a list of ids they return a scoping
    with the same ids in the same order, tagged nodal and elemental. *)
Theorem scoping_factories_list_only (x : pyval) :
  (is_list x = false ↔ ∃ e, nodal_scoping x = inl e) ∧
  (is_list x = false ↔ ∃ e, elemental_scoping x = inl e) ∧
  (∀ e, nodal_scoping x = inl e → e = InvalidTypeError "list" "node_ids") ∧
  (∀ e, elemental_scoping x = inl e → e = InvalidTypeError "list" "element_ids") ∧
  (∀ l, nodal_scoping (PList l) = inr {| ids := l; location := "Nodal" |}) ∧
  (∀ l, elemental_scoping (PList l) = inr {| ids := l; location := "Elemental" |}).
Proof.
  split; [apply nodal_scoping_raises_iff|].
  split; [apply elemental_scoping_raises_iff|].
  repeat split; try done; intros e; destruct x; simpl; congruence.
Qed.

Example scoping_factories_on_tuple_and_int :
  nodal_scoping (PTuple [1; 2]) = inl (InvalidTypeError "list" "node_ids") ∧
  elemental_scoping (PInt 7) = inl (InvalidTypeError "list" "element_ids") ∧
  nodal_scoping (PList [3; 1; 2]) = inr {| ids := [3; 1; 2]; location := "Nodal" |}.
Proof. done. Qed.

(** ** fields_factory: [field_from_array] *)

Lemma arange_one_to (n : nat) : arange 1 (Z.of_nat n + 1) = one_to n.
Proof.
  unfold arange, one_to.
  replace (Z.to_nat (Z.of_nat n + 1 - 1)) with n by lia.
  rewrite <- seq_shift, map_map.
  apply map_ext; intros i; lia.
Qed.

Lemma shape_of_rank2 (a : ndarray) :
  ndim a = 2%nat → shape a = [shape_at a 0; shape_at a 1].
Proof.
  unfold ndim, shape_at.
  destruct (shape a) as [|n [|c [|d r]]]; simpl; congruence.
Qed.

Lemma ravel_one_column_len (a : ndarray) :
  ndim a = 2%nat → shape_at a 1 = 1%nat → shape_at (ravel a) 0 = shape_at a 0.
Proof.
  intros H2 H1. unfold ravel, size, shape_at at 1. simpl.
  rewrite (shape_of_rank2 a H2), H1. simpl. lia.
Qed.

(** C6: on a numeric array of rank 1, or of rank 2 with 1, 3 or 6
    columns, [field_from_array] returns a field whose scoping ids are
    1, 2, ..., len(A) in order, whose nature is scalar, vector or
    symmatrix as the shape says, and whose data is A, flattened to rank 1
    in the one-column case, with the elements of A. *)
Theorem field_from_array_valid (arr : ndarray) (s : Session) :
  issubdtype_number (arr_dtype arr) = true →
  ndim arr = 1%nat ∨ (ndim arr = 2%nat ∧ shape_at arr 1 ∈ [1; 3; 6]%nat) →
  ∃ f s',
    field_from_array arr s = Ret f s' ∧
    nentities f = len arr ∧
    scoping_ids f = one_to (len arr) ∧
    field_nature f = nature_of_shape arr ∧
    data f = Some (if one_column arr then ravel arr else arr) ∧
    (∀ d, data f = Some d → flat d = flat arr).
Proof.
  intros Hnum Hshape.
  unfold field_from_array, nature_of_shape, one_column, len.
  rewrite Hnum. simpl negb. cbv iota.
  destruct Hshape as [H1 | [H2 Hc]].
  - rewrite H1. simpl.
    do 2 eexists. split; [reflexivity|]. simpl.
    rewrite arange_one_to. repeat split; auto.
    intros d [= <-]; reflexivity.
  - rewrite H2. simpl Nat.eqb. cbv iota.
    rewrite !elem_of_cons in Hc.
    destruct Hc as [Hc | [Hc | [Hc | Hc]]]; [| | |by apply elem_of_nil in Hc];
      rewrite Hc; simpl;
      do 2 eexists; (split; [reflexivity|]); simpl;
      rewrite arange_one_to; repeat split; auto;
      try (intros d [= <-]; reflexivity);
      by rewrite ravel_one_column_len.
Qed.

Lemma field_from_array_valid_witness :
  ∃ f s',
    field_from_array (mkArray float64 [2; 3]%nat [1; 2; 3; 4; 5; 6])
      s0 = Ret f s' ∧
    scoping_ids f = [1; 2] ∧
    field_nature f = vector ∧
    data f = Some (mkArray float64 [2; 3]%nat [1; 2; 3; 4; 5; 6]).
Proof.
  destruct (field_from_array_valid
              (mkArray float64 [2; 3]%nat [1; 2; 3; 4; 5; 6])
              s0)
    as (f & s' & Hrun & _ & Hids & Hnat & Hdata & _).
  - reflexivity.
  - right. split; [reflexivity|]. apply elem_of_cons. right.
    apply elem_of_cons. by left.
  - exists f, s'. repeat split; assumption.
Defined.

(** C7: on an array that is not numeric, or whose rank is neither 1 nor
    2, or of rank 2 with a column count other than 1, 3 and 6,
    [field_from_array] raises a type error or a value error and leaves
    the session as it was: no field is allocated and no request is
    sent. *)
Theorem field_from_array_invalid (arr : ndarray) (s : Session) :
  issubdtype_number (arr_dtype arr) = false
  ∨ (ndim arr ≠ 1%nat ∧ ndim arr ≠ 2%nat)
  ∨ (ndim arr = 2%nat ∧ shape_at arr 1 ∉ [1; 3; 6]%nat) →
  ∃ e,
    field_from_array arr s = Raise e s ∧
    ((∃ msg, e = TypeError msg) ∨ (∃ msg, e = ValueError msg)) ∧
    fields_allocated (final (field_from_array arr s)) = fields_allocated s ∧
    create_requests (final (field_from_array arr s)) = create_requests s.
Proof.
  intros Hbad. unfold field_from_array.
  destruct (issubdtype_number (arr_dtype arr)) eqn:Hnum; simpl negb; cbv iota.
  2: { eexists; repeat split; left; by eexists. }
  assert (Hshp : ∃ e, (field_from_array arr s = Raise e s) ∧ e = shp_err).
  { unfold field_from_array. rewrite Hnum. simpl negb. cbv iota.
    destruct Hbad as [Hbad | [[Hn1 Hn2] | [H2 Hc]]]; [done | |].
    - apply Nat.eqb_neq in Hn1, Hn2. rewrite Hn1, Hn2. by eexists.
    - rewrite H2. simpl Nat.eqb. cbv iota.
      rewrite !not_elem_of_cons in Hc. destruct Hc as (Hc1 & Hc3 & Hc6 & _).
      apply Nat.eqb_neq in Hc1, Hc3, Hc6. rewrite Hc1, Hc3, Hc6. by eexists. }
  destruct Hshp as (e & Hrun & ->).
  unfold field_from_array in Hrun. rewrite Hnum in Hrun.
  simpl negb in Hrun. cbv iota in Hrun. rewrite Hrun.
  exists shp_err. repeat split. right. by eexists.
Qed.

Lemma field_from_array_invalid_witness :
  ∃ e,
    field_from_array (mkArray float64 [2; 4]%nat [1; 2; 3; 4; 5; 6; 7; 8])
      s0
    = Raise e s0.
Proof.
  destruct (field_from_array_invalid
              (mkArray float64 [2; 4]%nat [1; 2; 3; 4; 5; 6; 7; 8])
              s0)
    as (e & Hrun & _).
  - right; right. split; [reflexivity|].
    rewrite !not_elem_of_cons.
    repeat split; try (unfold shape_at; simpl; lia). apply not_elem_of_nil.
  - by exists e.
Defined.

Example field_from_array_rejects :
  field_from_array (mkArray str_ [2]%nat [0; 0]) s0
    = Raise (TypeError "Array must be a numeric type") s0 ∧
  field_from_array (mkArray int64 [] [5]) s0 = Raise shp_err s0 ∧
  field_from_array (mkArray int64 [1; 1; 2]%nat [5; 6]) s0 = Raise shp_err s0.
Proof. done. Qed.

(** ** fields_factory: the create-field requests *)

Lemma stub_Create_requests (env : Env) (request : FieldRequest) (s : Session) :
  create_requests (final (stub_Create env request s))
  = (create_requests s ++ [request])%list.
Proof. unfold stub_Create. by destruct (reply_create env request). Qed.

(** C8, as stated, fails: with zero rows the matrix request carries a
    one-component dimensionality, with zero columns none at all. *)
Lemma create_matrix_field_degenerate :
  create_requests (final (create_matrix_field env0 3 0 2 "Nodal" s0))
  = [ {| req_nature := "MATRIX"; req_location := "Nodal"; scoping_size := 3;
         dimensionality := Some (mkDimensionality [2] (NatureEnum matrix));
         data_size := 0 |} ] ∧
  create_requests (final (create_matrix_field env0 3 5 0 "Nodal" s0))
  = [ {| req_nature := "MATRIX"; req_location := "Nodal"; scoping_size := 3;
         dimensionality := None; data_size := 0 |} ].
Proof. split; reflexivity. Qed.

(** C8, amended: each factory sends exactly one request, whose scoping
    size is [num_entities] and whose data size is [num_entities] times
    1 (scalar), 3 (3d vector), 6 (tensor) and rows*cols (matrix); the
    matrix request carries the two-component dimensionality
    [cols, rows] when neither rows nor cols is zero. *)
Theorem create_field_requests (env : Env) (n : Z) (location : string)
    (s : Session) :
  create_requests (final (create_scalar_field env n location s))
  = (create_requests s ++ [mkFieldRequest "SCALAR" location n None (n * 1)])%list ∧
  create_requests (final (create_3d_vector_field env n location s))
  = (create_requests s ++ [mkFieldRequest "VECTOR" location n None (n * 3)])%list ∧
  create_requests (final (create_tensor_field env n location s))
  = (create_requests s ++ [mkFieldRequest "SYMMATRIX" location n None (n * 6)])%list ∧
  ∀ rows cols, ∃ d,
    create_requests (final (create_matrix_field env n rows cols location s))
    = (create_requests s ++ [mkFieldRequest "MATRIX" location n d (n * (rows * cols))])%list ∧
    (rows ≠ 0 → cols ≠ 0 →
     d = Some (mkDimensionality [cols; rows] (NatureEnum matrix))).
Proof.
  repeat split.
  1-3: unfold create_scalar_field, create_3d_vector_field, create_tensor_field,
         _create_field; simpl; apply stub_Create_requests.
  intros rows cols.
  unfold create_matrix_field, _create_field. simpl.
  eexists. split.
  - rewrite stub_Create_requests, (Z.mul_comm cols rows). reflexivity.
  - intros Hr Hc. apply Z.eqb_neq in Hr, Hc. rewrite Hr, Hc. reflexivity.
Qed.

Lemma create_field_requests_witness :
  ∃ d,
    create_requests (final (create_matrix_field env0 3 5 2 "Nodal" s0))
    = [mkFieldRequest "MATRIX" "Nodal" 3 d 30] ∧
    d = Some (mkDimensionality [2; 5] (NatureEnum matrix)).
Proof.
  destruct (create_field_requests env0 3 "Nodal" s0) as (_ & _ & _ & Hm).
  destruct (Hm 5 2) as (d & Hreq & Hd).
  exists d. split; [exact Hreq|]. apply Hd; lia.
Defined.

(** ** model.py: loading the result info *)

Ltac run_monad :=
  repeat (progress (unfold mbind, M_bind, mret, M_ret, bind, ret, raise,
                      try_except, get_model, put_model, Metadata.assign;
                    simpl)).

#[local] Arguments String.append !_ _ / : simpl nomatch.

Lemma prefix_app (n h : string) :
  String.prefix n h = true ↔ ∃ rest, h = n ++ rest.
Proof.
  revert h. induction n as [|c n IH]; intros [|c' h]; simpl.
  - split; [intros _; by exists "" | done].
  - split; [intros _; by exists (String c' h) | done].
  - split; [done | by intros [? ?]].
  - destruct (Ascii.ascii_dec c c') as [->|Hne].
    + rewrite IH. split; intros [rest Hr]; exists rest; congruence.
    + split; [done|]. intros [rest Hr]. congruence.
Qed.

(** [contains] is the substring test. *)
Lemma contains_spec (n h : string) :
  Metadata.contains n h = true ↔ ∃ before rest, h = before ++ n ++ rest.
Proof.
  induction h as [|c h IH]; unfold Metadata.contains; fold Metadata.contains.
  - rewrite orb_false_r, prefix_app. split.
    + intros [rest Hr]. by exists "", rest.
    + intros (before & rest & Hr). destruct before; [by exists rest|done].
  - rewrite orb_true_iff, prefix_app, IH. split.
    + intros [[rest Hr] | (before & rest & Hr)].
      * by exists "", rest.
      * exists (String c before), rest. simpl. by rewrite Hr.
    + intros (before & rest & Hr). destruct before as [|c' before].
      * left. by exists rest.
      * right. exists before, rest. simpl in Hr. congruence.
Qed.

Lemma fresh_not_stored (s : Session) (l : loc) (o : Operator) :
  wf_session s → store s !! l = Some o → l ≠ fresh s.
Proof.
  intros Hwf Hl ->. apply (map_Forall_lookup_1 _ _ _ _ Hwf) in Hl. lia.
Qed.

(** C5: when the read of the result info fails remotely, an RPC error
    whose details contain "results file is not defined in the Data
    sources" is re-raised as the runtime error "Unable to open result
    file", and any other failure reaches the caller unchanged. *)
Theorem load_result_info_errors (env : Env) (s : Session) (sp : loc)
    (spo : Operator) (e : pyexn) :
  wf_session s →
  _stream_provider (model s) = Some sp →
  store s !! sp = Some spo →
  accepts env "ResultInfoProvider" None (TOutputs (op_name spo)) = true →
  reply_result_info env
    (<[fresh s := mkOperator "ResultInfoProvider" ∅ [POutputs sp]]> (store s))
    (fresh s) = inl e →
  ∃ e' s',
    Metadata._load_result_info env s = Raise e' s' ∧
    ((∃ details, e = InactiveRpcError details
                 ∧ Metadata.contains no_results_file details = true) →
     e' = unable_to_open) ∧
    ((∀ details, e = InactiveRpcError details →
                 Metadata.contains no_results_file details = false) →
     e' = e).
Proof.
  intros Hwf Hsp Hspo Hacc Hreply.
  pose proof (fresh_not_stored s sp spo Hwf Hspo) as Hne.
  unfold Metadata._load_result_info, Metadata.stream_provider_outputs,
    Operator_new, connect, evaluate.
  run_monad. rewrite Hsp. simpl.
  rewrite lookup_insert_eq. simpl.
  rewrite lookup_insert_ne by done. rewrite Hspo. simpl. rewrite Hacc. simpl.
  rewrite insert_insert_eq. rewrite Hreply.
  destruct e as [| | | | |details|]; simpl;
    try (do 2 eexists; split; [reflexivity|]; split;
         [by intros (d & [=] & _) | done]).
  fold no_results_file.
  destruct (Metadata.contains no_results_file details) eqn:Hc;
    do 2 eexists; (split; [reflexivity|]); split; try done.
  - intros H. specialize (H details eq_refl). congruence.
  - intros (d & [= <-] & Hd). congruence.
Qed.

Lemma wf_s_streams : wf_session s_streams.
Proof. unfold wf_session. apply (bool_decide_unpack _). vm_compute. exact I. Defined.

Lemma load_result_info_errors_witness :
  (∃ s', Metadata._load_result_info
           (env_failing (InactiveRpcError
              "DPF: the results file is not defined in the Data sources (1)"))
           s_streams
         = Raise (RuntimeError "Unable to open result file") s') ∧
  (∃ s', Metadata._load_result_info
           (env_failing (InactiveRpcError "server unavailable")) s_streams
         = Raise (InactiveRpcError "server unavailable") s').
Proof.
  split.
  - destruct (load_result_info_errors
                (env_failing (InactiveRpcError
                   "DPF: the results file is not defined in the Data sources (1)"))
                s_streams 1%positive
                (mkOperator "stream_provider" ∅
                   [PDataSources (mkDataSources (Some "a.rst"))])
                (InactiveRpcError
                   "DPF: the results file is not defined in the Data sources (1)")
                wf_s_streams eq_refl eq_refl eq_refl eq_refl)
      as (e' & s' & Hrun & Hyes & _).
    exists s'. rewrite Hrun. f_equal. apply Hyes.
    eexists. split; [reflexivity | vm_compute; reflexivity].
  - destruct (load_result_info_errors
                (env_failing (InactiveRpcError "server unavailable"))
                s_streams 1%positive
                (mkOperator "stream_provider" ∅
                   [PDataSources (mkDataSources (Some "a.rst"))])
                (InactiveRpcError "server unavailable")
                wf_s_streams eq_refl eq_refl eq_refl eq_refl)
      as (e' & s' & Hrun & _ & Hno).
    exists s'. rewrite Hrun. f_equal. apply Hno.
    intros details [= <-]. vm_compute. reflexivity.
Defined.

(** ** model.py: replacing the data source *)

Lemma stream_provider_on_name (env : Env) (d : DataSources) :
  op_name (stream_provider_on env d) = stream_provider_name env.
Proof. unfold stream_provider_on. by destruct (stream_provider_pin env). Qed.

(** [_cache_streams_provider] once the data sources are assigned: a new
    operator fed with them becomes the stream provider. *)
Lemma cache_streams_provider_run (env : Env) (s : Session) (d : DataSources) :
  accepts env (stream_provider_name env) (stream_provider_pin env) TDataSources
    = true →
  _data_sources (model s) = Some d →
  Metadata._cache_streams_provider env s
  = Ret tt {| store := <[fresh s := stream_provider_on env d]> (store s);
              fresh := Pos.succ (fresh s);
              evaluations := evaluations s;
              fields_allocated := fields_allocated s;
              create_requests := create_requests s;
              model := Metadata.set_stream_provider (Some (fresh s)) (model s) |}.
Proof.
  unfold stream_provider_on, stream_provider_name, stream_provider_pin.
  unfold Metadata._cache_streams_provider, Metadata.streams_provider_wrapper,
    Metadata.read_data_sources, Operator_new, connect.
  intros Hacc Hd.
  destruct (has_wrapper env "metadata" "stream_provider");
    run_monad; rewrite Hd; simpl; rewrite lookup_insert_eq; simpl;
    rewrite Hacc; simpl; unfold with_store, with_model; simpl;
    by rewrite insert_insert_eq.
Qed.

Lemma set_data_sources_run (env : Env) (var_inp : pyval) (s : Session) :
  accepts env (stream_provider_name env) (stream_provider_pin env) TDataSources
    = true →
  Metadata._set_data_sources env var_inp s
  = Ret tt {| store := <[fresh s := stream_provider_on env (data_sources_of var_inp)]>
                         (store s);
              fresh := Pos.succ (fresh s);
              evaluations := evaluations s;
              fields_allocated := fields_allocated s;
              create_requests := create_requests s;
              model := Metadata.set_stream_provider (Some (fresh s))
                         (Metadata.set_data_sources (data_sources_of var_inp)
                            (model s)) |}.
Proof.
  intros Hacc. unfold Metadata._set_data_sources.
  assert (Hassign :
    (match var_inp with
     | PDataSources d => Metadata.assign (Metadata.set_data_sources d)
     | PStr path =>
         Metadata.assign (Metadata.set_data_sources (mkDataSources (Some path)))
     | _ => Metadata.assign (Metadata.set_data_sources (mkDataSources None))
     end) s
    = Ret tt (with_model
                (Metadata.set_data_sources (data_sources_of var_inp) (model s)) s)).
  { by destruct var_inp. }
  unfold mbind at 1, M_bind, bind. rewrite Hassign.
  by rewrite (cache_streams_provider_run env _ (data_sources_of var_inp) Hacc).
Qed.

Lemma bind_run {A B} (c : M A) (k : A → M B) (s : Session) :
  (c ≫= k) s = match c s with
               | Ret a s' => k a s'
               | Raise e s' => Raise e s'
               end.
Proof. reflexivity. Qed.

(** A successful read of the result info. *)
Lemma load_result_info_run (env : Env) (s : Session) (sp : loc)
    (spo : Operator) (ri : ResultInfo) :
  sp ≠ fresh s →
  _stream_provider (model s) = Some sp →
  store s !! sp = Some spo →
  accepts env "ResultInfoProvider" None (TOutputs (op_name spo)) = true →
  reply_result_info env
    (<[fresh s := mkOperator "ResultInfoProvider" ∅ [POutputs sp]]> (store s))
    (fresh s) = inr ri →
  Metadata._load_result_info env s
  = Ret ri {| store := <[fresh s := mkOperator "ResultInfoProvider" ∅ [POutputs sp]]>
                         (store s);
              fresh := Pos.succ (fresh s);
              evaluations := S (evaluations s);
              fields_allocated := fields_allocated s;
              create_requests := create_requests s;
              model := model s |}.
Proof.
  intros Hne Hsp Hspo Hacc Hreply.
  unfold Metadata._load_result_info, Metadata.stream_provider_outputs,
    Operator_new, connect, evaluate.
  run_monad. rewrite Hsp. simpl.
  rewrite lookup_insert_eq. simpl.
  rewrite lookup_insert_ne by done. rewrite Hspo. simpl. rewrite Hacc. simpl.
  rewrite insert_insert_eq. by rewrite Hreply.
Qed.

(** [Metadata(data_sources, server)]: the stream provider is built (a
    second time) from the data sources and the result info is read
    through it. *)
Lemma Metadata_init_run (env : Env) (data_sources : pyval) (s : Session)
    (ri : ResultInfo) :
  let d := data_sources_of data_sources in
  let sp := Pos.succ (fresh s) in
  let rip := Pos.succ sp in
  let st := <[rip := mkOperator "ResultInfoProvider" ∅ [POutputs sp]]>
              (<[sp := stream_provider_on env d]>
                 (<[fresh s := stream_provider_on env d]> (store s))) in
  accepts env (stream_provider_name env) (stream_provider_pin env) TDataSources
    = true →
  accepts env "ResultInfoProvider" None (TOutputs (stream_provider_name env))
    = true →
  reply_result_info env st rip = inr ri →
  Metadata.__init__ env data_sources s
  = Ret tt {| store := st;
              fresh := Pos.succ rip;
              evaluations := S (evaluations s);
              fields_allocated := fields_allocated s;
              create_requests := create_requests s;
              model := {| _data_sources := Some d; _meshed_region := None;
                          result_info := Some ri; _stream_provider := Some sp;
                          _time_freq_support := None |} |}.
Proof.
  intros d sp rip st Hacc Hrip Hreply.
  unfold Metadata.__init__.
  rewrite bind_run. unfold put_model at 1.
  rewrite bind_run, (set_data_sources_run env data_sources _ Hacc).
  do 4 (rewrite bind_run; unfold Metadata.assign at 1, get_model at 1,
          put_model at 1; rewrite bind_run; simpl).
  rewrite bind_run.
  erewrite (cache_streams_provider_run env _ d Hacc); [|reflexivity].
  unfold Metadata._cache_result_info. rewrite bind_run.
  erewrite (load_result_info_run env _ sp (stream_provider_on env d) ri);
    simpl; try done.
  - lia.
  - by rewrite lookup_insert_eq.
  - by rewrite stream_provider_on_name.
Qed.

(** C3, as stated, fails: after [Metadata("a.rst")], replacing the data
    source by "b.rst" through [_set_data_sources] leaves the result info
    read from "a.rst" in place, although a read through the new stream
    provider gives the one of "b.rst". *)
Lemma set_data_sources_keeps_result_info :
  let s1 := final (Metadata.__init__ env0 (PStr "a.rst") s0) in
  let s2 := final (Metadata._set_data_sources env0 (PStr "b.rst") s1) in
  _data_sources (model s2) = Some (mkDataSources (Some "b.rst")) ∧
  result_info (model s1) = Some (mkResultInfo "a.rst" []) ∧
  result_info (model s2) = Some (mkResultInfo "a.rst" []) ∧
  (∃ s3, Metadata._load_result_info env0 s2 = Ret (mkResultInfo "b.rst" []) s3).
Proof.
  repeat split; try (vm_compute; reflexivity).
  eexists. vm_compute. reflexivity.
Qed.

(** C3, amended: [_set_data_sources] takes a [DataSources], a path
    string (wrapped into a new [DataSources]) or anything else (an empty
    [DataSources]), and always builds a new stream provider fed with the
    new data sources; it leaves [result_info] as it was.  [result_info]
    is read through the stream provider of the new data sources by
    [Metadata.__init__], which runs [_cache_result_info] after
    [_set_data_sources]. *)
Theorem set_data_sources_recomputes_streams (env : Env) (var_inp : pyval)
    (s : Session) :
  accepts env (stream_provider_name env) (stream_provider_pin env) TDataSources
    = true →
  let d := data_sources_of var_inp in
  (∃ s',
     Metadata._set_data_sources env var_inp s = Ret tt s' ∧
     _data_sources (model s') = Some d ∧
     _stream_provider (model s') = Some (fresh s) ∧
     store s' !! fresh s = Some (stream_provider_on env d) ∧
     result_info (model s') = result_info (model s) ∧
     evaluations s' = evaluations s) ∧
  (let sp := Pos.succ (fresh s) in
   let rip := Pos.succ sp in
   ∀ ri,
     accepts env "ResultInfoProvider" None (TOutputs (stream_provider_name env))
       = true →
     reply_result_info env
       (<[rip := mkOperator "ResultInfoProvider" ∅ [POutputs sp]]>
          (<[sp := stream_provider_on env d]>
             (<[fresh s := stream_provider_on env d]> (store s)))) rip
       = inr ri →
     ∃ s',
       Metadata.__init__ env var_inp s = Ret tt s' ∧
       _data_sources (model s') = Some d ∧
       _stream_provider (model s') = Some sp ∧
       store s' !! sp = Some (stream_provider_on env d) ∧
       store s' !! rip = Some (mkOperator "ResultInfoProvider" ∅ [POutputs sp]) ∧
       result_info (model s') = Some ri).
Proof.
  intros Hacc d. split.
  - eexists. split; [apply (set_data_sources_run env var_inp s Hacc)|].
    simpl. by rewrite lookup_insert_eq.
  - intros sp rip ri Hrip Hreply.
    eexists. split; [apply (Metadata_init_run env var_inp s ri Hacc Hrip Hreply)|].
    simpl. rewrite lookup_insert_eq, lookup_insert_ne by (unfold rip; lia).
    by rewrite lookup_insert_eq.
Qed.

Lemma set_data_sources_recomputes_streams_witness :
  (∃ s',
     Metadata._set_data_sources env0 (PStr "b.rst") s_streams = Ret tt s' ∧
     _data_sources (model s') = Some (mkDataSources (Some "b.rst")) ∧
     _stream_provider (model s') = Some 2%positive ∧
     result_info (model s') = None) ∧
  (∃ s',
     Metadata.__init__ env0 (PStr "b.rst") s_streams = Ret tt s' ∧
     result_info (model s') = Some (mkResultInfo "b.rst" [])).
Proof.
  destruct (set_data_sources_recomputes_streams env0 (PStr "b.rst") s_streams
              eq_refl) as [(s' & Hrun & Hd & Hsp & _ & Hri & _) Hinit].
  split.
  - exists s'. repeat split; assumption.
  - destruct (Hinit (mkResultInfo "b.rst" []) eq_refl eq_refl)
      as (s'' & Hrun' & _ & _ & _ & _ & Hri').
    exists s''. split; assumption.
Defined.

(** ** results.py: calling a [Result] *)

Lemma type_of_insert_same_name (st : gmap loc Operator) (l : loc)
    (op op' : Operator) (v : pyval) :
  st !! l = Some op → op_name op' = op_name op →
  type_of (<[l := op']> st) v = type_of st v.
Proof.
  intros Hl Hnm. destruct v; simpl; try reflexivity;
    (destruct (decide (l = l0)) as [<-|Hne];
     [rewrite lookup_insert_eq, Hl; simpl; by rewrite Hnm
     |by rewrite lookup_insert_ne]).
Qed.

Lemma plug_if_name (pin : string) (v : pyval) (op : Operator) :
  op_name (plug_if pin v op) = op_name op.
Proof. unfold plug_if. by destruct (truthy v). Qed.

Lemma accepted_insert_same_name (env : Env) (st : gmap loc Operator) (l : loc)
    (op op' : Operator) (nm pin : string) (v : pyval) :
  st !! l = Some op → op_name op' = op_name op →
  accepted env (<[l := op']> st) nm pin v = accepted env st nm pin v.
Proof.
  intros Hl Hnm. unfold accepted.
  by rewrite (type_of_insert_same_name st l op op' v Hl Hnm).
Qed.

(** The two-level test of [__call__] is one conditional connect of the
    picked value. *)
Lemma override_or_stored (env : Env) (l : loc) (pin : string)
    (override stored : pyval) :
  (if truthy override then connect env l (Some pin) override
   else if truthy stored then connect env l (Some pin) stored
   else mret tt)
  = connect_if env l pin (pick override stored).
Proof.
  unfold connect_if, pick. destruct (truthy override) eqn:Ho; [by rewrite Ho|].
  reflexivity.
Qed.

Lemma connect_if_run (env : Env) (l : loc) (pin : string) (v : pyval)
    (op : Operator) (s : Session) :
  store s !! l = Some op →
  accepted env (store s) (op_name op) pin v = true →
  connect_if env l pin v s
  = Ret tt (with_store (<[l := plug_if pin v op]> (store s)) s).
Proof.
  intros Hl Hacc. unfold connect_if, plug_if, accepted, connect in *.
  destruct (truthy v); simpl in Hacc.
  - by rewrite Hl, Hacc.
  - rewrite insert_id by done. by destruct s.
Qed.

Lemma connect_no_eval (env : Env) (l : loc) (pin : option string) (v : pyval) :
  no_eval (connect env l pin v).
Proof.
  intros s. unfold connect. destruct (store s !! l) as [op|]; [|done].
  by destruct (accepts env (op_name op) pin (type_of (store s) v)).
Qed.

Lemma connect_if_no_eval (env : Env) (l : loc) (pin : string) (v : pyval) :
  no_eval (connect_if env l pin v).
Proof.
  unfold connect_if. destruct (truthy v); [apply connect_no_eval | done].
Qed.

Lemma bind_no_eval {A B} (c : M A) (k : A → M B) :
  no_eval c → (∀ a, no_eval (k a)) → no_eval (c ≫= k).
Proof.
  intros Hc Hk s. rewrite bind_run. specialize (Hc s).
  destruct (c s) as [a s'|e s']; simpl in *; [|done].
  by rewrite Hk.
Qed.

Lemma call_as_connects (env : Env) (r : Result) (t m : pyval) :
  Result.__call__ env r t m
  = (connect_if env (_operator r) "time_scoping" (pick t (_time_scoping r));;
     connect_if env (_operator r) "mesh_scoping" (pick m (_mesh_scoping r));;
     connect_if env (_operator r) "requested_location" (_location r);;
     mret (_operator r)).
Proof.
  unfold Result.__call__. by rewrite !override_or_stored.
Qed.

Lemma call_no_eval (env : Env) (r : Result) (t m : pyval) :
  no_eval (Result.__call__ env r t m).
Proof.
  rewrite call_as_connects.
  repeat (apply bind_no_eval; [apply connect_if_no_eval | intros _]).
  done.
Qed.

Lemma plug_if_lookup (pin q : string) (v : pyval) (op : Operator) :
  op_inputs (plug_if pin v op) !! q
  = if (truthy v && bool_decide (pin = q))%bool then Some v
    else op_inputs op !! q.
Proof.
  unfold plug_if. destruct (truthy v); simpl; [|done].
  case_bool_decide as Hq.
  - subst. apply lookup_insert_eq.
  - by apply lookup_insert_ne.
Qed.

(** C1, as stated, fails: the call-time arguments [0] and [[]] are
    provided, yet the stored time scoping [5] and the stored mesh
    scoping are what gets connected. *)
Lemma call_ignores_falsy_argument :
  PInt 0 ≠ PNone ∧ PList [] ≠ PNone ∧
  ∃ s' op,
    Result.__call__ env0 r_scoped (PInt 0) (PList []) s_bound
    = Ret 2%positive s' ∧
    store s' !! 2%positive = Some op ∧
    op_inputs op !! "time_scoping" = Some (PInt 5) ∧
    op_inputs op !! "mesh_scoping" = Some (PScoping (mkScoping [1; 2; 3] "Nodal")).
Proof.
  split; [done|]. split; [done|].
  do 2 eexists. vm_compute. repeat split; reflexivity.
Qed.

(** What a call does, in closed form: no evaluation; and when the pins
    accept what reaches them, the operator is returned with the picked
    values plugged into its three pins. *)
Lemma call_run (env : Env) (r : Result) (t m : pyval)
    (s : Session) (op : Operator) :
  store s !! _operator r = Some op →
  let tv := pick t (_time_scoping r) in
  let mv := pick m (_mesh_scoping r) in
  let lv := _location r in
  let op' :=
    plug_if "requested_location" lv
      (plug_if "mesh_scoping" mv (plug_if "time_scoping" tv op)) in
  evaluations (final (Result.__call__ env r t m s)) = evaluations s ∧
  (accepted env (store s) (op_name op) "time_scoping" tv = true →
   accepted env (store s) (op_name op) "mesh_scoping" mv = true →
   accepted env (store s) (op_name op) "requested_location" lv = true →
   Result.__call__ env r t m s
   = Ret (_operator r) (with_store (<[_operator r := op']> (store s)) s) ∧
   op_inputs op' !! "time_scoping"
   = (if truthy tv then Some tv else op_inputs op !! "time_scoping") ∧
   op_inputs op' !! "mesh_scoping"
   = (if truthy mv then Some mv else op_inputs op !! "mesh_scoping") ∧
   op_inputs op' !! "requested_location"
   = (if truthy lv then Some lv else op_inputs op !! "requested_location") ∧
   (∀ q, q ≠ "time_scoping" → q ≠ "mesh_scoping" → q ≠ "requested_location" →
         op_inputs op' !! q = op_inputs op !! q) ∧
   op_typed op' = op_typed op).
Proof.
  intros Hop tv mv lv op'. split; [apply call_no_eval|].
  intros Ht Hm Hl. split.
  - subst op'. subst tv mv lv.
    rewrite call_as_connects.
    rewrite bind_run, (connect_if_run env _ _ _ op s Hop Ht).
    set (op1 := plug_if "time_scoping" _ op) in *.
    assert (Hn1 : op_name op1 = op_name op) by apply plug_if_name.
    rewrite bind_run.
    rewrite (connect_if_run env _ _ _ op1); simpl.
    2: by rewrite lookup_insert_eq.
    2: { rewrite Hn1.
         by rewrite (accepted_insert_same_name env _ _ op op1 _ _ _ Hop Hn1). }
    set (op2 := plug_if "mesh_scoping" _ op1) in *.
    assert (Hn2 : op_name op2 = op_name op)
      by (unfold op2; by rewrite plug_if_name).
    rewrite insert_insert_eq, bind_run.
    rewrite (connect_if_run env _ _ _ op2); simpl.
    2: by rewrite lookup_insert_eq.
    2: { rewrite Hn2.
         by rewrite (accepted_insert_same_name env _ _ op op2 _ _ _ Hop Hn2). }
    by rewrite insert_insert_eq.
  - unfold op'. rewrite !plug_if_lookup.
    repeat split.
    1-3: repeat case_bool_decide; try done;
         by destruct (truthy lv), (truthy mv), (truthy tv).
    + intros q H1 H2 H3. rewrite !plug_if_lookup.
      rewrite !bool_decide_eq_false_2 by done. by rewrite !andb_false_r.
    + unfold plug_if. by destruct (truthy lv), (truthy mv), (truthy tv).
Qed.

(** C1, amended: calling [r(time_scoping=t, mesh_scoping=m)] triggers no
    evaluation, whatever happens; and when the pins accept what reaches
    them, it returns the underlying operator [r._operator], on which it
    has connected the call-time argument when that argument is truthy,
    the stored [_time_scoping] / [_mesh_scoping] when the call-time
    argument is absent or falsy and the stored value is truthy, and
    [_location] as [requested_location] when it is truthy; every other
    pin is left as it was. *)
Theorem call_merges_truthy (env : Env) (r : Result) (t m : pyval)
    (s : Session) (op : Operator) :
  store s !! _operator r = Some op →
  let tv := pick t (_time_scoping r) in
  let mv := pick m (_mesh_scoping r) in
  let lv := _location r in
  let op' :=
    plug_if "requested_location" lv
      (plug_if "mesh_scoping" mv (plug_if "time_scoping" tv op)) in
  evaluations (final (Result.__call__ env r t m s)) = evaluations s ∧
  (accepted env (store s) (op_name op) "time_scoping" tv = true →
   accepted env (store s) (op_name op) "mesh_scoping" mv = true →
   accepted env (store s) (op_name op) "requested_location" lv = true →
   Result.__call__ env r t m s
   = Ret (_operator r) (with_store (<[_operator r := op']> (store s)) s) ∧
   op_inputs op' !! "time_scoping"
   = (if truthy tv then Some tv else op_inputs op !! "time_scoping") ∧
   op_inputs op' !! "mesh_scoping"
   = (if truthy mv then Some mv else op_inputs op !! "mesh_scoping") ∧
   op_inputs op' !! "requested_location"
   = (if truthy lv then Some lv else op_inputs op !! "requested_location") ∧
   (∀ q, q ≠ "time_scoping" → q ≠ "mesh_scoping" → q ≠ "requested_location" →
         op_inputs op' !! q = op_inputs op !! q) ∧
   op_typed op' = op_typed op).
Proof. exact (call_run env r t m s op). Qed.

Lemma call_merges_truthy_witness :
  ∃ s' op',
    Result.__call__ env0 (Result.set_location (PStr "Nodal") r0)
      (PList [1; 2]) PNone s_bound = Ret 2%positive s' ∧
    evaluations s' = 0%nat ∧
    store s' !! 2%positive = Some op' ∧
    op_inputs op' !! "time_scoping" = Some (PList [1; 2]) ∧
    op_inputs op' !! "mesh_scoping" = None ∧
    op_inputs op' !! "requested_location" = Some (PStr "Nodal").
Proof.
  destruct (call_merges_truthy env0 (Result.set_location (PStr "Nodal") r0)
              (PList [1; 2]) PNone s_bound (mkOperator "U" ∅ []) eq_refl)
    as [_ Hrun].
  destruct (Hrun eq_refl eq_refl eq_refl) as (Hcall & Ht & Hm & Hl & _).
  do 2 eexists. split; [exact Hcall|].
  split; [reflexivity|]. split; [apply lookup_insert_eq|].
  repeat split; assumption.
Defined.

(** C10: a falsy call-time override ([0], an empty list, [None], ...)
    is not distinguished from an absent one: the call behaves exactly as
    the call without that override, and the stored [_time_scoping] /
    [_mesh_scoping], when truthy and accepted by the pin, is what the
    operator gets connected. *)
Theorem call_falsy_override (env : Env) (r : Result) (t m : pyval)
    (s : Session) :
  truthy (PInt 0) = false ∧ truthy (PList []) = false ∧ truthy PNone = false ∧
  (truthy t = false →
   Result.__call__ env r t m s = Result.__call__ env r PNone m s ∧
   pick t (_time_scoping r) = _time_scoping r) ∧
  (truthy m = false →
   Result.__call__ env r t m s = Result.__call__ env r t PNone s ∧
   pick m (_mesh_scoping r) = _mesh_scoping r) ∧
  (∀ op,
     store s !! _operator r = Some op →
     accepted env (store s) (op_name op) "time_scoping"
       (pick t (_time_scoping r)) = true →
     accepted env (store s) (op_name op) "mesh_scoping"
       (pick m (_mesh_scoping r)) = true →
     accepted env (store s) (op_name op) "requested_location" (_location r)
       = true →
     ∃ op',
       store (final (Result.__call__ env r t m s)) !! _operator r = Some op' ∧
       (truthy t = false → truthy (_time_scoping r) = true →
        op_inputs op' !! "time_scoping" = Some (_time_scoping r)) ∧
       (truthy m = false → truthy (_mesh_scoping r) = true →
        op_inputs op' !! "mesh_scoping" = Some (_mesh_scoping r))).
Proof.
  split; [done|]. split; [done|]. split; [done|].
  split; [|split].
  - intros H. unfold Result.__call__, pick. by rewrite H.
  - intros H. unfold Result.__call__, pick. by rewrite H.
  - intros op Hop Ht Hm Hl.
    destruct (call_run env r t m s op Hop) as [_ Hrun].
    destruct (Hrun Ht Hm Hl) as (Hcall & Hts & Hms & _).
    eexists. rewrite Hcall. simpl. split; [apply lookup_insert_eq|].
    split.
    + intros Hf Hstored. rewrite Hts. unfold pick. by rewrite Hf, Hstored.
    + intros Hf Hstored. rewrite Hms. unfold pick. by rewrite Hf, Hstored.
Qed.

Lemma call_falsy_override_witness :
  Result.__call__ env0 r0 (PInt 0) PNone s_bound
  = Result.__call__ env0 r0 PNone PNone s_bound ∧
  Result.__call__ env0 r0 (PInt 3) (PList []) s_bound
  = Result.__call__ env0 r0 (PInt 3) PNone s_bound ∧
  ∃ op',
    store (final (Result.__call__ env0 r0 (PInt 0) PNone s_bound)) !! 2%positive
    = Some op' ∧
    op_inputs op' !! "time_scoping" = Some (PInt 5).
Proof.
  destruct (call_falsy_override env0 r0 (PInt 0) PNone s_bound)
    as (_ & _ & _ & Ht & _ & Hconn).
  destruct (call_falsy_override env0 r0 (PInt 3) (PList []) s_bound)
    as (_ & _ & _ & _ & Hm & _).
  split; [apply Ht; reflexivity|]. split; [apply Hm; reflexivity|].
  destruct (Hconn (mkOperator "U" ∅ []) eq_refl eq_refl eq_refl eq_refl)
    as (op' & Hop' & Hts & _).
  exists op'. split; [exact Hop'|]. apply Hts; reflexivity.
Defined.

(** ** results.py: the time selectors *)


(** [on_all_time_freqs] stores the ids 1, ..., n_sets. *)
Lemma on_all_time_freqs_run (env : Env) (r : Result) (s s' : Session)
    (tfs : TimeFreqSupport) (samples : list Z) :
  Metadata.time_freq_support env s = Ret tfs s' →
  time_frequencies tfs = Some samples →
  Result.on_all_time_freqs env r s
  = Ret (Result.set_time_scoping (PList (one_to (length samples))) r) s'.
Proof.
  intros Htfs Hsamples.
  unfold Result.on_all_time_freqs, Result.len_time_frequencies.
  rewrite bind_run, Htfs, Hsamples.
  by rewrite <- arange_one_to.
Qed.

(** C2: on a model whose time/frequency support has [n_sets] entries,
    [on_first_time_freq] (which stores 1) followed by
    [on_last_time_freq] leaves [_time_scoping] equal to [n_sets]: the
    outcome is the one of [on_last_time_freq] alone, nothing of the
    first selector remains. *)
Theorem last_time_freq_overwrites (env : Env) (r : Result) (s s' : Session)
    (tfs : TimeFreqSupport) (samples : list Z) :
  Metadata.time_freq_support env s = Ret tfs s' →
  time_frequencies tfs = Some samples →
  let n_sets := Z.of_nat (length samples) in
  let chained :=
    (self ← Result.on_first_time_freq r; Result.on_last_time_freq env self) in
  Result.on_first_time_freq r s = Ret (Result.set_time_scoping (PInt 1) r) s ∧
  chained s = Ret (Result.set_time_scoping (PInt n_sets) r) s' ∧
  _time_scoping (Result.set_time_scoping (PInt n_sets) r) = PInt n_sets ∧
  chained s = Result.on_last_time_freq env r s.
Proof.
  intros Htfs Hsamples n_sets chained. subst chained n_sets.
  assert (Hlast : ∀ r0,
    Result.on_last_time_freq env r0 s
    = Ret (Result.set_time_scoping (PInt (Z.of_nat (length samples))) r0) s').
  { intros r1. unfold Result.on_last_time_freq, Result.len_time_frequencies.
    rewrite bind_run, Htfs, Hsamples. reflexivity. }
  assert (Hchain :
    (self ← Result.on_first_time_freq r; Result.on_last_time_freq env self) s
    = Ret (Result.set_time_scoping (PInt (Z.of_nat (length samples))) r) s').
  { rewrite bind_run. unfold Result.on_first_time_freq. simpl.
    by rewrite Hlast. }
  split; [reflexivity|]. split; [exact Hchain|]. split; [reflexivity|].
  by rewrite Hchain, Hlast.
Qed.

Lemma last_time_freq_overwrites_witness :
  ∃ s',
    (self ← Result.on_first_time_freq r0; Result.on_last_time_freq env0 self)
      s_bound
    = Ret (Result.set_time_scoping (PInt 3) r0) s'.
Proof.
  eexists.
  apply (last_time_freq_overwrites env0 r0 s_bound
           (final (Metadata.time_freq_support env0 s_bound))
           (mkTimeFreqSupport (Some [0; 10; 20])) [0; 10; 20]).
  - vm_compute. reflexivity.
  - reflexivity.
Defined.

(** ** results.py: the split selectors *)

Ltac wf_inserts Hwf :=
  unfold wf_session in *; simpl;
  repeat (apply map_Forall_insert_2; [lia|]);
  eapply map_Forall_impl; [exact Hwf | simpl; intros; lia].

Ltac frame_inserts :=
  let k := fresh "k" in let Hk := fresh "Hk" in
  intros k Hk; simpl; rewrite ?lookup_insert_ne by lia; reflexivity.

Lemma stored_below_fresh (s : Session) (l : loc) (o : Operator) :
  wf_session s → store s !! l = Some o → (l < fresh s)%positive.
Proof. intros Hwf Hl. exact (map_Forall_lookup_1 _ _ _ _ Hwf Hl). Qed.

Lemma connect_run (env : Env) (l : loc) (pin : option string) (v : pyval)
    (op : Operator) (s : Session) :
  store s !! l = Some op →
  accepts env (op_name op) pin (type_of (store s) v) = true →
  connect env l pin v s = Ret tt (with_store (<[l := plug pin v op]> (store s)) s).
Proof. intros Hl Hacc. unfold connect. by rewrite Hl, Hacc. Qed.

(** A connection attempted under [try/except: pass] never raises and
    touches at most that pin. *)
Lemma try_connect_run (env : Env) (l : loc) (pin : string) (v : pyval)
    (op : Operator) (s : Session) :
  store s !! l = Some op →
  ∃ op',
    try_except (connect env l (Some pin) v) (fun _ => mret tt) s
    = Ret tt (with_store (<[l := op']> (store s)) s) ∧
    op_name op' = op_name op ∧
    ∀ q, q ≠ pin → op_inputs op' !! q = op_inputs op !! q.
Proof.
  intros Hl. unfold try_except, connect. rewrite Hl.
  destruct (accepts env (op_name op) (Some pin) (type_of (store s) v)).
  - exists (plug (Some pin) v op). repeat split.
    intros q Hq. simpl. by rewrite lookup_insert_ne.
  - exists op. rewrite insert_id by done. by destruct s.
Qed.

(** The [mesh_provider] property returns a new "MeshProvider" operator,
    whatever happens in its guarded first block. *)
Lemma mesh_provider_run (env : Env) (s : Session) (sp : loc) (spo : Operator) :
  wf_session s →
  _stream_provider (model s) = Some sp →
  store s !! sp = Some spo →
  accepts env "MeshProvider" None (TOutputs (op_name spo)) = true →
  ∃ l s' o,
    Metadata.mesh_provider env s = Ret l s' ∧
    extends s s' ∧
    (fresh s ≤ l)%positive ∧
    store s' !! l = Some o ∧ op_name o = "MeshProvider".
Proof.
  intros Hwf Hsp Hspo Hacc.
  pose proof (stored_below_fresh s sp spo Hwf Hspo) as Hlt.
  unfold Metadata.mesh_provider, Metadata.run, Metadata.stream_provider_outputs,
    Operator_new, connect, evaluate.
  run_monad. rewrite Hsp. simpl.
  rewrite lookup_insert_eq. simpl.
  rewrite lookup_insert_ne by lia. rewrite Hspo. simpl.
  destruct (accepts env "MeshSelectionManagerProvider" None _); simpl;
    [destruct (reply_run env _ _); simpl|];
    rewrite Hsp; simpl; rewrite lookup_insert_eq; simpl;
    rewrite !lookup_insert_ne by lia; rewrite Hspo; simpl; rewrite Hacc; simpl;
    do 3 eexists; (split; [reflexivity|]); unfold extends, with_store; simpl;
    (split; [split; [wf_inserts Hwf | split; [done | split; [lia | frame_inserts]]]|]);
    (split; [lia|]); rewrite lookup_insert_eq; done.
Qed.

Lemma wf_update (s : Session) (l : loc) (o : Operator) :
  wf_session s → (l < fresh s)%positive →
  wf_session (with_store (<[l := o]> (store s)) s).
Proof.
  intros Hwf Hl. unfold wf_session, with_store. simpl.
  by apply map_Forall_insert_2.
Qed.

Lemma split_operator_new (env : Env) :
  (if has_wrapper env "scoping" "split_on_property_type"
   then Operator_new (wrapper_name env "scoping" "split_on_property_type")
   else Operator_new "scoping::by_property")
  = Operator_new (split_operator_name env).
Proof.
  unfold split_operator_name.
  by destruct (has_wrapper env "scoping" "split_on_property_type").
Qed.

(** One split selector: a new split operator, with the property key as
    its [label1] input, becomes the stored mesh scoping; no error. *)
Lemma add_split_run (env : Env) (r : Result) (prop : string) (s : Session)
    (sp : loc) (spo : Operator) :
  wf_session s →
  _stream_provider (model s) = Some sp →
  store s !! sp = Some spo →
  split_ready env (op_name spo) = true →
  ∃ s' o,
    Result._add_split_on_property_type env r prop s
    = Ret (Result.set_mesh_scoping (POperator (fresh s)) r) s' ∧
    extends s s' ∧
    (fresh s < fresh s')%positive ∧
    store s' !! fresh s = Some o ∧
    op_name o = split_operator_name env ∧
    op_inputs o !! "label1" = Some (PStr prop).
Proof.
  intros Hwf Hsp Hspo Hready.
  unfold split_ready in Hready. rewrite !andb_true_iff in Hready.
  destruct Hready as [[[Hmp Hloc] Hmesh] Hlabel].
  pose proof (stored_below_fresh s sp spo Hwf Hspo) as Hlt.
  set (f := fresh s) in *.
  unfold Result._add_split_on_property_type.
  rewrite split_operator_new, bind_run. unfold Operator_new at 1. fold f.
  set (op0 := mkOperator (split_operator_name env) ∅ []).
  set (s1 := mkSession _ _ _ _ _ _).
  (* requested_location *)
  rewrite bind_run.
  rewrite (connect_run env f _ _ op0 s1);
    [|apply lookup_insert_eq|exact Hloc].
  set (op1 := plug (Some "requested_location") _ op0).
  set (s2 := with_store _ s1).
  (* the mesh provider *)
  assert (Hwf2 : wf_session s2) by (subst s2 s1 f; wf_inserts Hwf).
  destruct (mesh_provider_run env s2 sp spo Hwf2 Hsp) as
    (l & s3 & o3 & Hmprun & (Hwf3 & Hmodel3 & Hfresh3 & Hframe3) & Hl & Hl3 & Hname3).
  { subst s2 s1 f. simpl. by rewrite !lookup_insert_ne by lia. }
  { exact Hmp. }
  rewrite bind_run, Hmprun.
  assert (Hf3 : store s3 !! f = Some op1).
  { rewrite Hframe3 by (subst s2 s1 f; simpl; lia).
    subst s2 s1. simpl. apply lookup_insert_eq. }
  assert (Hflt : (f < fresh s3)%positive) by (subst s2 s1 f; simpl in *; lia).
  (* mesh *)
  rewrite bind_run.
  rewrite (connect_run env f _ _ op1 s3 Hf3);
    [|simpl; rewrite Hl3; simpl; rewrite Hname3; exact Hmesh].
  set (op2 := plug (Some "mesh") _ op1).
  set (s4 := with_store _ s3).
  (* label1 *)
  rewrite bind_run.
  rewrite (connect_run env f _ _ op2 s4);
    [|apply lookup_insert_eq|exact Hlabel].
  set (op3 := plug (Some "label1") (PStr prop) op2).
  set (s5 := with_store _ s4).
  assert (Hwf5 : wf_session s5).
  { subst s5 s4. apply wf_update; [apply wf_update|]; done. }
  assert (Hf5 : store s5 !! f = Some op3) by apply lookup_insert_eq.
  assert (Hext : ∀ o, extends s (with_store (<[f := o]> (store s5)) s5)).
  { intros o. split; [by apply wf_update|]. split; [exact Hmodel3|].
    split; [subst s2 s1 f; simpl in *; lia|].
    intros k Hk. simpl. rewrite !lookup_insert_ne by (subst f; lia).
    rewrite Hframe3 by (subst s2 s1 f; simpl; lia).
    subst s2 s1. simpl. by rewrite !lookup_insert_ne by (subst f; lia). }
  rewrite bind_run.
  destruct (truthy (_mesh_scoping r)).
  - destruct (try_connect_run env f "mesh_scoping" (_mesh_scoping r) op3 s5 Hf5)
      as (op4 & Hrun & Hname4 & Hpins4).
    rewrite Hrun. exists (with_store (<[f := op4]> (store s5)) s5), op4.
    split; [reflexivity|]. split; [apply Hext|].
    split; [exact Hflt|]. split; [apply lookup_insert_eq|].
    split; [by rewrite Hname4|].
    rewrite Hpins4 by done. apply lookup_insert_eq.
  - exists s5, op3. split; [reflexivity|].
    split. { specialize (Hext op3). rewrite insert_id in Hext by done.
             by destruct s5. }
    split; [exact Hflt|]. split; [exact Hf5|]. split; [reflexivity|].
    apply lookup_insert_eq.
Qed.

(** C4: [split_by_body] followed by [split_by_shape] on the same result
    raises no error, and the second property key has replaced the first:
    [_specific_fc_type] is "shape" and the split operator stored in
    [_mesh_scoping], a new one, has "elshape" as its [label1] input
    (the operator built by [split_by_body], with "mat", is no longer the
    stored one). *)
Theorem split_by_shape_after_body (env : Env) (r : Result) (s : Session)
    (sp : loc) (spo : Operator) :
  wf_session s →
  _stream_provider (model s) = Some sp →
  store s !! sp = Some spo →
  split_ready env (op_name spo) = true →
  ∃ r1 s1 r2 s2 l1 l2 o1 o2,
    Result.split_by_body env r s = Ret r1 s1 ∧
    Result.split_by_shape env r1 s1 = Ret r2 s2 ∧
    _specific_fc_type r1 = Some "body" ∧
    _mesh_scoping r1 = POperator l1 ∧
    store s1 !! l1 = Some o1 ∧
    op_inputs o1 !! "label1" = Some (PStr "mat") ∧
    _specific_fc_type r2 = Some "shape" ∧
    _mesh_scoping r2 = POperator l2 ∧
    l2 ≠ l1 ∧
    store s2 !! l2 = Some o2 ∧
    op_name o2 = split_operator_name env ∧
    op_inputs o2 !! "label1" = Some (PStr "elshape").
Proof.
  intros Hwf Hsp Hspo Hready.
  pose proof (stored_below_fresh s sp spo Hwf Hspo) as Hlt.
  unfold Result.split_by_body, Result.split_by_shape.
  destruct (add_split_run env (Result.set_specific_fc_type (Some "body") r)
              "mat" s sp spo Hwf Hsp Hspo Hready)
    as (s1 & o1 & Hrun1 & (Hwf1 & Hmodel1 & Hfresh1 & Hframe1) & Hlt1 & Ho1 & _ & Hlab1).
  set (r1 := Result.set_mesh_scoping (POperator (fresh s))
               (Result.set_specific_fc_type (Some "body") r)) in *.
  assert (Hsp1 : _stream_provider (model s1) = Some sp) by by rewrite Hmodel1.
  assert (Hspo1 : store s1 !! sp = Some spo) by by rewrite Hframe1.
  destruct (add_split_run env (Result.set_specific_fc_type (Some "shape") r1)
              "elshape" s1 sp spo Hwf1 Hsp1 Hspo1 Hready)
    as (s2 & o2 & Hrun2 & _ & _ & Ho2 & Hname2 & Hlab2).
  exists r1, s1,
    (Result.set_mesh_scoping (POperator (fresh s1))
       (Result.set_specific_fc_type (Some "shape") r1)),
    s2, (fresh s), (fresh s1), o1, o2.
  repeat split; try assumption. lia.
Qed.

Lemma wf_s_bound : wf_session s_bound.
Proof. unfold wf_session. apply (bool_decide_unpack _). vm_compute. exact I. Defined.

Lemma split_by_shape_after_body_witness :
  ∃ r1 s1 r2 s2 l2 o2,
    Result.split_by_body env0 r0 s_bound = Ret r1 s1 ∧
    Result.split_by_shape env0 r1 s1 = Ret r2 s2 ∧
    _specific_fc_type r2 = Some "shape" ∧
    _mesh_scoping r2 = POperator l2 ∧
    store s2 !! l2 = Some o2 ∧
    op_inputs o2 !! "label1" = Some (PStr "elshape").
Proof.
  destruct (split_by_shape_after_body env0 r0 s_bound 1%positive
              (mkOperator "stream_provider" ∅
                 [PDataSources (mkDataSources (Some "a.rst"))])
              wf_s_bound eq_refl eq_refl eq_refl)
    as (r1 & s1 & r2 & s2 & l1 & l2 & o1 & o2 & Hb & Hs & _ & _ & _ & _
        & Hfc & Hms & _ & Ho2 & _ & Hlab).
  exists r1, s1, r2, s2, l2, o2. repeat split; assumption.
Defined.

Example split_twice_concrete :
  ∃ r1 s1 r2 s2,
    Result.split_by_body env0 r0 s_bound = Ret r1 s1 ∧
    Result.split_by_shape env0 r1 s1 = Ret r2 s2 ∧
    _mesh_scoping r1 = POperator 3%positive ∧
    _mesh_scoping r2 = POperator 6%positive ∧
    _specific_fc_type r2 = Some "shape" ∧
    (op_inputs <$> store s2 !! 6%positive) ≫= (.!! "label1")
    = Some (PStr "elshape") ∧
    (op_inputs <$> store s2 !! 6%positive) ≫= (.!! "mesh_scoping")
    = Some (POperator 3%positive) ∧
    evaluations s2 = 2%nat.
Proof. do 4 eexists. vm_compute. repeat split; reflexivity. Qed.

(** ** results.py: [eval], for contrast with the call *)

(** Once the call has connected its inputs, [eval] reads the
    [fields_container] output: exactly one remote evaluation, whatever
    the server replies. *)
Lemma eval_evaluates_once (env : Env) (r : Result) (s s1 : Session) :
  Result.__call__ env r PNone PNone s = Ret (_operator r) s1 →
  evaluations (final (Result.eval env r s)) = S (evaluations s).
Proof.
  intros Hcall. pose proof (call_no_eval env r PNone PNone s) as Hno.
  rewrite Hcall in Hno. simpl in Hno.
  unfold Result.eval. rewrite bind_run, Hcall, bind_run.
  unfold evaluate.
  destruct (reply_fields_container env (store s1) (_operator r)); simpl.
  - by rewrite Hno.
  - rewrite <- Hno.
    by destruct (bool_decide (_specific_fc_type r = Some "shape")),
                (bool_decide (_specific_fc_type r = Some "body")).
Qed.

(** * Further properties *)

(** ** Framing: what client actions leave alone *)

Lemma frame_ret {A} (b : loc) (Q : A → Prop) (a : A) :
  Q a → frame b Q (mret a).
Proof.
  intros Ha s Hwf Hb. simpl. repeat split; try done; try lia.
  by intros a' s' [= <- _].
Qed.

Lemma frame_raise {A} (b : loc) (Q : A → Prop) (e : pyexn) :
  frame b Q (raise e).
Proof. intros s Hwf Hb. simpl. repeat split; try done; lia. Qed.

Lemma frame_bind {A B} (b : loc) (Q : A → Prop) (R : B → Prop)
    (c : M A) (k : A → M B) :
  frame b Q c → (∀ a, Q a → frame b R (k a)) → frame b R (c ≫= k).
Proof.
  intros Hc Hk s Hwf Hb. rewrite bind_run.
  destruct (Hc s Hwf Hb) as (Hwf1 & Hf1 & Hfr1 & HQ).
  destruct (c s) as [a s1|e s1]; simpl in *.
  - destruct (Hk a (HQ a s1 eq_refl) s1 Hwf1 ltac:(lia))
      as (Hwf2 & Hf2 & Hfr2 & HR).
    repeat split; try done; try lia.
    intros k0 Hk0. by rewrite Hfr2, Hfr1.
  - repeat split; done.
Qed.

Lemma frame_try {A} (b : loc) (Q : A → Prop) (c : M A) (h : pyexn → M A) :
  frame b Q c → (∀ e, frame b Q (h e)) → frame b Q (try_except c h).
Proof.
  intros Hc Hh s Hwf Hb. unfold try_except.
  destruct (Hc s Hwf Hb) as (Hwf1 & Hf1 & Hfr1 & HQ).
  destruct (c s) as [a s1|e s1]; simpl in *; [done|].
  destruct (Hh e s1 Hwf1 ltac:(lia)) as (Hwf2 & Hf2 & Hfr2 & HR).
  repeat split; try done; try lia.
  intros k0 Hk0. by rewrite Hfr2, Hfr1.
Qed.

Lemma frame_weaken {A} (b : loc) (Q Q' : A → Prop) (c : M A) :
  (∀ a, Q a → Q' a) → frame b Q c → frame b Q' c.
Proof.
  intros HQ Hc s Hwf Hb. destruct (Hc s Hwf Hb) as (? & ? & ? & H).
  repeat split; try done. intros a s' Hrun. eauto.
Qed.

Lemma frame_Operator_new (b : loc) (nm : string) :
  frame b (fun l => (b ≤ l)%positive) (Operator_new nm).
Proof.
  intros s Hwf Hb. unfold Operator_new. simpl. repeat split.
  - wf_inserts Hwf.
  - lia.
  - intros k Hk. by rewrite lookup_insert_ne by lia.
  - intros a s' [= <- _]. lia.
Qed.

Lemma frame_connect (env : Env) (b l : loc) (pin : option string) (v : pyval) :
  (b ≤ l)%positive → frame b (fun _ => True) (connect env l pin v).
Proof.
  intros Hl s Hwf Hb. unfold connect.
  destruct (store s !! l) as [op|] eqn:Hop; simpl; [|repeat split; done || lia].
  destruct (accepts env (op_name op) pin (type_of (store s) v)); simpl;
    [|repeat split; done || lia].
  repeat split; try done; try lia.
  - apply wf_update; [done|]. by eapply stored_below_fresh.
  - intros k Hk. by rewrite lookup_insert_ne by lia.
Qed.

Lemma frame_evaluate {A} (b l : loc)
    (reply : gmap loc Operator → loc → pyexn + A) :
  frame b (fun _ => True) (evaluate reply l).
Proof.
  intros s Hwf Hb. unfold evaluate.
  destruct (reply (store s) l); simpl; repeat split; done || lia.
Qed.

Lemma frame_get_model (b : loc) : frame b (fun _ => True) get_model.
Proof. intros s Hwf Hb. simpl. repeat split; done || lia. Qed.

Lemma frame_assign (b : loc) (f : Metadata → Metadata) :
  frame b (fun _ => True) (Metadata.assign f).
Proof. intros s Hwf Hb. simpl. repeat split; done || lia. Qed.

Lemma frame_stream_provider_outputs (b : loc) :
  frame b (fun _ => True) Metadata.stream_provider_outputs.
Proof.
  intros s Hwf Hb. unfold Metadata.stream_provider_outputs.
  rewrite bind_run. simpl.
  destruct (_stream_provider (model s)); simpl; repeat split; done || lia.
Qed.

Ltac frame_step :=
  first
    [ apply frame_stream_provider_outputs
    | apply frame_get_model
    | apply frame_assign
    | apply frame_evaluate
    | apply frame_raise
    | apply frame_ret ].

Lemma frame_mesh_provider (env : Env) (b : loc) :
  frame b (fun l => (b ≤ l)%positive) (Metadata.mesh_provider env).
Proof.
  unfold Metadata.mesh_provider, Metadata.run.
  eapply frame_bind.
  - apply frame_try with (Q := fun _ : unit => True).
    + eapply frame_bind; [apply frame_Operator_new|]. intros tmp Htmp.
      eapply frame_bind; [apply frame_stream_provider_outputs|]. intros outs _.
      eapply frame_bind; [by apply frame_connect|]. intros _ _.
      apply frame_evaluate.
    + intros e. by apply frame_ret.
  - intros _ _.
    eapply frame_bind; [apply frame_Operator_new|]. intros mp Hmp.
    eapply frame_bind; [apply frame_stream_provider_outputs|]. intros outs _.
    eapply frame_bind; [by apply frame_connect|]. intros _ _.
    by apply frame_ret.
Qed.

Lemma frame_time_freq_support (env : Env) (b : loc) :
  frame b (fun _ => True) (Metadata.time_freq_support env).
Proof.
  unfold Metadata.time_freq_support.
  eapply frame_bind; [apply frame_get_model|]. intros self _.
  destruct (_time_freq_support self); [by apply frame_ret|].
  eapply frame_bind; [apply frame_Operator_new|]. intros tp Htp.
  eapply frame_bind; [apply frame_stream_provider_outputs|]. intros outs _.
  eapply frame_bind; [by apply frame_connect|]. intros _ _.
  eapply frame_bind; [apply frame_evaluate|]. intros tfs _.
  eapply frame_bind; [apply frame_assign|]. intros _ _.
  by apply frame_ret.
Qed.

Lemma frame_meshed_region (env : Env) (remote : Remote) (b : loc) :
  frame b (fun _ => True) (Metadata_mesh.meshed_region env remote).
Proof.
  unfold Metadata_mesh.meshed_region.
  eapply frame_bind; [apply frame_get_model|]. intros self _.
  destruct (_meshed_region self); [by apply frame_ret|].
  eapply frame_bind; [apply frame_mesh_provider|]. intros mp Hmp.
  eapply frame_bind; [apply frame_evaluate|]. intros mesh _.
  eapply frame_bind; [apply frame_assign|]. intros _ _.
  by apply frame_ret.
Qed.

Lemma frame_named_selection (env : Env) (remote : Remote) (b : loc)
    (nm : string) :
  frame b (fun _ => True) (Metadata_mesh.named_selection env remote nm).
Proof.
  unfold Metadata_mesh.named_selection.
  eapply frame_bind; [apply frame_meshed_region|]. intros mesh _.
  destruct (reply_named_selection remote mesh nm); frame_step. done.
Qed.

Lemma frame_len_time_frequencies (b : loc) (tfs : TimeFreqSupport) :
  frame b (fun _ => True) (Result.len_time_frequencies tfs).
Proof.
  unfold Result.len_time_frequencies.
  destruct (time_frequencies tfs); frame_step. done.
Qed.

Lemma frame_add_split (env : Env) (b : loc) (r : Result) (prop : string) :
  frame b (fun r' => _operator r' = _operator r
                     ∧ _result_info r' = _result_info r)
    (Result._add_split_on_property_type env r prop).
Proof.
  unfold Result._add_split_on_property_type.
  rewrite split_operator_new.
  eapply frame_bind; [apply frame_Operator_new|]. intros split Hsplit.
  eapply frame_bind; [by apply frame_connect|]. intros _ _.
  eapply frame_bind; [apply frame_mesh_provider|]. intros mesh Hmesh.
  eapply frame_bind; [by apply frame_connect|]. intros _ _.
  eapply frame_bind; [by apply frame_connect|]. intros _ _.
  eapply frame_bind with (Q := fun _ : unit => True).
  - destruct (truthy (_mesh_scoping r)); [|by apply frame_ret].
    apply frame_try; [by apply frame_connect|]. intros e. by apply frame_ret.
  - intros _ _. by apply frame_ret.
Qed.

Lemma frame_select (env : Env) (remote : Remote) (b : loc) (sel : selector)
    (r : Result) :
  frame b (fun r' => _operator r' = _operator r
                     ∧ _result_info r' = _result_info r)
    (select env remote sel r).
Proof.
  destruct sel; simpl.
  - unfold Result.on_all_time_freqs.
    eapply frame_bind; [apply frame_time_freq_support|]. intros tfs _.
    eapply frame_bind; [apply frame_len_time_frequencies|]. intros n _.
    by apply frame_ret.
  - by apply frame_ret.
  - unfold Result.on_last_time_freq.
    eapply frame_bind; [apply frame_time_freq_support|]. intros tfs _.
    eapply frame_bind; [apply frame_len_time_frequencies|]. intros n _.
    by apply frame_ret.
  - by apply frame_ret.
  - unfold Result_init.on_named_selection.
    eapply frame_bind; [apply frame_named_selection|]. intros sc _.
    by apply frame_ret.
  - eapply frame_weaken; [|apply frame_add_split]. by intros r' [? ?].
  - eapply frame_weaken; [|apply frame_add_split]. by intros r' [? ?].
  - unfold Result.on_mesh_scoping. by apply frame_ret.
  - by apply frame_ret.
Qed.

Lemma frame_chain (env : Env) (remote : Remote) (b : loc)
    (sels : list selector) (r : Result) :
  frame b (fun r' => _operator r' = _operator r
                     ∧ _result_info r' = _result_info r)
    (chain env remote sels r).
Proof.
  revert r. induction sels as [|sel rest IH]; intros r; simpl.
  - by apply frame_ret.
  - eapply frame_bind; [apply frame_select|]. intros r' [Hop Hri].
    eapply frame_weaken; [|apply IH].
    intros r'' [Hop' Hri']. split; congruence.
Qed.

(** No chain of selectors, whether it returns or raises, changes an
    operator that existed before it, in particular not the operator of
    the result itself; and the result it returns is bound to the same
    operator and the same result type. *)
Theorem selectors_leave_operators (env : Env) (remote : Remote)
    (sels : list selector) (r : Result) (s : Session) :
  wf_session s →
  wf_session (final (chain env remote sels r s)) ∧
  (∀ l op, store s !! l = Some op →
           store (final (chain env remote sels r s)) !! l = Some op) ∧
  (∀ r' s', chain env remote sels r s = Ret r' s' →
            _operator r' = _operator r ∧ _result_info r' = _result_info r).
Proof.
  intros Hwf.
  destruct (frame_chain env remote (fresh s) sels r s Hwf ltac:(lia))
    as (Hwf' & _ & Hframe & Hret).
  split; [done|]. split; [|done].
  intros l op Hl. rewrite Hframe; [done|]. by eapply stored_below_fresh.
Qed.

Lemma selectors_leave_operators_witness :
  store (final (chain env0 remote0
                  [OnLastTimeFreq; SplitByBody; OnNamedSelection "FIX";
                   OnLocation (PStr "Nodal")] r0 s_bound)) !! 2%positive
  = Some (mkOperator "U" ∅ []).
Proof.
  destruct (selectors_leave_operators env0 remote0
              [OnLastTimeFreq; SplitByBody; OnNamedSelection "FIX";
               OnLocation (PStr "Nodal")] r0 s_bound wf_s_bound)
    as (_ & Hkeep & _).
  apply Hkeep. reflexivity.
Defined.

Example chain_concrete :
  ∃ s',
    chain env0 remote0
      [OnLastTimeFreq; SplitByBody; OnNamedSelection "FIX";
       OnLocation (PStr "Nodal")] r0 s_bound
    = Ret {| _time_scoping := PInt 3;
             _mesh_scoping := PScoping (mkScoping [4; 5; 6] "Nodal");
             _location := PStr "Nodal";
             _result_info := mkAvailableResult "displacement" "U" "Nodal";
             _specific_fc_type := Some "body";
             _operator := 2%positive |} s'.
Proof. eexists. vm_compute. reflexivity. Qed.

(** ** results.py: [eval] *)

Lemma operator_eq (o1 o2 : Operator) :
  op_name o1 = op_name o2 → op_inputs o1 = op_inputs o2 →
  op_typed o1 = op_typed o2 → o1 = o2.
Proof. destruct o1, o2; simpl; congruence. Qed.

Lemma plug_if_typed (pin : string) (v : pyval) (op : Operator) :
  op_typed (plug_if pin v op) = op_typed op.
Proof. unfold plug_if. by destruct (truthy v). Qed.

Lemma called_name (r : Result) (op : Operator) :
  op_name (called r op) = op_name op.
Proof. unfold called. by rewrite !plug_if_name. Qed.

(** Connecting the same values a second time changes nothing. *)
Lemma called_idempotent (r : Result) (op : Operator) :
  called r (called r op) = called r op.
Proof.
  apply operator_eq.
  - by rewrite !called_name.
  - apply map_eq. intros q. unfold called. rewrite !plug_if_lookup.
    destruct (truthy (_location r)), (truthy (_mesh_scoping r)),
      (truthy (_time_scoping r)); simpl; repeat case_bool_decide; done.
  - unfold called. by rewrite !plug_if_typed.
Qed.

Lemma call_plain_run (env : Env) (r : Result) (s : Session) (op : Operator) :
  store s !! _operator r = Some op →
  call_accepted env (store s) r op = true →
  Result.__call__ env r PNone PNone s
  = Ret (_operator r) (with_store (<[_operator r := called r op]> (store s)) s).
Proof.
  intros Hop Hacc. unfold call_accepted in Hacc.
  rewrite !andb_true_iff in Hacc. destruct Hacc as [[Ht Hm] Hl].
  destruct (call_run env r PNone PNone s op Hop) as [_ Hrun].
  by destruct (Hrun Ht Hm Hl) as [Hcall _].
Qed.

Lemma call_accepted_after (env : Env) (r : Result) (st : gmap loc Operator)
    (op : Operator) :
  st !! _operator r = Some op →
  call_accepted env (<[_operator r := called r op]> st) r (called r op)
  = call_accepted env st r op.
Proof.
  intros Hop. unfold call_accepted. rewrite called_name.
  by rewrite !(accepted_insert_same_name env st _ op (called r op) _ _ _ Hop
                 (called_name r op)).
Qed.

(** [eval] connects the stored selections, reads the fields container
    (one remote evaluation) and wraps it by [_specific_fc_type]; nothing
    is cached: a second [eval] of the unmodified result evaluates again,
    on the same operator graph, and wraps the reply the same way. *)
Theorem eval_twice (env : Env) (r : Result) (s : Session) (op : Operator)
    (fc : nat) :
  store s !! _operator r = Some op →
  call_accepted env (store s) r op = true →
  reply_fields_container env (<[_operator r := called r op]> (store s))
    (_operator r) = inr fc →
  ∃ s1 s2,
    Result.eval env r s = Ret (container_for (_specific_fc_type r) fc) s1 ∧
    evaluations s1 = S (evaluations s) ∧
    store s1 = <[_operator r := called r op]> (store s) ∧
    Result.eval env r s1 = Ret (container_for (_specific_fc_type r) fc) s2 ∧
    evaluations s2 = S (S (evaluations s)) ∧
    store s2 = store s1.
Proof.
  intros Hop Hacc Hreply.
  assert (Hwrap : ∀ s',
    ((if bool_decide (_specific_fc_type r = Some "shape")
      then mret (ElShapeFieldsContainer fc)
      else if bool_decide (_specific_fc_type r = Some "body")
      then mret (BodyFieldsContainer fc)
      else mret (FieldsContainer fc)) : M container) s'
    = Ret (container_for (_specific_fc_type r) fc) s').
  { intros s'. unfold container_for.
    repeat case_bool_decide as H; try (rewrite H; reflexivity).
    destruct (_specific_fc_type r) as [t|]; [|done].
    destruct (decide (t = "shape")) as [->|]; [done|].
    destruct (decide (t = "body")) as [->|]; [done|].
    repeat (destruct t as [|[[] [] [] [] [] [] [] []] t]; try done). }
  assert (Heval : ∀ s0, store s0 !! _operator r = Some op ∨
                        store s0 !! _operator r = Some (called r op) →
      call_accepted env (store s0) r op = true →
      <[_operator r := called r op]> (store s0)
      = <[_operator r := called r op]> (store s) →
      ∃ s', Result.eval env r s0
            = Ret (container_for (_specific_fc_type r) fc) s' ∧
            evaluations s' = S (evaluations s0) ∧
            store s' = <[_operator r := called r op]> (store s)).
  { intros s0 Hop0 Hacc0 Hst. unfold Result.eval. rewrite bind_run.
    destruct Hop0 as [Hop0|Hop0].
    - rewrite (call_plain_run env r s0 op Hop0 Hacc0). rewrite bind_run.
      unfold evaluate. simpl. rewrite Hst, Hreply. rewrite Hwrap.
      eexists. split; [reflexivity|]. by split.
    - assert (Hacc1 : call_accepted env (store s0) r (called r op) = true).
      { unfold call_accepted in *. by rewrite called_name. }
      rewrite (call_plain_run env r s0 (called r op) Hop0 Hacc1).
      rewrite bind_run. unfold evaluate. simpl.
      rewrite called_idempotent, Hst, Hreply, Hwrap.
      eexists. split; [reflexivity|]. by split. }
  destruct (Heval s (or_introl Hop) Hacc eq_refl) as (s1 & Hrun1 & Hev1 & Hst1).
  destruct (Heval s1) as (s2 & Hrun2 & Hev2 & Hst2).
  - right. rewrite Hst1. apply lookup_insert_eq.
  - rewrite Hst1. unfold call_accepted in *.
    by rewrite !(accepted_insert_same_name env _ _ op (called r op) _ _ _ Hop
                   (called_name r op)).
  - rewrite Hst1. by rewrite insert_insert_eq.
  - exists s1, s2. repeat split; try done.
    + by rewrite Hev2, Hev1.
    + by rewrite Hst2, Hst1.
Qed.

Lemma eval_twice_witness :
  ∃ s1 s2,
    Result.eval env0 (Result.set_specific_fc_type (Some "shape") r0) s_bound
    = Ret (ElShapeFieldsContainer 0) s1 ∧
    Result.eval env0 (Result.set_specific_fc_type (Some "shape") r0) s1
    = Ret (ElShapeFieldsContainer 0) s2 ∧
    evaluations s2 = 2%nat.
Proof.
  destruct (eval_twice env0 (Result.set_specific_fc_type (Some "shape") r0)
              s_bound (mkOperator "U" ∅ []) 0%nat eq_refl eq_refl eq_refl)
    as (s1 & s2 & H1 & _ & _ & H2 & Hev & _).
  exists s1, s2. repeat split; assumption.
Defined.

(** ** results.py: the time selectors and the call *)

Lemma on_last_time_freq_run (env : Env) (r : Result) (s s' : Session)
    (tfs : TimeFreqSupport) (samples : list Z) :
  Metadata.time_freq_support env s = Ret tfs s' →
  time_frequencies tfs = Some samples →
  Result.on_last_time_freq env r s
  = Ret (Result.set_time_scoping (PInt (Z.of_nat (length samples))) r) s'.
Proof.
  intros Htfs Hsamples.
  unfold Result.on_last_time_freq, Result.len_time_frequencies.
  by rewrite bind_run, Htfs, Hsamples.
Qed.

Lemma length_one_to (n : nat) : length (one_to n) = n.
Proof. unfold one_to. by rewrite length_map, length_seq. Qed.

(** [on_all_time_freqs] followed by a call connects the time scoping
    [1, ..., n_sets], and [on_last_time_freq] followed by a call connects
    [n_sets]; but on a time/frequency support without any set both leave
    the time scoping pin as it was, because the empty list and [0] are
    falsy. *)
Theorem time_selectors_then_call (env : Env) (r : Result) (s s1 : Session)
    (tfs : TimeFreqSupport) (samples : list Z) (op : Operator) :
  Metadata.time_freq_support env s = Ret tfs s1 →
  time_frequencies tfs = Some samples →
  store s1 !! _operator r = Some op →
  let n := length samples in
  accepted env (store s1) (op_name op) "time_scoping" (PList (one_to n)) = true →
  accepted env (store s1) (op_name op) "time_scoping" (PInt (Z.of_nat n)) = true →
  accepted env (store s1) (op_name op) "mesh_scoping" (_mesh_scoping r) = true →
  accepted env (store s1) (op_name op) "requested_location" (_location r) = true →
  ∃ s2 s3 op2 op3,
    (r' ← Result.on_all_time_freqs env r; Result.__call__ env r' PNone PNone) s
    = Ret (_operator r) s2 ∧
    store s2 !! _operator r = Some op2 ∧
    op_inputs op2 !! "time_scoping"
    = (if Nat.eqb n 0 then op_inputs op !! "time_scoping"
       else Some (PList (one_to n))) ∧
    (r' ← Result.on_last_time_freq env r; Result.__call__ env r' PNone PNone) s
    = Ret (_operator r) s3 ∧
    store s3 !! _operator r = Some op3 ∧
    op_inputs op3 !! "time_scoping"
    = (if Nat.eqb n 0 then op_inputs op !! "time_scoping"
       else Some (PInt (Z.of_nat n))).
Proof.
  intros Htfs Hsamples Hop n Hall Hlast Hm Hl.
  pose proof (on_all_time_freqs_run env r s s1 tfs samples Htfs Hsamples) as Ha.
  pose proof (on_last_time_freq_run env r s s1 tfs samples Htfs Hsamples) as Hb.
  fold n in Ha, Hb.
  destruct (call_run env (Result.set_time_scoping (PList (one_to n)) r)
              PNone PNone s1 op Hop) as [_ Hrun2].
  destruct (Hrun2 Hall Hm Hl) as (Hcall2 & Hts2 & _).
  destruct (call_run env (Result.set_time_scoping (PInt (Z.of_nat n)) r)
              PNone PNone s1 op Hop) as [_ Hrun3].
  destruct (Hrun3 Hlast Hm Hl) as (Hcall3 & Hts3 & _).
  do 4 eexists.
  split; [rewrite bind_run, Ha; exact Hcall2|].
  split; [apply lookup_insert_eq|].
  split.
  { rewrite Hts2. simpl. rewrite length_one_to.
    by destruct (Nat.eqb n 0). }
  split; [rewrite bind_run, Hb; exact Hcall3|].
  split; [apply lookup_insert_eq|].
  rewrite Hts3. simpl.
  destruct n as [|n']; [done|].
  replace (Z.eqb (Z.of_nat (S n')) 0) with false; [done|].
  symmetry. apply Z.eqb_neq. lia.
Qed.

Lemma time_selectors_then_call_witness :
  ∃ s2 op2,
    (r' ← Result.on_all_time_freqs env0 r0; Result.__call__ env0 r' PNone PNone)
      s_bound = Ret 2%positive s2 ∧
    store s2 !! 2%positive = Some op2 ∧
    op_inputs op2 !! "time_scoping" = Some (PList [1; 2; 3]).
Proof.
  destruct (time_selectors_then_call env0 r0 s_bound
              (final (Metadata.time_freq_support env0 s_bound))
              (mkTimeFreqSupport (Some [0; 10; 20])) [0; 10; 20]
              (mkOperator "U" ∅ []))
    as (s2 & s3 & op2 & op3 & Hrun & Hop2 & Hts & _);
    try reflexivity.
  exists s2, op2. repeat split; assumption.
Defined.

(** ** model.py: the cached properties of [Metadata] *)

(** The [time_freq_support] property is computed at most once: an
    access that returns leaves the value in the cache, so that the next
    access returns the same value without touching the session; an
    access costs at most one remote evaluation, and one that raises
    caches nothing. *)
Theorem time_freq_support_cache (env : Env) (s s1 : Session) :
  (∀ tfs,
     Metadata.time_freq_support env s = Ret tfs s1 →
     _time_freq_support (model s1) = Some tfs ∧
     Metadata.time_freq_support env s1 = Ret tfs s1 ∧
     (evaluations s1 ≤ S (evaluations s))%nat) ∧
  (∀ e,
     Metadata.time_freq_support env s = Raise e s1 →
     _time_freq_support (model s) = None ∧
     _time_freq_support (model s1) = None).
Proof.
  unfold Metadata.time_freq_support, Metadata.stream_provider_outputs,
    Operator_new, connect, evaluate.
  split.
  - intros tfs. rewrite bind_run. unfold get_model at 1.
    destruct (_time_freq_support (model s)) as [cached|] eqn:Hc.
    + intros [= <- <-]. split; [done|]. split; [|lia].
      rewrite bind_run. unfold get_model. by rewrite Hc.
    + run_monad.
      destruct (_stream_provider (model s)); simpl; [|done].
      rewrite lookup_insert_eq. simpl.
      destruct (accepts env "TimeFreqSupportProvider" None _); simpl; [|done].
      destruct (reply_time_freq_support env _ _); simpl; [done|].
      intros [= <- <-]. simpl. repeat split; try done.
  - intros e. rewrite bind_run. unfold get_model at 1.
    destruct (_time_freq_support (model s)) as [cached|] eqn:Hc; [done|].
    run_monad.
    destruct (_stream_provider (model s)); simpl;
      [|intros [= <- <-]; simpl; auto].
    rewrite lookup_insert_eq. simpl.
    destruct (accepts env "TimeFreqSupportProvider" None _); simpl;
      [|intros [= <- <-]; simpl; auto].
    destruct (reply_time_freq_support env _ _); simpl; [|done].
    intros [= <- <-]. simpl. auto.
Qed.

Lemma time_freq_support_cache_witness :
  let s1 := final (Metadata.time_freq_support env0 s_bound) in
  Metadata.time_freq_support env0 s1
  = Ret (mkTimeFreqSupport (Some [0; 10; 20])) s1 ∧
  evaluations s1 = 1%nat.
Proof.
  destruct (time_freq_support_cache env0 s_bound
              (final (Metadata.time_freq_support env0 s_bound))) as [Hret _].
  destruct (Hret (mkTimeFreqSupport (Some [0; 10; 20])))
    as (_ & Hagain & _); [vm_compute; reflexivity|].
  split; [exact Hagain | reflexivity].
Defined.




(** ** model.py: the mesh provider *)

Lemma fresh_unused (s : Session) (l : loc) :
  wf_session s → (fresh s ≤ l)%positive → store s !! l = None.
Proof.
  intros Hwf Hl. destruct (store s !! l) as [o|] eqn:Ho; [|done].
  pose proof (stored_below_fresh s l o Hwf Ho). lia.
Qed.

Lemma mesh_provider_evaluations (env : Env) (s : Session) (sp : loc)
    (spo : Operator) :
  wf_session s →
  _stream_provider (model s) = Some sp →
  store s !! sp = Some spo →
  accepts env "MeshProvider" None (TOutputs (op_name spo)) = true →
  evaluations (final (Metadata.mesh_provider env s))
  = (evaluations s
     + (if accepts env "MeshSelectionManagerProvider" None
             (TOutputs (op_name spo)) then 1 else 0))%nat.
Proof.
  intros Hwf Hsp Hspo Hacc.
  pose proof (stored_below_fresh s sp spo Hwf Hspo) as Hlt.
  unfold Metadata.mesh_provider, Metadata.run, Metadata.stream_provider_outputs,
    Operator_new, connect, evaluate.
  run_monad. rewrite Hsp. simpl.
  rewrite lookup_insert_eq. simpl.
  rewrite lookup_insert_ne by lia. rewrite Hspo. simpl.
  destruct (accepts env "MeshSelectionManagerProvider" None _); simpl;
    [destruct (reply_run env _ _); simpl|];
    rewrite Hsp; simpl; rewrite lookup_insert_eq; simpl;
    rewrite !lookup_insert_ne by lia; rewrite Hspo; simpl; rewrite Hacc; simpl;
    lia.
Qed.

(** The [mesh_provider] property is not cached and hides the failure of
    its first block: every access returns a new "MeshProvider" operator,
    whether or not the "MeshSelectionManagerProvider" run fails, and that
    run costs one remote evaluation per access whenever its connection
    is accepted.  Without a stream provider the property raises. *)
Theorem mesh_provider_fresh_each_time (env : Env) (s : Session) :
  (_stream_provider (model s) = None →
   ∃ s', Metadata.mesh_provider env s = Raise (AttributeError "outputs") s') ∧
  (∀ sp spo,
     wf_session s →
     _stream_provider (model s) = Some sp →
     store s !! sp = Some spo →
     accepts env "MeshProvider" None (TOutputs (op_name spo)) = true →
     ∃ l1 s1 l2 s2 o1 o2,
       Metadata.mesh_provider env s = Ret l1 s1 ∧
       Metadata.mesh_provider env s1 = Ret l2 s2 ∧
       l1 ≠ l2 ∧
       store s !! l1 = None ∧ store s1 !! l1 = Some o1 ∧
       store s1 !! l2 = None ∧ store s2 !! l2 = Some o2 ∧
       op_name o1 = "MeshProvider" ∧ op_name o2 = "MeshProvider" ∧
       evaluations s2
       = (evaluations s
          + (if accepts env "MeshSelectionManagerProvider" None
                  (TOutputs (op_name spo)) then 2 else 0))%nat).
Proof.
  split.
  - intros Hsp.
    unfold Metadata.mesh_provider, Metadata.run,
      Metadata.stream_provider_outputs, Operator_new.
    run_monad. rewrite Hsp. simpl. rewrite Hsp. simpl. by eexists.
  - intros sp spo Hwf Hsp Hspo Hacc.
    destruct (mesh_provider_run env s sp spo Hwf Hsp Hspo Hacc)
      as (l1 & s1 & o1 & Hrun1 & (Hwf1 & Hm1 & Hf1 & Hfr1) & Hl1 & Ho1 & Hn1).
    pose proof (stored_below_fresh s sp spo Hwf Hspo) as Hlt.
    assert (Hsp1 : _stream_provider (model s1) = Some sp) by by rewrite Hm1.
    assert (Hspo1 : store s1 !! sp = Some spo) by by rewrite Hfr1.
    destruct (mesh_provider_run env s1 sp spo Hwf1 Hsp1 Hspo1 Hacc)
      as (l2 & s2 & o2 & Hrun2 & _ & Hl2 & Ho2 & Hn2).
    pose proof (stored_below_fresh s1 l1 o1 Hwf1 Ho1) as Hlt1.
    pose proof (mesh_provider_evaluations env s sp spo Hwf Hsp Hspo Hacc) as He1.
    pose proof (mesh_provider_evaluations env s1 sp spo Hwf1 Hsp1 Hspo1 Hacc)
      as He2.
    rewrite Hrun1 in He1. rewrite Hrun2 in He2. simpl in He1, He2.
    exists l1, s1, l2, s2, o1, o2.
    split; [done|]. split; [done|]. split; [lia|].
    split; [by apply fresh_unused|]. split; [done|].
    split; [by apply fresh_unused|]. split; [done|].
    split; [done|]. split; [done|].
    rewrite He2, He1.
    destruct (accepts env "MeshSelectionManagerProvider" None _); lia.
Qed.

Lemma mesh_provider_fresh_each_time_witness :
  ∃ l1 s1 l2 s2,
    Metadata.mesh_provider env0 s_bound = Ret l1 s1 ∧
    Metadata.mesh_provider env0 s1 = Ret l2 s2 ∧
    l1 ≠ l2 ∧ evaluations s2 = 2%nat.
Proof.
  destruct (mesh_provider_fresh_each_time env0 s_bound) as [_ H].
  destruct (H 1%positive
              (mkOperator "stream_provider" ∅
                 [PDataSources (mkDataSources (Some "a.rst"))])
              wf_s_bound eq_refl eq_refl eq_refl)
    as (l1 & s1 & l2 & s2 & o1 & o2 & H1 & H2 & Hne & _ & _ & _ & _ & _ & _ & He).
  exists l1, s1, l2, s2. repeat split; assumption.
Defined.




(** ** results.py: how the selectors compose *)

Lemma returns_ret {A} (Q : A → Prop) (a : A) : Q a → returns Q (mret a).
Proof. by intros Ha s a' s' [= <- _]. Qed.

Lemma returns_bind {A B} (R : B → Prop) (c : M A) (k : A → M B) :
  (∀ a, returns R (k a)) → returns R (c ≫= k).
Proof.
  intros Hk s b s'. rewrite bind_run.
  destruct (c s) as [a s1|e s1]; [apply Hk | done].
Qed.






(** ** fields_factory: more on the factories *)

(** [create_vector_field(n, c)] reserves three data entries per entity
    whatever the number of components [c] asked for; [c] only goes into
    the dimensionality, which is absent when [c] is zero. *)
Theorem create_vector_field_request (env : Env) (n c : Z) (location : string)
    (s : Session) :
  create_requests (final (create_vector_field env n c location s))
  = (create_requests s
     ++ [mkFieldRequest "VECTOR" location n
           (if (c =? 0)%Z then None
            else Some (mkDimensionality [c] (NatureEnum vector)))
           (n * 3)])%list.
Proof.
  unfold create_vector_field, _create_field. simpl.
  rewrite stub_Create_requests. by destruct (c =? 0)%Z.
Qed.

Example create_vector_field_five_components :
  create_requests (final (create_vector_field env0 3 5 "Nodal" s0))
  = [mkFieldRequest "VECTOR" "Nodal" 3
       (Some (mkDimensionality [5] (NatureEnum vector))) 9].
Proof. reflexivity. Qed.

(** The field built from a valid array whose element count matches its
    shape is consistent: its data has one dimension less than two or
    the shape of the array, and holds entity count times component count
    of the nature elements; building it allocates exactly one field and
    sends nothing to the server. *)
Theorem field_from_array_consistent (arr : ndarray) (s : Session) :
  issubdtype_number (arr_dtype arr) = true →
  ndim arr = 1%nat ∨ (ndim arr = 2%nat ∧ shape_at arr 1 ∈ [1; 3; 6]%nat) →
  length (flat arr) = size arr →
  ∃ f s' d,
    field_from_array arr s = Ret f s' ∧
    data f = Some d ∧
    length (flat d) = (nentities f * components (field_nature f))%nat ∧
    length (flat d) = size d ∧
    length (scoping_ids f) = nentities f ∧
    fields_allocated s' = S (fields_allocated s) ∧
    create_requests s' = create_requests s ∧
    evaluations s' = evaluations s ∧
    store s' = store s.
Proof.
  intros Hnum Hshape Hlen.
  unfold field_from_array. rewrite Hnum. simpl negb. cbv iota.
  destruct Hshape as [H1 | [H2 Hc]].
  - rewrite H1. simpl.
    do 3 eexists. split; [reflexivity|]. simpl.
    split; [reflexivity|]. rewrite arange_one_to, length_one_to.
    repeat split; try done.
    rewrite Hlen. unfold size, shape_at.
    unfold ndim in H1. destruct (shape arr) as [|n [|c r]]; simpl in *; lia.
  - rewrite H2. simpl Nat.eqb. cbv iota.
    assert (Hsz : size arr = (shape_at arr 0 * shape_at arr 1)%nat).
    { unfold size. rewrite (shape_of_rank2 arr H2) at 1. simpl. lia. }
    rewrite !elem_of_cons in Hc.
    destruct Hc as [Hc | [Hc | [Hc | Hc]]]; [| | |by apply elem_of_nil in Hc];
      rewrite Hc in *; simpl;
      do 3 eexists; (split; [reflexivity|]); simpl;
      (split; [reflexivity|]); rewrite arange_one_to, length_one_to;
      repeat split; try done; simpl.
    all: rewrite Hlen; try lia.
    + unfold ravel, shape_at at 1. simpl. lia.
    + unfold ravel, size at 2. simpl. lia.
Qed.

Lemma field_from_array_consistent_witness :
  ∃ f s' d,
    field_from_array (mkArray float64 [2; 3]%nat [1; 2; 3; 4; 5; 6]) s0
    = Ret f s' ∧
    data f = Some d ∧
    length (flat d) = (nentities f * 3)%nat ∧
    fields_allocated s' = 1%nat.
Proof.
  destruct (field_from_array_consistent
              (mkArray float64 [2; 3]%nat [1; 2; 3; 4; 5; 6]) s0)
    as (f & s' & d & Hrun & Hd & Hlen & _ & _ & Halloc & _).
  - reflexivity.
  - right. split; [reflexivity|]. apply elem_of_cons. right.
    apply elem_of_cons. by left.
  - reflexivity.
  - exists f, s', d. split; [exact Hrun|]. split; [exact Hd|].
    split; [|exact Halloc].
    rewrite Hlen. f_equal.
    assert (Hf : f = mkField vector 2 (Some (mkArray float64 [2; 3]%nat
                                               [1; 2; 3; 4; 5; 6])) [1; 2])
      by (vm_compute in Hrun; congruence).
    by rewrite Hf.
Defined.

(** A rank-2 array with a single column and the same array flattened
    give the same outcome, field and session. *)
Theorem field_from_array_one_column (arr : ndarray) (s : Session) :
  ndim arr = 2%nat → shape_at arr 1 = 1%nat →
  field_from_array arr s = field_from_array (ravel arr) s.
Proof.
  intros H2 Hc. unfold field_from_array.
  replace (arr_dtype (ravel arr)) with (arr_dtype arr) by reflexivity.
  destruct (issubdtype_number (arr_dtype arr)); simpl negb; cbv iota; [|done].
  rewrite H2, Hc. reflexivity.
Qed.

Lemma field_from_array_one_column_witness :
  field_from_array (mkArray int64 [3; 1]%nat [7; 8; 9]) s0
  = field_from_array (mkArray int64 [3]%nat [7; 8; 9]) s0.
Proof.
  apply (field_from_array_one_column (mkArray int64 [3; 1]%nat [7; 8; 9]) s0);
    reflexivity.
Defined.

(** ** model.py and results.py: operators bound to the model *)

Lemma Operator_checked_run (remote : Remote) (nm : string) (s : Session) :
  Operator_checked remote nm s
  = if known remote nm then Ret (fresh s) (created (mkOperator nm ∅ []) s)
    else Raise (DPFServerException nm) s.
Proof. unfold Operator_checked. by destruct (known remote nm). Qed.

(** [__connect_op__] makes at most the connection [model_input] names. *)
Lemma connect_op_run (env : Env) (remote : Remote) (l : loc) (o : Operator)
    (s : Session) (d : DataSources) :
  store s !! l = Some o →
  _data_sources (model s) = Some d →
  Model.__connect_op__ env remote l s
  = match model_input remote (model s) (op_name o) with
    | Some (pin, v) => connect env l (Some pin) v s
    | None => Ret tt s
    end.
Proof.
  intros Hl Hd.
  unfold Model.__connect_op__, model_input, op_name_at,
    Metadata.stream_provider_outputs, Metadata.read_data_sources.
  run_monad. rewrite Hl, Hd. simpl.
  destruct (_stream_provider (model s)) as [sp|] eqn:Hsp; simpl;
    destruct (has_pin remote (op_name o) "streams"); simpl;
    rewrite ?Hsp, ?Hd; simpl;
    by destruct (has_pin remote (op_name o) "data_sources").
Qed.

(** A new operator, then the model's input. *)
Lemma new_operator_connected (env : Env) (remote : Remote) (nm : string)
    (s : Session) (d : DataSources) :
  _data_sources (model s) = Some d →
  Model.__connect_op__ env remote (fresh s) (created (mkOperator nm ∅ []) s)
  = match model_input remote (model s) nm with
    | Some (pin, v) =>
        if accepts env nm (Some pin)
             (type_of (store (created (mkOperator nm ∅ []) s)) v)
        then Ret tt (created (mkOperator nm (fed (Some (pin, v))) []) s)
        else Raise (TypeError pin) (created (mkOperator nm ∅ []) s)
    | None => Ret tt (created (mkOperator nm ∅ []) s)
    end.
Proof.
  intros Hd.
  rewrite (connect_op_run env remote (fresh s) (mkOperator nm ∅ []) _ d);
    [|by simpl; rewrite lookup_insert_eq|done].
  simpl. destruct (model_input remote (model s) nm) as [[pin v]|]; [|done].
  unfold connect. simpl. rewrite lookup_insert_eq. simpl.
  destruct (accepts env nm (Some pin) _); [|done].
  unfold with_store, created, plug. simpl. by rewrite insert_insert_eq.
Qed.

(** [Model.operator(name)] builds one operator and feeds it from the
    model through at most one pin: the outputs of the stream provider
    when the operator has a [streams] pin, the data sources only
    otherwise, even when the operator has both pins.  Nothing is
    evaluated and nothing else changes.  A name the server does not know
    raises before anything is built; a pin that rejects the input raises
    a type error and leaves the new operator unconnected. *)
Theorem model_operator_one_source (env : Env) (remote : Remote) (nm : string)
    (s : Session) (d : DataSources) :
  _data_sources (model s) = Some d →
  let unconnected := created (mkOperator nm ∅ []) s in
  let input := model_input remote (model s) nm in
  (known remote nm = false →
   Model.operator env remote nm s = Raise (DPFServerException nm) s) ∧
  (known remote nm = true →
   (∀ pin v, input = Some (pin, v) →
      accepts env nm (Some pin) (type_of (store unconnected) v) = true) →
   Model.operator env remote nm s
   = Ret (fresh s) (created (mkOperator nm (fed input) []) s)) ∧
  (known remote nm = true →
   ∀ pin v, input = Some (pin, v) →
     accepts env nm (Some pin) (type_of (store unconnected) v) = false →
     Model.operator env remote nm s = Raise (TypeError pin) unconnected) ∧
  (∀ sp, _stream_provider (model s) = Some sp →
     has_pin remote nm "streams" = true →
     fed input = {[ "streams" := POutputs sp ]}) ∧
  evaluations (final (Model.operator env remote nm s)) = evaluations s ∧
  model (final (Model.operator env remote nm s)) = model s ∧
  (∀ k, k ≠ fresh s →
     store (final (Model.operator env remote nm s)) !! k = store s !! k).
Proof.
  intros Hd unconnected input.
  assert (Hrun : Model.operator env remote nm s
    = if known remote nm then
        match input with
        | Some (pin, v) =>
            if accepts env nm (Some pin) (type_of (store unconnected) v)
            then Ret (fresh s) (created (mkOperator nm (fed input) []) s)
            else Raise (TypeError pin) unconnected
        | None => Ret (fresh s) unconnected
        end
      else Raise (DPFServerException nm) s).
  { unfold Model.operator. rewrite bind_run, Operator_checked_run.
    destruct (known remote nm); [|done].
    rewrite bind_run, (new_operator_connected env remote nm s d Hd).
    fold input unconnected.
    destruct input as [[pin v]|]; [|done].
    by destruct (accepts env nm (Some pin) _). }
  split; [by intros Hk; rewrite Hrun, Hk|].
  split.
  { intros Hk Hacc. rewrite Hrun, Hk.
    destruct input as [[pin v]|]; [|done]. by rewrite (Hacc pin v eq_refl). }
  split.
  { intros Hk pin v Hin Hrej. rewrite Hrun, Hk, Hin. by rewrite Hrej. }
  split.
  { intros sp Hsp Hpin. unfold input, model_input. by rewrite Hsp, Hpin. }
  rewrite Hrun.
  destruct (known remote nm); [|done].
  destruct input as [[pin v]|];
    [destruct (accepts env nm (Some pin) _)|]; simpl;
    (split; [done|]); (split; [done|]);
    intros k Hk; by rewrite lookup_insert_ne.
Qed.

Lemma model_operator_one_source_witness :
  Model.operator env0 remote_all_pins "U" s_streams
  = Ret 2%positive
      (created (mkOperator "U" {[ "streams" := POutputs 1%positive ]} [])
         s_streams).
Proof.
  destruct (model_operator_one_source env0 remote_all_pins "U" s_streams
              (mkDataSources (Some "a.rst")) eq_refl)
    as (_ & Hrun & _ & Hfed & _).
  rewrite Hrun; [|reflexivity|reflexivity].
  by rewrite (Hfed 1%positive eq_refl eq_refl).
Defined.

(** [Result(model, result_info)] builds the operator of the result type
    twice, once to read its documentation and once to keep it, and
    feeds the second from the model.  When the server does not know the
    operator the object is returned without [_operator] and no error is
    raised; a pin that rejects the model's input raises its type error.
    The selectors of a new result are all [None]. *)
Theorem result_init_outcomes (env : Env) (remote : Remote)
    (result_info : AvailableResult) (s : Session) (d : DataSources) :
  _data_sources (model s) = Some d →
  let nm := result_operator_name env result_info in
  let s1 := created (mkOperator (operator_name result_info) ∅ []) s in
  let unconnected := created (mkOperator nm ∅ []) s1 in
  let input := model_input remote (model s) nm in
  (known remote (operator_name result_info) = false →
   Result_init.__init__ env remote result_info s
   = Ret (WithoutOperator result_info) s) ∧
  (known remote (operator_name result_info) = true →
   known remote nm = false →
   Result_init.__init__ env remote result_info s
   = Ret (WithoutOperator result_info) s1) ∧
  (known remote (operator_name result_info) = true →
   known remote nm = true →
   (∀ pin v, input = Some (pin, v) →
      accepts env nm (Some pin) (type_of (store unconnected) v) = true) →
   Result_init.__init__ env remote result_info s
   = Ret (WithOperator (new_result result_info (fresh s1)))
       (created (mkOperator nm (fed input) []) s1)) ∧
  (known remote (operator_name result_info) = true →
   known remote nm = true →
   ∀ pin v, input = Some (pin, v) →
     accepts env nm (Some pin) (type_of (store unconnected) v) = false →
     Result_init.__init__ env remote result_info s
     = Raise (TypeError pin) unconnected).
Proof.
  intros Hd nm s1 unconnected input.
  assert (Hrun : Result_init.__init__ env remote result_info s
    = if known remote (operator_name result_info) then
        if known remote nm then
          match input with
          | Some (pin, v) =>
              if accepts env nm (Some pin) (type_of (store unconnected) v)
              then Ret (WithOperator (new_result result_info (fresh s1)))
                     (created (mkOperator nm (fed input) []) s1)
              else Raise (TypeError pin) unconnected
          | None => Ret (WithOperator (new_result result_info (fresh s1)))
                      unconnected
          end
        else Ret (WithoutOperator result_info) s1
      else Ret (WithoutOperator result_info) s).
  { unfold Result_init.__init__, try_except.
    rewrite bind_run, Operator_checked_run.
    destruct (known remote (operator_name result_info)); [|done].
    fold s1. rewrite bind_run.
    assert (Hop :
      (if has_wrapper env "result" (name result_info)
       then Operator_checked remote (wrapper_name env "result" (name result_info))
       else Operator_checked remote (operator_name result_info)) s1
      = Operator_checked remote nm s1).
    { unfold nm, result_operator_name.
      by destruct (has_wrapper env "result" (name result_info)). }
    rewrite Hop, Operator_checked_run.
    destruct (known remote nm); [|done].
    rewrite bind_run, (new_operator_connected env remote nm s1 d Hd).
    change (model s1) with (model s). fold input unconnected.
    destruct input as [[pin v]|]; [|done].
    by destruct (accepts env nm (Some pin) _). }
  split; [by intros Hk; rewrite Hrun, Hk|].
  split; [by intros Hk Hk2; rewrite Hrun, Hk, Hk2|].
  split.
  - intros Hk Hk2 Hacc. rewrite Hrun, Hk, Hk2.
    destruct input as [[pin v]|]; [|done]. by rewrite (Hacc pin v eq_refl).
  - intros Hk Hk2 pin v Hin Hrej. rewrite Hrun, Hk, Hk2, Hin. by rewrite Hrej.
Qed.

Lemma result_init_outcomes_witness :
  Result_init.__init__ env0 remote_only_U
    (mkAvailableResult "stress" "S" "ElementalNodal") s_streams
  = Ret (WithoutOperator (mkAvailableResult "stress" "S" "ElementalNodal"))
      s_streams ∧
  ∃ s', Result_init.__init__ env0 remote_only_U
          (mkAvailableResult "displacement" "U" "Nodal") s_streams
        = Ret (WithOperator
                 (new_result (mkAvailableResult "displacement" "U" "Nodal")
                    3%positive)) s'
        ∧ store s' !! 3%positive
          = Some (mkOperator "U"
                    {[ "data_sources" := PDataSources (mkDataSources (Some "a.rst")) ]}
                    []).
Proof.
  split.
  - destruct (result_init_outcomes env0 remote_only_U
                (mkAvailableResult "stress" "S" "ElementalNodal") s_streams
                (mkDataSources (Some "a.rst")) eq_refl) as (Hrun & _).
    apply Hrun. reflexivity.
  - destruct (result_init_outcomes env0 remote_only_U
                (mkAvailableResult "displacement" "U" "Nodal") s_streams
                (mkDataSources (Some "a.rst")) eq_refl) as (_ & _ & Hrun & _).
    eexists. split; [apply Hrun; reflexivity|]. reflexivity.
Defined.

(** Whatever it returns, the constructor of a [Result] keeps the result
    type it was given. *)
Lemma returns_try {A} (Q : A → Prop) (c : M A) (h : pyexn → M A) :
  returns Q c → (∀ e, returns Q (h e)) → returns Q (try_except c h).
Proof.
  intros Hc Hh s a s'. unfold try_except.
  destruct (c s) as [a1 s1|e s1] eqn:Hcs.
  - intros [= <- <-]. by apply (Hc s a1 s1).
  - apply Hh.
Qed.

Lemma returns_raise {A} (Q : A → Prop) (e : pyexn) : returns Q (raise e).
Proof. by intros s a s'. Qed.

Lemma result_init_info (env : Env) (remote : Remote)
    (result_info : AvailableResult) :
  returns (fun r => info_of r = result_info)
    (Result_init.__init__ env remote result_info).
Proof.
  unfold Result_init.__init__. apply returns_try.
  - do 3 (apply returns_bind; intros ?). by apply returns_ret.
  - intros e. destruct e; try apply returns_raise. by apply returns_ret.
Qed.

(** ** results.py: the registry of [Results] *)

Lemma register_keys (rt : AvailableResult) (m : list (string * AvailableResult)) :
  (Results.register rt m).*1
  = if bool_decide (name rt ∈ m.*1) then m.*1 else (m.*1 ++ [name rt])%list.
Proof.
  induction m as [|[k v] m IH]; [done|].
  cbn [Results.register].
  destruct (String.eqb_spec k (name rt)) as [->|Hne].
  - rewrite bool_decide_eq_true_2; [done | apply elem_of_cons; by left].
  - rewrite !fmap_cons, IH. cbn [fst].
    destruct (decide (name rt ∈ m.*1)) as [Hin|Hin].
    + rewrite !bool_decide_eq_true_2; [done | apply elem_of_cons; by right | done].
    + rewrite !bool_decide_eq_false_2; [done | | done].
      intros [Heq | Hin']%elem_of_cons; [by symmetry in Heq | done].
Qed.

Lemma register_NoDup (rt : AvailableResult) (m : list (string * AvailableResult)) :
  NoDup m.*1 → NoDup (Results.register rt m).*1.
Proof.
  intros Hm. rewrite register_keys. case_bool_decide as Hin; [done|].
  apply NoDup_app. split; [done|]. split; [|apply NoDup_singleton].
  intros x Hx ->%list_elem_of_singleton. done.
Qed.

Lemma register_elem_of (rt : AvailableResult) (m : list (string * AvailableResult))
    (k : string) (v : AvailableResult) :
  (k, v) ∈ Results.register rt m → (k = name rt ∧ v = rt) ∨ (k, v) ∈ m.
Proof.
  induction m as [|[k' v'] m IH]; simpl.
  - intros [= -> ->]%list_elem_of_singleton. by left.
  - destruct (String.eqb_spec k' (name rt)) as [->|Hne].
    + intros [[= -> ->] | Hin]%elem_of_cons; [by left|].
      right. apply elem_of_cons. by right.
    + intros [[= -> ->] | Hin]%elem_of_cons.
      * right. apply elem_of_cons. by left.
      * destruct (IH Hin) as [?|?]; [by left|].
        right. apply elem_of_cons. by right.
Qed.

Lemma register_self (rt : AvailableResult) (m : list (string * AvailableResult)) :
  NoDup m.*1 → (name rt, rt) ∈ Results.register rt m.
Proof.
  induction m as [|[k' v'] m IH]; simpl; intros Hm.
  - by apply list_elem_of_singleton.
  - destruct (String.eqb_spec k' (name rt)) as [->|Hne].
    + apply elem_of_cons. by left.
    + apply elem_of_cons. right. apply IH. by apply NoDup_cons in Hm as [_ ?].
Qed.

Lemma register_other (rt : AvailableResult) (m : list (string * AvailableResult))
    (k : string) (v : AvailableResult) :
  k ≠ name rt → (k, v) ∈ m → (k, v) ∈ Results.register rt m.
Proof.
  intros Hne. induction m as [|[k' v'] m IH]; simpl;
    [by intros ?%elem_of_nil|].
  destruct (String.eqb_spec k' (name rt)) as [->|Hne'].
  - intros [[= -> ->] | Hin]%elem_of_cons; [done|].
    apply elem_of_cons. by right.
  - intros [[= -> ->] | Hin]%elem_of_cons.
    + apply elem_of_cons. by left.
    + apply elem_of_cons. right. by apply IH.
Qed.

Lemma register_length (rt : AvailableResult) (m : list (string * AvailableResult)) :
  (length (Results.register rt m) ≤ S (length m))%nat.
Proof.
  induction m as [|[k v] m IH]; simpl; [lia|].
  destruct (String.eqb k (name rt)); simpl; lia.
Qed.

(** What the registrations of a list of result types add to a registry
    with distinct keys. *)
Lemma registry_fold (remote : Remote) (rts : list AvailableResult) :
  ∀ m0 : list (string * AvailableResult),
    NoDup m0.*1 →
    let m := fold_left (fun m rt =>
                          if known remote (operator_name rt)
                          then Results.register rt m else m) rts m0 in
    NoDup m.*1 ∧
    (∀ k v, (k, v) ∈ m →
            (k, v) ∈ m0 ∨
            (name v = k ∧ v ∈ rts ∧ known remote (operator_name v) = true)) ∧
    (∀ k, k ∈ m0.*1 → k ∈ m.*1) ∧
    (∀ rt, rt ∈ rts → known remote (operator_name rt) = true → name rt ∈ m.*1) ∧
    (length m ≤ length m0 + length rts)%nat.
Proof.
  induction rts as [|rt rts IH]; intros m0 Hm0; simpl.
  - split; [done|]. split; [by left|]. split; [done|].
    split; [by intros rt []%elem_of_nil | lia].
  - set (m1 := if known remote (operator_name rt)
               then Results.register rt m0 else m0).
    assert (Hm1 : NoDup m1.*1).
    { unfold m1. destruct (known remote (operator_name rt)); [|done].
      by apply register_NoDup. }
    assert (Hkeys : ∀ k, k ∈ m0.*1 → k ∈ m1.*1).
    { intros k Hk. unfold m1.
      destruct (known remote (operator_name rt)); [|done].
      rewrite register_keys. case_bool_decide; [done|].
      apply elem_of_app. by left. }
    destruct (IH m1 Hm1) as (Hnd & Helems & Hmono & Hin & Hlen).
    split; [done|]. split; [|split; [|split]].
    + intros k v Hkv. destruct (Helems k v Hkv) as [Hm | (? & ? & ?)].
      * unfold m1 in Hm.
        destruct (known remote (operator_name rt)) eqn:Hk; [|by left].
        destruct (register_elem_of rt m0 k v Hm) as [[-> ->] | ?]; [|by left].
        right. split; [done|]. split; [|done]. apply elem_of_cons. by left.
      * right. split; [done|]. split; [|done]. apply elem_of_cons. by right.
    + intros k Hk. by apply Hmono, Hkeys.
    + intros rt' [-> | Hrt']%elem_of_cons Hk; [|by apply Hin].
      apply Hmono. unfold m1. rewrite Hk, register_keys.
      case_bool_decide; [done|].
      apply elem_of_app. right. by apply list_elem_of_singleton.
    + assert (length m1 ≤ S (length m0))%nat; [|lia].
      unfold m1. destruct (known remote (operator_name rt)); [|lia].
      apply register_length.
Qed.

(** The operators built to read the documentation are all the loop
    leaves in the session. *)
Lemma connect_loop_run (remote : Remote) (rts : list AvailableResult) :
  ∀ (m : list (string * AvailableResult)) (s : Session),
    ∃ s',
      Results.connect_loop remote rts m s
      = Ret (fold_left (fun m rt =>
                          if known remote (operator_name rt)
                          then Results.register rt m else m) rts m) s' ∧
      evaluations s' = evaluations s ∧
      model s' = model s ∧
      (fresh s ≤ fresh s')%positive ∧
      ∀ k, (k < fresh s)%positive → store s' !! k = store s !! k.
Proof.
  induction rts as [|rt rts IH]; intros m s; simpl.
  - exists s. repeat split; try done; lia.
  - rewrite bind_run. unfold try_except at 1.
    rewrite bind_run, Operator_checked_run.
    destruct (known remote (operator_name rt)).
    + destruct (IH (Results.register rt m)
                  (created (mkOperator (operator_name rt) ∅ []) s))
        as (s' & Hrun & Hev & Hmod & Hfr & Hst).
      exists s'. split; [exact Hrun|]. simpl in *.
      split; [done|]. split; [done|]. split; [lia|].
      intros k Hk. rewrite Hst by lia. apply lookup_insert_ne. lia.
    + destruct (IH m s) as (s' & Hrun & Hrest). by exists s'.
Qed.

(** [Results(model)] on a model with a result info returns a registry
    and never raises on a result type whose operator the server does not
    know: that type is left out.  The registered names are distinct,
    each is the name of the result type it is bound to, a type of the
    file whose operator the server knows, and every such type has its
    name registered.  [len(results)] is the number of registered names,
    at most the number of result types.  Nothing is evaluated, and the
    model and the operators already there are left as they were. *)
Theorem results_registry (remote : Remote) (s : Session) (ri : ResultInfo) :
  result_info (model s) = Some ri →
  ∃ m s',
    Results.__init__ remote s = Ret (Results.mk (Some ri) (Some m)) s' ∧
    m = registry remote (available_results ri) ∧
    NoDup m.*1 ∧
    (∀ k rt, (k, rt) ∈ m →
       name rt = k ∧ rt ∈ available_results ri ∧
       known remote (operator_name rt) = true) ∧
    (∀ rt, rt ∈ available_results ri →
       known remote (operator_name rt) = true → name rt ∈ m.*1) ∧
    Results.__len__ (Results.mk (Some ri) (Some m)) s' = Ret (length m) s' ∧
    (length m ≤ length (available_results ri))%nat ∧
    evaluations s' = evaluations s ∧
    model s' = model s ∧
    ∀ k, (k < fresh s)%positive → store s' !! k = store s !! k.
Proof.
  intros Hri.
  destruct (connect_loop_run remote (available_results ri) [] s)
    as (s' & Hrun & Hev & Hmod & _ & Hst).
  destruct (registry_fold remote (available_results ri) [] (NoDup_nil_2))
    as (Hnd & Helems & _ & Hin & Hlen).
  exists (registry remote (available_results ri)), s'.
  split.
  { unfold Results.__init__, Results._connect_operators, get_model.
    rewrite bind_run, Hri. simpl. rewrite bind_run.
    unfold registry. by rewrite Hrun. }
  split; [done|]. split; [exact Hnd|].
  split.
  { intros k rt Hk. by destruct (Helems k rt Hk) as [[]%elem_of_nil | ?]. }
  split; [exact Hin|]. split; [done|]. split; [exact Hlen|]. done.
Qed.

Lemma results_registry_witness :
  ∃ s',
    Results.__init__ remote_only_U
      (with_model (Metadata.set_result_info (Some ri_three) (model s_streams))
         s_streams)
    = Ret (Results.mk (Some ri_three)
             (Some [("displacement",
                     mkAvailableResult "displacement" "U" "Elemental")])) s'.
Proof.
  destruct (results_registry remote_only_U
              (with_model (Metadata.set_result_info (Some ri_three)
                             (model s_streams)) s_streams)
              ri_three eq_refl) as (m & s' & Hrun & -> & _).
  exists s'. exact Hrun.
Defined.

(** Registering is last-wins: the registry binds a name to the last
    result type of the file that has this name and a known operator. *)
Theorem registry_last_wins (remote : Remote) (pre post : list AvailableResult)
    (rt : AvailableResult) :
  known remote (operator_name rt) = true →
  (∀ rt', rt' ∈ post → known remote (operator_name rt') = true →
          name rt' ≠ name rt) →
  (name rt, rt) ∈ registry remote (pre ++ rt :: post).
Proof.
  intros Hk Hpost. unfold registry. rewrite fold_left_app. simpl. rewrite Hk.
  set (step := fun m rt0 => if known remote (operator_name rt0)
                            then Results.register rt0 m else m).
  destruct (registry_fold remote pre [] NoDup_nil_2) as (Hnd & _).
  fold step in Hnd.
  assert (Hself : (name rt, rt) ∈ Results.register rt (fold_left step pre []))
    by (by apply register_self).
  revert Hself. generalize (Results.register rt (fold_left step pre [])).
  induction post as [|rt' post IH]; intros m Hm; simpl; [done|].
  apply IH.
  - intros rt'' Hin. apply Hpost, elem_of_cons. by right.
  - unfold step. destruct (known remote (operator_name rt')) eqn:Hk'; [|done].
    apply register_other; [|done].
    intros Heq. apply (Hpost rt'); [apply elem_of_cons; by left | done | done].
Qed.

Lemma registry_last_wins_witness :
  ("displacement", mkAvailableResult "displacement" "U" "Elemental")
  ∈ registry remote_only_U (available_results ri_three).
Proof.
  apply (registry_last_wins remote_only_U
           [mkAvailableResult "displacement" "U" "Nodal";
            mkAvailableResult "stress" "S" "ElementalNodal"] []
           (mkAvailableResult "displacement" "U" "Elemental")).
  - reflexivity.
  - intros rt' Hin. by apply elem_of_nil in Hin.
Defined.

(** ** results.py: indexing and iterating [Results] *)

Lemma returns_bind_with {A B} (Q : A → Prop) (R : B → Prop) (c : M A)
    (k : A → M B) :
  returns Q c → (∀ a, Q a → returns R (k a)) → returns R (c ≫= k).
Proof.
  intros Hc Hk s b s'. rewrite bind_run.
  destruct (c s) as [a s1|e s1] eqn:Hcs; [|done].
  apply Hk. by apply (Hc s a s1).
Qed.

Lemma iter_loop_info (env : Env) (remote : Remote)
    (m : list (string * AvailableResult)) :
  returns (fun rs => map info_of rs = m.*2) (Results.iter_loop env remote m).
Proof.
  induction m as [|[k rt] m IH]; simpl.
  - by apply returns_ret.
  - eapply returns_bind_with; [apply result_init_info|].
    intros r Hr. eapply returns_bind_with; [apply IH|].
    intros rs Hrs. apply returns_ret. simpl. by rewrite Hr, Hrs.
Qed.

(** The loop of [__getitem__], started at count [n]. *)
Lemma getitem_loop_run (env : Env) (remote : Remote)
    (m : list (string * AvailableResult)) :
  ∀ (n val : Z) (s : Session),
    Results.getitem_loop env remote m n val s
    = match (if (val <? n)%Z then None else m !! Z.to_nat (val - n)) with
      | Some (k, rt) =>
          (r ← Result_init.__init__ env remote rt; mret (Some r)) s
      | None => Ret None s
      end.
Proof.
  induction m as [|[k rt] m IH]; intros n val s; simpl.
  - by destruct (val <? n)%Z.
  - destruct (Z.eqb_spec n val) as [->|Hne].
    + rewrite Z.ltb_irrefl, Z.sub_diag. reflexivity.
    + rewrite IH. destruct (Z.ltb_spec val n) as [Hlt|Hge].
      * by replace (val <? n + 1)%Z with true by (symmetry; apply Z.ltb_lt; lia).
      * replace (val <? n + 1)%Z with false by (symmetry; apply Z.ltb_ge; lia).
        replace (Z.to_nat (val - n)) with (S (Z.to_nat (val - (n + 1)))) by lia.
        reflexivity.
Qed.

(** [results[i]] builds the [Result] of the [i]-th registered name,
    counting from zero.  A negative index and an index past the end
    return [None] and leave the session as it was: there is no index
    error and no counting from the end.  Iterating yields one [Result]
    per registered name, in registration order. *)
Theorem results_getitem (env : Env) (remote : Remote) (self : Results.t)
    (m : list (string * AvailableResult)) (s : Session) :
  Results._op_map_rev self = Some m →
  (∀ val, (val < 0 ∨ Z.of_nat (length m) ≤ val)%Z →
     Results.__getitem__ env remote self val s = Ret None s) ∧
  (∀ i k rt, m !! i = Some (k, rt) →
     Results.__getitem__ env remote self (Z.of_nat i) s
     = (r ← Result_init.__init__ env remote rt; mret (Some r)) s) ∧
  (∀ val r s', Results.__getitem__ env remote self val s = Ret (Some r) s' →
     ∃ k, m !! Z.to_nat val = Some (k, info_of r) ∧ (0 ≤ val)%Z) ∧
  (∀ rs s', Results.__iter__ env remote self s = Ret rs s' →
     map info_of rs = m.*2).
Proof.
  intros Hm.
  assert (Hget : ∀ val, Results.__getitem__ env remote self val s
                        = Results.getitem_loop env remote m 0 val s).
  { intros val. unfold Results.__getitem__, Results.read_op_map_rev.
    by rewrite bind_run, Hm. }
  split; [|split; [|split]].
  - intros val Hval. rewrite Hget, getitem_loop_run.
    destruct (Z.ltb_spec val 0) as [Hlt|Hge]; [done|].
    rewrite lookup_ge_None_2; [done|]. lia.
  - intros i k rt Hi. rewrite Hget, getitem_loop_run.
    replace (Z.of_nat i <? 0)%Z with false by (symmetry; apply Z.ltb_ge; lia).
    replace (Z.to_nat (Z.of_nat i - 0)) with i by lia. by rewrite Hi.
  - intros val r s'. rewrite Hget, getitem_loop_run.
    destruct (Z.ltb_spec val 0) as [Hlt|Hge]; [done|].
    rewrite Z.sub_0_r.
    destruct (m !! Z.to_nat val) as [[k rt]|]; [|done].
    rewrite bind_run. intros Hrun. exists k. split; [|done].
    destruct (Result_init.__init__ env remote rt s) as [r1 s1|e s1] eqn:Hinit;
      [|done].
    injection Hrun as <- <-.
    by rewrite (result_init_info env remote rt s r1 s1 Hinit).
  - intros rs s'. unfold Results.__iter__, Results.read_op_map_rev.
    rewrite bind_run, Hm. apply iter_loop_info.
Qed.

Lemma results_getitem_witness :
  Results.__getitem__ env0 remote0
    (Results.mk (Some ri_three) (Some (registry remote0 (available_results ri_three))))
    (-1) s_streams = Ret None s_streams ∧
  Results.__getitem__ env0 remote0
    (Results.mk (Some ri_three) (Some (registry remote0 (available_results ri_three))))
    2 s_streams = Ret None s_streams ∧
  ∃ r s',
    Results.__getitem__ env0 remote0
      (Results.mk (Some ri_three) (Some (registry remote0 (available_results ri_three))))
      1 s_streams = Ret (Some r) s'
    ∧ info_of r = mkAvailableResult "stress" "S" "ElementalNodal".
Proof.
  destruct (results_getitem env0 remote0
              (Results.mk (Some ri_three)
                 (Some (registry remote0 (available_results ri_three))))
              (registry remote0 (available_results ri_three)) s_streams eq_refl)
    as (Hout & Hin & _).
  split; [apply Hout; left; lia|].
  split; [apply Hout; right; vm_compute; congruence|].
  specialize (Hin 1%nat "stress"
                (mkAvailableResult "stress" "S" "ElementalNodal") eq_refl).
  do 2 eexists. split; [exact Hin|]. reflexivity.
Defined.

(** A [Results] built on a model without result info has no registry:
    the constructor returns, and [len], indexing and iteration then
    raise an attribute error. *)
Theorem results_without_result_info (env : Env) (remote : Remote)
    (s : Session) :
  result_info (model s) = None →
  ∃ self,
    Results.__init__ remote s = Ret self s ∧
    Results.__len__ self s = Raise (AttributeError "_op_map_rev") s ∧
    (∀ val, Results.__getitem__ env remote self val s
            = Raise (AttributeError "_op_map_rev") s) ∧
    Results.__iter__ env remote self s = Raise (AttributeError "_op_map_rev") s.
Proof.
  intros Hri. exists (Results.mk None None).
  unfold Results.__init__, Results._connect_operators, get_model.
  rewrite bind_run, Hri. by repeat split.
Qed.

Lemma results_without_result_info_witness :
  ∃ self,
    Results.__init__ remote0 s0 = Ret self s0 ∧
    Results.__len__ self s0 = Raise (AttributeError "_op_map_rev") s0.
Proof.
  destruct (results_without_result_info env0 remote0 s0 eq_refl)
    as (self & Hinit & Hlen & _).
  by exists self.
Defined.

(** ** model.py: [Model.__init__] *)

(** A failing read of the result info. *)
Lemma load_result_info_raise_run (env : Env) (s : Session) (sp : loc)
    (spo : Operator) (e : pyexn) :
  sp ≠ fresh s →
  _stream_provider (model s) = Some sp →
  store s !! sp = Some spo →
  accepts env "ResultInfoProvider" None (TOutputs (op_name spo)) = true →
  reply_result_info env
    (<[fresh s := mkOperator "ResultInfoProvider" ∅ [POutputs sp]]> (store s))
    (fresh s) = inl e →
  Metadata._load_result_info env s
  = Raise (reported e)
      {| store := <[fresh s := mkOperator "ResultInfoProvider" ∅ [POutputs sp]]>
                    (store s);
         fresh := Pos.succ (fresh s);
         evaluations := S (evaluations s);
         fields_allocated := fields_allocated s;
         create_requests := create_requests s;
         model := model s |}.
Proof.
  intros Hne Hsp Hspo Hacc Hreply.
  unfold Metadata._load_result_info, Metadata.stream_provider_outputs,
    Operator_new, connect, evaluate.
  run_monad. rewrite Hsp. simpl.
  rewrite lookup_insert_eq. simpl.
  rewrite lookup_insert_ne by done. rewrite Hspo. simpl. rewrite Hacc. simpl.
  rewrite insert_insert_eq. rewrite Hreply.
  destruct e as [| | | | |details|]; simpl; try done.
  fold no_results_file.
  by destruct (Metadata.contains no_results_file details).
Qed.

Lemma Metadata_init_raise_run (env : Env) (data_sources : pyval) (s : Session)
    (e : pyexn) :
  let d := data_sources_of data_sources in
  let sp := Pos.succ (fresh s) in
  let rip := Pos.succ sp in
  let st := <[rip := mkOperator "ResultInfoProvider" ∅ [POutputs sp]]>
              (<[sp := stream_provider_on env d]>
                 (<[fresh s := stream_provider_on env d]> (store s))) in
  accepts env (stream_provider_name env) (stream_provider_pin env) TDataSources
    = true →
  accepts env "ResultInfoProvider" None (TOutputs (stream_provider_name env))
    = true →
  reply_result_info env st rip = inl e →
  Metadata.__init__ env data_sources s
  = Raise (reported e)
      {| store := st;
         fresh := Pos.succ rip;
         evaluations := S (evaluations s);
         fields_allocated := fields_allocated s;
         create_requests := create_requests s;
         model := {| _data_sources := Some d; _meshed_region := None;
                     result_info := None; _stream_provider := Some sp;
                     _time_freq_support := None |} |}.
Proof.
  intros d sp rip st Hacc Hrip Hreply.
  unfold Metadata.__init__.
  rewrite bind_run. unfold put_model at 1.
  rewrite bind_run, (set_data_sources_run env data_sources _ Hacc).
  do 4 (rewrite bind_run; unfold Metadata.assign at 1, get_model at 1,
          put_model at 1; rewrite bind_run; simpl).
  rewrite bind_run.
  erewrite (cache_streams_provider_run env _ d Hacc); [|reflexivity].
  unfold Metadata._cache_result_info. rewrite bind_run.
  erewrite (load_result_info_raise_run env _ sp (stream_provider_on env d) e);
    simpl; try done.
  - lia.
  - by rewrite lookup_insert_eq.
  - by rewrite stream_provider_on_name.
Qed.

(** [Model(data_sources)] reads the result info with exactly one remote
    evaluation and builds the registry of the results without any
    further one.  When the read fails the constructor raises what
    [_load_result_info] reports (the runtime error "Unable to open
    result file" for the missing-file diagnostic, the server's error
    otherwise); no registry is built and the metadata is left with a
    stream provider and no result info. *)
Theorem model_init_outcomes (env : Env) (remote : Remote)
    (data_sources : pyval) (s : Session) :
  let d := data_sources_of data_sources in
  let sp := Pos.succ (fresh s) in
  let rip := Pos.succ sp in
  let st := <[rip := mkOperator "ResultInfoProvider" ∅ [POutputs sp]]>
              (<[sp := stream_provider_on env d]>
                 (<[fresh s := stream_provider_on env d]> (store s))) in
  accepts env (stream_provider_name env) (stream_provider_pin env) TDataSources
    = true →
  accepts env "ResultInfoProvider" None (TOutputs (stream_provider_name env))
    = true →
  match reply_result_info env st rip with
  | inr ri =>
      ∃ s', Model_init.__init__ env remote data_sources s
            = Ret (Results.mk (Some ri)
                     (Some (registry remote (available_results ri)))) s' ∧
            model s' = {| _data_sources := Some d; _meshed_region := None;
                          result_info := Some ri; _stream_provider := Some sp;
                          _time_freq_support := None |} ∧
            evaluations s' = S (evaluations s)
  | inl e =>
      ∃ s', Model_init.__init__ env remote data_sources s
            = Raise (reported e) s' ∧
            model s' = {| _data_sources := Some d; _meshed_region := None;
                          result_info := None; _stream_provider := Some sp;
                          _time_freq_support := None |} ∧
            evaluations s' = S (evaluations s)
  end.
Proof.
  intros d sp rip st Hacc Hrip.
  destruct (reply_result_info env st rip) as [e|ri] eqn:Hreply.
  - eexists. unfold Model_init.__init__. rewrite bind_run.
    rewrite (Metadata_init_raise_run env data_sources s e Hacc Hrip Hreply).
    by repeat split.
  - unfold Model_init.__init__. rewrite bind_run.
    rewrite (Metadata_init_run env data_sources s ri Hacc Hrip Hreply).
    match goal with
    | |- ∃ s', Results.__init__ remote ?s1 = _ ∧ _ =>
        destruct (connect_loop_run remote (available_results ri) [] s1)
          as (s' & Hrun & Hev & Hmod & _)
    end.
    exists s'. split; [|by rewrite Hmod, Hev].
    unfold Results.__init__, Results._connect_operators, get_model.
    rewrite bind_run. simpl. rewrite bind_run.
    unfold registry. by rewrite Hrun.
Qed.

Lemma model_init_outcomes_witness :
  (∃ s', Model_init.__init__ env0 remote_only_U (PStr "a.rst") s0
         = Ret (Results.mk (Some (mkResultInfo "a.rst" [])) (Some [])) s'
         ∧ evaluations s' = 1%nat) ∧
  (∃ s', Model_init.__init__
           (env_failing (InactiveRpcError
              "DPF: the results file is not defined in the Data sources (1)"))
           remote_only_U PNone s0
         = Raise (RuntimeError "Unable to open result file") s'
         ∧ result_info (model s') = None).
Proof.
  split.
  - pose proof (model_init_outcomes env0 remote_only_U (PStr "a.rst") s0
                  eq_refl eq_refl) as H.
    simpl in H. destruct H as (s' & Hrun & _ & Hev).
    exists s'. by split.
  - pose proof (model_init_outcomes
                  (env_failing (InactiveRpcError
                     "DPF: the results file is not defined in the Data sources (1)"))
                  remote_only_U PNone s0 eq_refl eq_refl) as H.
    simpl in H. destruct H as (s' & Hrun & Hmod & _).
    exists s'. split; [exact Hrun|]. by rewrite Hmod.
Defined.
